(** * Open Sentencing Model: the [/predict] endpoint

    A shallow embedding of [notebooks/predict.py] (the extended variant) and
    [server/routes/predict.py] (the legacy variant): the cleaning pipeline
    [clean_data], the counterfactual generator [make_counterfactual], the
    discrepancy estimator [estimate_discrepancy], the percentile scorer
    [discrepancy_percentile] and the request handler [predict].

    Modelling conventions.
    - A [float64] is an exact rational ([Q]); [NaN] and [None] are the one
      null value a pandas cell can hold ([Null]).  Rounding error of binary
      floating point is outside the model; the infinities appear only where
      the code can create them (a division by a zero prediction).
    - A [DataFrame] is its list of column labels and its rows, each row an
      index label and a finite map from column label to cell.  Every Series
      the code combines is taken from the same frame, so index alignment is
      positional and operations are written row by row.
    - A Python exception is the [Raise] of the error monad [py]. *)

From Stdlib Require Import Ascii String QArith Qabs Qround Qminmax.
From stdpp Require Import gmap strings list fin_maps.

Open Scope string_scope.
Open Scope list_scope.

(** ** Cells, exceptions and the error monad *)

Inductive cell :=
| Null
| Str (s : string)
| Num (q : Q)
| Bool (b : bool).

Inductive exn :=
| KeyError (key : string)
| ValueError (text : string)
| TypeError
| IndexError
| FileNotFoundError (path : string).

Inductive py (A : Type) :=
| Ret (a : A)
| Raise (e : exn).
Arguments Ret {A} a.
Arguments Raise {A} e.

#[export] Instance py_ret : MRet py := @Ret.
#[export] Instance py_bind : MBind py := fun A B f m =>
  match m with
  | Ret a => f a
  | Raise e => Raise e
  end.

(** ** Data frames *)

Record DataFrame := {
  columns : list string;
  rows : list (nat * gmap string cell)
}.

(** [data[c]] at one row; a label the row does not hold reads as null. *)
Definition at_col (c : string) (r : nat * gmap string cell) : cell :=
  default Null (r.2 !! c).

Definition has_col (c : string) (data : DataFrame) : bool :=
  bool_decide (c ∈ columns data).

(** [data[c]]: the column as a Series, [KeyError] for an unknown label. *)
Definition getcol (c : string) (data : DataFrame) : py (list cell) :=
  if has_col c data then Ret (map (at_col c) (rows data))
  else Raise (KeyError c).

(** [data.loc[mask, :]] for a boolean mask computed from [data] itself. *)
Definition loc_rows (mask : nat * gmap string cell -> bool)
    (data : DataFrame) : DataFrame :=
  {| columns := columns data; rows := List.filter mask (rows data) |}.

Definition add_label (c : string) (cols : list string) : list string :=
  if bool_decide (c ∈ cols) then cols else cols ++ [c].

(** [data[c] = series], the series computed row by row from [data]. *)
Definition setcol (c : string) (f : nat * gmap string cell -> cell)
    (data : DataFrame) : DataFrame :=
  {| columns := add_label c (columns data);
     rows := map (fun r => (r.1, <[c := f r]> (r.2))) (rows data) |}.

(** [data.loc[mask, c] = v] for a scalar [v]. *)
Definition setcol_where (mask : nat * gmap string cell -> bool) (c : string)
    (v : cell) (data : DataFrame) : DataFrame :=
  {| columns := add_label c (columns data);
     rows := map (fun r => if mask r then (r.1, <[c := v]> (r.2)) else r)
                 (rows data) |}.

(** [data.drop(labels, axis=1)]: every label must be a column. *)
Fixpoint first_missing (labels cols : list string) : option string :=
  match labels with
  | [] => None
  | c :: rest =>
      if bool_decide (c ∈ cols) then first_missing rest cols else Some c
  end.

Definition delete_labels (labels : list string) (m : gmap string cell)
    : gmap string cell :=
  fold_right (fun c acc => delete c acc) m labels.

Definition drop (labels : list string) (data : DataFrame) : py DataFrame :=
  match first_missing labels (columns data) with
  | Some c => Raise (KeyError c)
  | None =>
      Ret {| columns :=
               List.filter (fun c => negb (bool_decide (c ∈ labels)))
                           (columns data);
             rows := map (fun r => (r.1, delete_labels labels (r.2)))
                         (rows data) |}
  end.

(** [data.shape[0] == 0] *)
Definition no_rows (data : DataFrame) : bool :=
  match rows data with
  | [] => true
  | _ => false
  end.

Definition isnull (c : cell) : bool :=
  match c with
  | Null => true
  | _ => false
  end.

(** [data.dropna(axis=0)]: keep the rows with no null in any column. *)
Definition dropna (data : DataFrame) : DataFrame :=
  loc_rows (fun r => forallb (fun c => negb (isnull (at_col c r)))
                             (columns data)) data.

(** ** Comparing cells *)

Definition number_of (c : cell) : option Q :=
  match c with
  | Num q => Some q
  | Bool true => Some 1%Q
  | Bool false => Some 0%Q
  | _ => None
  end.

(** Python's [==] on the values a cell holds: strings with strings, numbers
    (and booleans, which are integers) by value; a null equals nothing. *)
Definition cell_eqb (a b : cell) : bool :=
  match a, b with
  | Str s, Str t => String.eqb s t
  | _, _ =>
      match number_of a, number_of b with
      | Some x, Some y => Qeq_bool x y
      | _, _ => false
      end
  end.

(** [series.isin(values)] at one cell. *)
Definition isin (values : list cell) (c : cell) : bool :=
  existsb (cell_eqb c) values.

(** [series.map(dict)] at one cell: a value that is no key maps to NaN. *)
Definition map_dict (d : gmap string string) (c : cell) : cell :=
  match c with
  | Str s =>
      match d !! s with
      | Some v => Str v
      | None => Null
      end
  | _ => Null
  end.

(** ** Series statistics *)

Fixpoint insert_sorted (x : Q) (l : list Q) : list Q :=
  match l with
  | [] => [x]
  | y :: l' => if Qle_bool x y then x :: l else y :: insert_sorted x l'
  end.

Definition sort_values (l : list Q) : list Q := fold_right insert_sorted [] l.

(** The median of the non-null values; NaN ([None]) when there is none. *)
Definition median (l : list Q) : option Q :=
  let s := sort_values l in
  let n := length s in
  match n with
  | O => None
  | _ =>
      if Nat.even n
      then Some ((nth (n / 2 - 1) s 0 + nth (n / 2) s 0) / 2)%Q
      else Some (nth (n / 2) s 0%Q)
  end.

(** The numbers of a Series, nulls skipped ([skipna=True]); a string cannot
    be reduced and raises. *)
Fixpoint numeric_values (l : list cell) : py (list Q) :=
  match l with
  | [] => Ret []
  | Null :: l' => numeric_values l'
  | Str _ :: _ => Raise TypeError
  | c :: l' =>
      match numeric_values l' with
      | Ret qs => Ret (default 0%Q (number_of c) :: qs)
      | Raise e => Raise e
      end
  end.

(** [series.median()] *)
Definition series_median (l : list cell) : py cell :=
  qs ← numeric_values l;
  Ret (match median qs with
       | Some m => Num m
       | None => Null
       end).

Definition count_of (v : cell) (l : list cell) : nat :=
  length (List.filter (cell_eqb v) l).

(** The distinct values in order of first appearance. *)
Fixpoint uniques (l : list cell) : list cell :=
  match l with
  | [] => []
  | v :: l' => v :: List.filter (fun w => negb (cell_eqb v w)) (uniques l')
  end.

Fixpoint insert_count (x : cell * nat) (l : list (cell * nat))
    : list (cell * nat) :=
  match l with
  | [] => [x]
  | y :: l' =>
      if (y.2 <=? x.2)%nat then x :: l else y :: insert_count x l'
  end.

(** [series.value_counts()]: the non-null distinct values with their counts,
    most frequent first; equal counts stay in order of first appearance. *)
Definition value_counts (l : list cell) : list (cell * nat) :=
  let present := List.filter (fun c => negb (isnull c)) l in
  fold_right insert_count []
    (map (fun v => (v, count_of v present)) (uniques present)).

(** ** The cleaning pipeline: [clean_data] *)

Inductive variant := Extended | Legacy.

(** The offence column is [UPDATED_OFFENSE_CATEGORY] in the notebook and
    [OFFENSE_CATEGORY] in the server route. *)
Definition offense_category (v : variant) : string :=
  match v with
  | Extended => "UPDATED_OFFENSE_CATEGORY"
  | Legacy => "OFFENSE_CATEGORY"
  end.

Definition standard_race_map : gmap string string :=
  list_to_map
    [("Black", "Black");
     ("White", "White");
     ("HISPANIC", "HISPANIC");
     ("White [Hispanic or Latino]", "HISPANIC");
     ("White/Black [Hispanic or Latino]", "HISPANIC");
     ("ASIAN", "Asian");
     ("Asian", "Asian");
     ("American Indian", "American Indian");
     ("Unknown", "Unknown");
     ("Biracial", "Black")].

Definition commitment_term_units : list cell :=
  [Str "Year(s)"; Str "Months"; Str "Natural Life"; Str "Days"].

Definition term_divisors : gmap string Q :=
  list_to_map [("Year(s)", 1%Q); ("Months", 12%Q); ("Days", 365%Q)].

(** [data['COMMITMENT_UNIT'].map(term_divisors).fillna(1)] at one cell *)
Definition divisor_col (unit : cell) : Q :=
  match unit with
  | Str u => default 1%Q (term_divisors !! u)
  | _ => 1%Q
  end.

(** Float arithmetic on cells of a float column: NaN propagates. *)
Definition cell_div (c : cell) (d : Q) : cell :=
  match c with
  | Num q => Num (q / d)
  | other => other
  end.

Definition cell_rsub (k : Q) (c : cell) : cell :=
  match c with
  | Num q => Num (k - q)
  | other => other
  end.

(** [series.clip(upper=u)] at one cell of a float column *)
Definition clip_upper (u : Q) (c : cell) : cell :=
  match c with
  | Num q => Num (if Qle_bool q u then q else u)
  | other => other
  end.

Definition nan_cols : list string :=
  ["LENGTH_OF_CASE_in_Days"; "INCIDENT_CITY"; "LAW_ENFORCEMENT_UNIT"].

Definition top_ns (v : variant) : list (string * nat) :=
  [(offense_category v, 25%nat);
   ("DISPOSITION_CHARGED_OFFENSE_TITLE", 40%nat);
   ("LAW_ENFORCEMENT_AGENCY", 20%nat);
   ("SENTENCE_JUDGE", 73%nat)].

Definition natural_life (r : nat * gmap string cell) : bool :=
  cell_eqb (at_col "COMMITMENT_UNIT" r) (Str "Natural Life").

(** What [clean_data] returns: the cleaned frame, or the message naming the
    step that removed the last row. *)
Inductive cleaned :=
| Cleaned (data : DataFrame)
| Invalid (message : string).

Section Cleaning.

(** Python's [float(s)] on a string: [None] for the [ValueError] of a
    string that is no number, [Some None] for a NaN. *)
Variable float_of_str : string -> option (option Q).

(** [astype(float)] at one cell of an object or numeric column *)
Definition astype_float (c : cell) : py cell :=
  match c with
  | Str s =>
      match float_of_str s with
      | Some (Some q) => Ret (Num q)
      | Some None => Ret Null
      | None => Raise (ValueError s)
      end
  | Bool b => Ret (Num (if b then 1 else 0))
  | other => Ret other
  end.

(** Exclude non-prison sentences. *)
Definition exclude_non_prison (removeColumns : bool) (data : DataFrame)
    : py DataFrame :=
  _ ← getcol "SENTENCE_TYPE" data;
  let data :=
    loc_rows (fun r => cell_eqb (at_col "SENTENCE_TYPE" r) (Str "Prison"))
             data in
  if removeColumns then drop ["SENTENCE_TYPE"] data else Ret data.

(** Standardize race category names. *)
Definition standardize_race (data : DataFrame) : py DataFrame :=
  _ ← getcol "RACE" data;
  let data :=
    setcol "RACE" (fun r => map_dict standard_race_map (at_col "RACE" r))
           data in
  let data :=
    loc_rows (fun r => negb (cell_eqb (at_col "RACE" r) (Str "Unknown")))
             data in
  let data := loc_rows (fun r => negb (isnull (at_col "RACE" r))) data in
  Ret data.

(** Standardize gender categories. *)
Definition standardize_gender (data : DataFrame) : py DataFrame :=
  _ ← getcol "GENDER" data;
  Ret (setcol_where
         (fun r => negb (isin [Str "Male"; Str "Female"]
                              (at_col "GENDER" r)))
         "GENDER" (Str "Unknown") data).

(** [data[c] = data[c].astype(float)] *)
Definition astype_float_col (c : string) (data : DataFrame)
    : py DataFrame :=
  _ ← getcol c data;
  rs ← mapM (fun r => v ← astype_float (at_col c r);
                      Ret (r.1, <[c := v]> (r.2)))
            (rows data);
  Ret {| columns := columns data; rows := rs |}.

(** The term of the natural-life rows: 78 minus the median age at the
    incident of those rows, written to each of them. *)
Definition overwrite_natural_life (data : DataFrame) : py DataFrame :=
  _ ← getcol "COMMITMENT_UNIT" data;
  _ ← getcol "AGE_AT_INCIDENT" data;
  age_when_committed ←
    series_median
      (map (at_col "AGE_AT_INCIDENT") (rows (loc_rows natural_life data)));
  let natural_life_years := cell_rsub 78 age_when_committed in
  Ret (setcol_where natural_life "COMMITMENT_TERM" natural_life_years data).

(** Normalize the commitment term to year units. *)
Definition normalize_commitment_term (removeColumns : bool)
    (data : DataFrame) : py DataFrame :=
  data ← astype_float_col "COMMITMENT_TERM" data;
  _ ← getcol "COMMITMENT_UNIT" data;
  let data :=
    loc_rows (fun r => isin commitment_term_units
                            (at_col "COMMITMENT_UNIT" r)) data in
  let data :=
    setcol "COMMITMENT_TERM"
           (fun r => cell_div (at_col "COMMITMENT_TERM" r)
                              (divisor_col (at_col "COMMITMENT_UNIT" r)))
           data in
  data ← overwrite_natural_life data;
  if removeColumns then drop ["COMMITMENT_UNIT"] data else Ret data.

(** Drop the variables and the examples with nulls. *)
Definition drop_nulls (removeColumns : bool) (data : DataFrame)
    : py DataFrame :=
  data ← (if removeColumns then drop nan_cols data else Ret data);
  Ret (dropna data).

(** Reduce the cardinality of the high-cardinality categories: in each
    listed column, every value after the [n] most frequent ones becomes
    [misc_other]. *)
Fixpoint reduce_cardinality (tops : list (string * nat))
    (data : DataFrame) : py DataFrame :=
  match tops with
  | [] => Ret data
  | (name, n) :: rest =>
      col ← getcol name data;
      let combine_cats := map fst (skipn n (value_counts col)) in
      reduce_cardinality rest
        (setcol_where (fun r => isin combine_cats (at_col name r))
                      name (Str "misc_other") data)
  end.

(** Clip the range of [COMMITMENT_TERM]. *)
Definition clip_commitment_term (data : DataFrame) : py DataFrame :=
  _ ← getcol "COMMITMENT_TERM" data;
  Ret (setcol "COMMITMENT_TERM"
              (fun r => clip_upper 110 (at_col "COMMITMENT_TERM" r)) data).

Definition clean_data (v : variant) (removeColumns : bool)
    (data : DataFrame) : py cleaned :=
  data ← exclude_non_prison removeColumns data;
  if no_rows data then Ret (Invalid "INVALID: No Prison sentences found")
  else
  data ← standardize_race data;
  if no_rows data then Ret (Invalid "INVALID: No valid race values found")
  else
  data ← standardize_gender data;
  if no_rows data then Ret (Invalid "INVALID: No valid gender values found")
  else
  data ← normalize_commitment_term removeColumns data;
  if no_rows data
  then Ret (Invalid "INVALID: No valid commitment term units found")
  else
  data ← drop_nulls removeColumns data;
  if no_rows data then Ret (Invalid "INVALID: No null-free examples found")
  else
  data ← reduce_cardinality (top_ns v) data;
  data ← clip_commitment_term data;
  Ret (Cleaned data).

End Cleaning.

(** ** The counterfactual generator

    Data frames are Python objects: [make_counterfactual] receives a
    reference, copies the object it points to and assigns the [RACE] column
    of the copy.  The object store is a list of frames, a reference is a
    position in it, and allocation appends. *)

Definition race_counterfactual_map : gmap string string :=
  list_to_map
    [("Black", "White");
     ("White", "Black");
     ("HISPANIC", "White");
     ("Asian", "White");
     ("American Indian", "White")].

Definition deref (h : list DataFrame) (ref : nat) : py DataFrame :=
  match h !! ref with
  | Some d => Ret d
  | None => Raise TypeError
  end.

(** [data.copy()]: a new object holding the same columns and rows. *)
Definition copy (h : list DataFrame) (ref : nat)
    : py (nat * list DataFrame) :=
  d ← deref h ref;
  Ret (length h, h ++ [d]).

Definition make_counterfactual (data : nat) (h : list DataFrame)
    : py (nat * list DataFrame) :=
  '(data_counterfactual, h) ← copy h data;
  d ← deref h data;
  _ ← getcol "RACE" d;
  dc ← deref h data_counterfactual;
  (* data_counterfactual['RACE'] = data['RACE'].map(race_counterfactual_map):
     the copy has the rows of [data], so the mapped series is assigned row
     by row *)
  let dc :=
    setcol "RACE" (fun r => map_dict race_counterfactual_map (at_col "RACE" r))
           dc in
  Ret (data_counterfactual, <[data_counterfactual := dc]> h).

(** ** The discrepancy estimator *)

(** The trained pipeline: [model.predict] and the column order it was fit
    on, [model[0]._df_columns]. *)
Record Model := {
  model_predict : DataFrame -> list Q;
  df_columns : list string
}.

(** An elementwise numpy operation on two 1-d arrays, with broadcasting of a
    one-element array. *)
Definition broadcast2 {A : Type} (f : Q -> Q -> A) (a b : list Q)
    : py (list A) :=
  if (length a =? length b)%nat then Ret (zip_with f a b)
  else
    match a, b with
    | [x], _ => Ret (map (f x) b)
    | _, [y] => Ret (map (fun x => f x y) a)
    | _, _ => Raise (ValueError "operands could not be broadcast together")
    end.

Module Notebook.

(** Returns the discrepancy and, when [return_pred], the prediction. *)
Definition estimate_discrepancy (model : Model) (data : nat)
    (return_pred : bool) (h : list DataFrame)
    : py (list Q * option (list Q) * list DataFrame) :=
  d ← deref h data;
  let pred := model_predict model d in
  '(cf, h) ← make_counterfactual data h;
  dc ← deref h cf;
  diff ← broadcast2 Qminus pred (model_predict model dc);
  if return_pred then Ret (diff, Some pred, h) else Ret (diff, None, h).

End Notebook.

Module Server.

Definition estimate_discrepancy (model : Model) (data : nat)
    (h : list DataFrame) : py (list Q * list DataFrame) :=
  '(cf, h) ← make_counterfactual data h;
  dc ← deref h cf;
  d ← deref h data;
  diff ← broadcast2 Qminus (model_predict model dc) (model_predict model d);
  Ret (diff, h).

End Server.

(** ** The percentile scorer *)

(** A numpy float: NaN, an infinity, or a finite value. *)
Inductive float :=
| NaN
| Inf (negative : bool)
| Fin (q : Q).

Definition fabs (x : float) : float :=
  match x with
  | NaN => NaN
  | Inf _ => Inf false
  | Fin q => Fin (Qabs q)
  end.

(** [x > y]; every comparison with NaN is false. *)
Definition fgt (x y : float) : bool :=
  match x, y with
  | NaN, _ | _, NaN => false
  | Inf false, Inf false => false
  | Inf false, _ => true
  | Inf true, _ => false
  | Fin _, Inf true => true
  | Fin _, Inf false => false
  | Fin a, Fin b => negb (Qle_bool a b)
  end.

(** [a / b] on finite floats; numpy warns and yields an infinity or NaN for
    a zero divisor. *)
Definition fdiv (a b : Q) : float :=
  if Qeq_bool b 0 then
    if Qeq_bool a 0 then NaN else Inf (Qle_bool a 0)
  else Fin (a / b).

(** The files the process reads, and the log of the paths it has opened. *)
Inductive file :=
| JsonList (values : list Q)
| Pickle (model : Model)
| Other.

Record World := {
  files : gmap string file;
  opened : list string
}.

(** [open(path)]: the file, and the world in which the open is logged. *)
Definition open (path : string) (w : World) : py file * World :=
  match files w !! path with
  | Some f =>
      (Ret f, {| files := files w; opened := opened w ++ [path] |})
  | None => (Raise (FileNotFoundError path), w)
  end.

Definition discrepancy_percentile (new_discrepancy : list float)
    (discrepancies_path : string) (w : World) : py (list float) * World :=
  match open discrepancies_path w with
  | (Ret (JsonList values), w) =>
      let test_discrepancies := map (fun t => Fin (Qabs t)) values in
      let n := length test_discrepancies in
      let new_discrepancy := map fabs new_discrepancy in
      let percentile :=
        map (fun x =>
               let mask := map (fgt x) test_discrepancies in
               let sum := length (List.filter id mask) in
               match n with
               | O => NaN
               | _ => Fin (inject_Z (Z.of_nat sum) / inject_Z (Z.of_nat n)
                           * 100)
               end)
            new_discrepancy in
      (Ret percentile, w)
  | (Ret _, w) => (Raise (ValueError "not a JSON list of numbers"), w)
  | (Raise e, w) => (Raise e, w)
  end.

(** ** The request handler *)

(** A value of the request's JSON object. *)
Inductive pyval :=
| PNone
| PBool (b : bool)
| PInt (z : Z)
| PFloat (q : Q)
| PStr (s : string)
| PNested.

(** The validators [PREDICT_SCHEMA] is built from.  A type validator is an
    [isinstance] check, except that the schema library refuses a boolean
    where [int] is asked for, although [bool] is a subclass of [int]. *)
Inductive validator :=
| V_int
| V_float
| V_bool
| V_None
| V_str_len
| V_Or (a b : validator).

Fixpoint validates (s : validator) (v : pyval) : bool :=
  match s, v with
  | V_int, PInt _ => true
  | V_float, PFloat _ => true
  | V_bool, PBool _ => true
  | V_None, PNone => true
  | V_str_len, PStr s => negb (String.eqb s "")
  | V_Or a b, _ => validates a v || validates b v
  | _, _ => false
  end.

Definition PREDICT_SCHEMA (v : variant) : list (string * validator) :=
  [("CHARGE_COUNT", V_int);
   ("CHARGE_DISPOSITION", V_str_len);
   (offense_category v, V_str_len);
   ("PRIMARY_CHARGE_FLAG", V_bool);
   ("DISPOSITION_CHARGED_OFFENSE_TITLE", V_str_len);
   ("DISPOSITION_CHARGED_CLASS", V_str_len);
   ("SENTENCE_JUDGE", V_str_len);
   ("SENTENCE_PHASE", V_str_len);
   ("COMMITMENT_TERM", V_Or V_str_len (V_Or V_int V_float));
   ("COMMITMENT_UNIT", V_str_len);
   ("LENGTH_OF_CASE_in_Days", V_Or V_float V_int);
   ("AGE_AT_INCIDENT", V_Or V_float V_int);
   ("RACE", V_str_len);
   ("GENDER", V_str_len);
   ("INCIDENT_CITY", V_Or V_str_len V_None);
   ("LAW_ENFORCEMENT_AGENCY", V_str_len);
   ("LAW_ENFORCEMENT_UNIT", V_Or V_str_len V_None);
   ("SENTENCE_TYPE", V_str_len)].

(** [schema.validate(data)] for a dictionary schema: every key of the schema
    is present with a valid value and the data has no other key; [None] is
    the [SchemaError]. *)
Definition schema_validate (schema : list (string * validator))
    (data : gmap string pyval) : option (gmap string pyval) :=
  if forallb (fun kv => match data !! kv.1 with
                        | Some v => validates (kv.2) v
                        | None => false
                        end) schema
     && forallb (fun kv => bool_decide (kv.1 ∈ map fst schema))
                (map_to_list data)
  then Some data
  else None.

Definition cell_of (v : pyval) : cell :=
  match v with
  | PBool b => Bool b
  | PInt z => Num (inject_Z z)
  | PFloat q => Num q
  | PStr s => Str s
  | PNone | PNested => Null
  end.

(** [pd.DataFrame({k: [v] for k, v in data.items()})]: one row, labelled 0. *)
Definition frame_of_record (data : gmap string pyval) : DataFrame :=
  {| columns := map fst (map_to_list data);
     rows := [(0%nat, cell_of <$> data)] |}.

(** [data[labels]]: the listed columns in the listed order. *)
Definition select (labels : list string) (data : DataFrame) : py DataFrame :=
  match first_missing labels (columns data) with
  | Some c => Raise (KeyError c)
  | None =>
      Ret {| columns := labels;
             rows := map (fun r => (r.1,
                            filter (fun kv => kv.1 ∈ labels) (r.2)))
                         (rows data) |}
  end.

(** [round(x, 3)]: to the nearest multiple of 1/1000, ties to even. *)
Definition round3 (q : Q) : Q :=
  let s := (q * 1000)%Q in
  let f := Qfloor s in
  let up :=
    match (s - inject_Z f ?= 1 # 2)%Q with
    | Lt => false
    | Gt => true
    | Eq => Z.odd f
    end in
  (inject_Z (if up then f + 1 else f) / 1000)%Q.

Definition fround3 (x : float) : float :=
  match x with
  | Fin q => Fin (round3 q)
  | other => other
  end.

Inductive value :=
| VFloat (x : float)
| VStr (s : string).

(** What the handler sends back. *)
Inductive response :=
| Success (body : list (string * value))
| SchemaFailure
| DataFailure (message : string).

(** Module level: [with open(MODEL_PATH, 'rb') as f: model = pickle.load(f)] *)
Definition load_model (MODEL_PATH : string) (w : World) : py Model * World :=
  match open MODEL_PATH w with
  | (Ret (Pickle model), w) => (Ret model, w)
  | (Ret _, w) => (Raise (ValueError "could not unpickle"), w)
  | (Raise e, w) => (Raise e, w)
  end.

Module NotebookHandler.

Definition MODEL_PATH : string :=
  "server/models/sentence_pipe_mae1.555_2020-10-10_02h46m24s.pkl".

Definition TEST_DISCREPANCIES_PATH : string :=
  "models/test_data_percentage_discrepancies.json".

(** [os.path.splitext(os.path.split(MODEL_PATH)[-1])[0]] *)
Definition model_name : string :=
  "sentence_pipe_mae1.555_2020-10-10_02h46m24s".

Definition predict (float_of_str : string -> option (option Q))
    (model : Model) (request_json : gmap string pyval) (w : World)
    : py response * World :=
  match schema_validate (PREDICT_SCHEMA Extended) request_json with
  | None => (Ret SchemaFailure, w)
  | Some data =>
      let data := frame_of_record data in
      match clean_data float_of_str Extended true data with
      | Raise e => (Raise e, w)
      | Ret (Invalid message) =>
          (Ret (DataFailure (String.append "DATA ERROR: " message)), w)
      | Ret (Cleaned data) =>
          match (data ← select (df_columns model) data;
                 '(discrepancy, prediction, _) ←
                   Notebook.estimate_discrepancy model 0 true [data];
                 percent_discrepancy ←
                   broadcast2 fdiv discrepancy (default [] prediction);
                 Ret (discrepancy, percent_discrepancy)) with
          | Raise e => (Raise e, w)
          | Ret (discrepancy, percent_discrepancy) =>
              match discrepancy_percentile percent_discrepancy
                                           TEST_DISCREPANCIES_PATH w with
              | (Raise e, w) => (Raise e, w)
              | (Ret percentile, w) =>
                  match discrepancy, percentile with
                  | d0 :: _, p0 :: _ =>
                      (Ret (Success
                         [("sentencing_discrepancy", VFloat (Fin (round3 d0)));
                          ("severity", VFloat (fround3 p0));
                          ("model_name", VStr model_name)]), w)
                  | _, _ => (Raise IndexError, w)
                  end
              end
          end
      end
  end.

End NotebookHandler.

Module ServerHandler.

Definition MODEL_PATH : string :=
  "server/models/sentence_pipe_mae1.776_2020-08-22_00h39m54s.pkl".

Definition predict (float_of_str : string -> option (option Q))
    (model : Model) (request_json : gmap string pyval) : py response :=
  match schema_validate (PREDICT_SCHEMA Legacy) request_json with
  | None => Ret SchemaFailure
  | Some data =>
      let data := frame_of_record data in
      cleaned ← clean_data float_of_str Legacy true data;
      match cleaned with
      | Invalid message =>
          Ret (DataFailure (String.append "DATA ERROR: " message))
      | Cleaned data =>
          data ← select (df_columns model) data;
          '(discrepancy, _) ← Server.estimate_discrepancy model 0 [data];
          match discrepancy with
          | d0 :: _ =>
              Ret (Success
                     [("years_of_racial_bias_sentencing_discrepency",
                       VFloat (Fin (round3 d0)))])
          | [] => Raise IndexError
          end
      end
  end.

End ServerHandler.

(** ** Decimal literals

    The strings [float(s)] accepts include the plain decimal literals: an
    optional sign, digits, and an optional fraction.  [decimal_literal]
    reads exactly those; it instantiates [float_of_str] where a concrete
    run of the pipeline is evaluated. *)

Definition digit_of (a : ascii) : option Z :=
  let n := nat_of_ascii a in
  if ((48 <=? n) && (n <=? 57))%nat then Some (Z.of_nat (n - 48)) else None.

(** The value of the digits read so far and how many were read; [None] at a
    character that is no digit. *)
Fixpoint read_digits (s : string) (acc : Z) (count : nat)
    : option (Z * nat) :=
  match s with
  | EmptyString => Some (acc, count)
  | String a rest =>
      match digit_of a with
      | Some d => read_digits rest (10 * acc + d)%Z (S count)
      | None => None
      end
  end.

Fixpoint split_at_point (s : string) : string * option string :=
  match s with
  | EmptyString => (EmptyString, None)
  | String a rest =>
      if Ascii.eqb a "."%char then (EmptyString, Some rest)
      else let '(i, f) := split_at_point rest in (String a i, f)
  end.

Definition unsigned_literal (s : string) : option Q :=
  let '(i, f) := split_at_point s in
  match read_digits i 0 0, read_digits (default EmptyString f) 0 0 with
  | Some (iv, ic), Some (fv, fc) =>
      if (ic + fc =? 0)%nat then None
      else Some (inject_Z iv + inject_Z fv / inject_Z (10 ^ Z.of_nat fc))%Q
  | _, _ => None
  end.

Definition decimal_literal (s : string) : option (option Q) :=
  match s with
  | String "-" rest => (fun q => Some (- q)%Q) <$> unsigned_literal rest
  | String "+" rest => Some <$> unsigned_literal rest
  | _ => Some <$> unsigned_literal s
  end.

(** ** The specification's own formulations *)

#[export] Instance py_fmap : FMap py := fun A B f m =>
  match m with
  | Ret a => Ret (f a)
  | Raise e => Raise e
  end.

(** "Strictly less than" on floats, read off the order of the rationals. *)
Definition flt (x y : float) : bool :=
  match x, y with
  | Fin a, Fin b =>
      match (a ?= b)%Q with
      | Lt => true
      | _ => false
      end
  | Fin _, Inf false => true
  | Inf true, Fin _ => true
  | Inf true, Inf false => true
  | _, _ => false
  end.

(** The count of reference values whose magnitude is strictly less than
    the magnitude of the new value. *)
Definition strictly_less_count (x : float) (reference : list Q) : nat :=
  length (List.filter (fun t => flt (Fin (Qabs t)) (fabs x)) reference).

(** [100 × count / total] *)
Definition spec_severity (x : float) (reference : list Q) : Q :=
  (100 * inject_Z (Z.of_nat (strictly_less_count x reference))
   / inject_Z (Z.of_nat (length reference)))%Q.

(** The fixed counterfactual mapping, case by case; any other value is
    missing. *)
Definition spec_counterfactual_race (c : cell) : cell :=
  match c with
  | Str s =>
      if String.eqb s "Black" then Str "White"
      else if String.eqb s "White" then Str "Black"
      else if String.eqb s "HISPANIC" then Str "White"
      else if String.eqb s "Asian" then Str "White"
      else if String.eqb s "American Indian" then Str "White"
      else Null
  | _ => Null
  end.

(** Two outcomes that are negations of each other: the same exception, or
    arrays that are elementwise opposite. *)
Definition negations (a b : py (list Q)) : Prop :=
  match a, b with
  | Ret x, Ret y => Forall2 (fun p q => (q == - p)%Q) x y
  | Raise e, Raise e' => e = e'
  | _, _ => False
  end.

(** "Clamped to a maximum of [u]" *)
Definition clamp_max (u q : Q) : Q := Qmin q u.

(** The divisors of the three convertible units. *)
Definition unit_divisor (u : string) (d : Q) : Prop :=
  (u = "Year(s)" /\ d = 1%Q) \/ (u = "Months" /\ d = 12%Q)
  \/ (u = "Days" /\ d = 365%Q).

(** The shared natural-life term of a batch: 78 minus the median age at the
    incident over the natural-life rows, NaN when there is no such age. *)
Definition natural_life_years (data : DataFrame) : py cell :=
  cell_rsub 78 <$>
    series_median (map (at_col "AGE_AT_INCIDENT")
                       (List.filter natural_life (rows data))).

(** "Loaded once at process start and never re-read": a percentile
    computation opens no file. *)
Definition never_reread (path : string) : Prop :=
  forall (w : World) (new_discrepancy : list float),
    opened (discrepancy_percentile new_discrepancy path w).2 = opened w.

(** The number of distinct non-null values of a column. *)
Definition distinct_values (name : string) (data : DataFrame) : nat :=
  length (uniques (List.filter (fun c => negb (isnull c))
                               (map (at_col name) (rows data)))).

(** The values of a listed column that [value_counts] ranks after its [n]
    most frequent ones: the values the reduction replaces. *)
Definition combined_values (name : string) (n : nat) (data : DataFrame)
    : list cell :=
  map fst (skipn n (value_counts (map (at_col name) (rows data)))).

(** A batch on which the reduction has nothing left to do: every listed
    column is present, and each of its values ranked after the [n] most
    frequent ones is [misc_other] already. *)
Definition settled (tops : list (string * nat)) (data : DataFrame) : bool :=
  forallb (fun t => has_col t.1 data
                    && forallb (cell_eqb (Str "misc_other"))
                               (combined_values t.1 t.2 data))
          tops.

(** What the reduction with [n] kept values does to one column. *)
Definition combine_rare (n : nat) (col : list cell) : list cell :=
  map (fun c => if isin (map fst (skipn n (value_counts col))) c
                then Str "misc_other" else c)
      col.

(** ** Example data *)

(** The sample request payload of the notebook, with the offence column of
    the variant, and the sentence type, race, term and unit left open. *)
Definition sample_request (v : variant) (sentence_type race : string)
    (term : pyval) (unit : string) : gmap string pyval :=
  list_to_map
    [(offense_category v, PStr "PROMIS Conversion");
     ("PRIMARY_CHARGE_FLAG", PBool true);
     ("DISPOSITION_CHARGED_OFFENSE_TITLE", PStr "ARMED ROBBERY");
     ("CHARGE_COUNT", PInt 1);
     ("DISPOSITION_CHARGED_CLASS", PStr "X");
     ("CHARGE_DISPOSITION", PStr "Plea Of Guilty");
     ("SENTENCE_JUDGE", PStr "James L Rhodes");
     ("SENTENCE_PHASE", PStr "Original Sentencing");
     ("SENTENCE_TYPE", PStr sentence_type);
     ("COMMITMENT_TERM", term);
     ("COMMITMENT_UNIT", PStr unit);
     ("LENGTH_OF_CASE_in_Days", PFloat 1307);
     ("AGE_AT_INCIDENT", PFloat 17);
     ("RACE", PStr race);
     ("GENDER", PStr "Male");
     ("INCIDENT_CITY", PNone);
     ("LAW_ENFORCEMENT_AGENCY", PStr "PROMIS Data Conversion");
     ("LAW_ENFORCEMENT_UNIT", PNone)].

Definition sample_frame (sentence_type race : string) (term : pyval)
    (unit : string) : DataFrame :=
  frame_of_record (sample_request Extended sentence_type race term unit).

(** A model that predicts two more years for a Black defendant. *)
Definition sample_model : Model :=
  {| model_predict := fun d =>
       map (fun r => if cell_eqb (at_col "RACE" r) (Str "Black")
                     then 12%Q else 10%Q) (rows d);
     df_columns := ["UPDATED_OFFENSE_CATEGORY"; "RACE"; "COMMITMENT_TERM"] |}.

Definition sample_world : World :=
  {| files :=
       {[ NotebookHandler.TEST_DISCREPANCIES_PATH :=
            JsonList [0.1; 0.2; 0.3; 0.4]%Q ]};
     opened := [] |}.

(** A natural-life row of a batch. *)
Definition life_row (label : nat) (age : Q) : nat * gmap string cell :=
  (label,
   list_to_map [("COMMITMENT_TERM", Num 1); ("COMMITMENT_UNIT", Str "Natural Life");
                ("AGE_AT_INCIDENT", Num age)]).

Definition life_batch : DataFrame :=
  {| columns := ["COMMITMENT_TERM"; "COMMITMENT_UNIT"; "AGE_AT_INCIDENT"];
     rows := [life_row 0 20; life_row 1 22; life_row 2 24] |}.

(** A batch with 23 law-enforcement agencies: nineteen on three rows each,
    one on two rows, three on one row each. *)
Definition agency_name (k : nat) : string :=
  String (ascii_of_nat (65 + k)) EmptyString.

Definition agency_column : list string :=
  flat_map (fun k => repeat (agency_name k) 3) (seq 0 19)
  ++ repeat (agency_name 19) 2 ++ ["x"; "y"; "z"].

Definition agency_batch : DataFrame :=
  {| columns := ["UPDATED_OFFENSE_CATEGORY"; "DISPOSITION_CHARGED_OFFENSE_TITLE";
                 "LAW_ENFORCEMENT_AGENCY"; "SENTENCE_JUDGE"];
     rows :=
       imap (fun i a =>
               (i, list_to_map
                     [("UPDATED_OFFENSE_CATEGORY", Str "Narcotics");
                      ("DISPOSITION_CHARGED_OFFENSE_TITLE", Str "ARMED ROBBERY");
                      ("LAW_ENFORCEMENT_AGENCY", Str a);
                      ("SENTENCE_JUDGE", Str "James L Rhodes")]))
            agency_column |}.

(** A batch with 21 law-enforcement agencies: twenty on two rows each and
    one on a single row. *)
Definition paired_agency_batch : DataFrame :=
  {| columns := ["UPDATED_OFFENSE_CATEGORY"; "DISPOSITION_CHARGED_OFFENSE_TITLE";
                 "LAW_ENFORCEMENT_AGENCY"; "SENTENCE_JUDGE"];
     rows :=
       imap (fun i a =>
               (i, list_to_map
                     [("UPDATED_OFFENSE_CATEGORY", Str "Narcotics");
                      ("DISPOSITION_CHARGED_OFFENSE_TITLE", Str "ARMED ROBBERY");
                      ("LAW_ENFORCEMENT_AGENCY", Str a);
                      ("SENTENCE_JUDGE", Str "James L Rhodes")]))
            (flat_map (fun k => repeat (agency_name k) 2) (seq 0 20)
             ++ ["z"]) |}.

(** Every row of [d'] is a row of [d] under the same label, with the cells
    of the columns in [P] unchanged. *)
Definition rows_from (P : string -> Prop) (d d' : DataFrame) : Prop :=
  forall i r', In (i, r') (rows d') ->
    exists r, In (i, r) (rows d)
              /\ forall c, P c -> at_col c (i, r') = at_col c (i, r).

(** A cell of a float column: NaN or a number. *)
Definition float_cell (c : cell) : Prop := c = Null \/ exists q, c = Num q.

(** ** What the pipeline promises about its result *)

(** The columns [clean_data] drops when [removeColumns] is set. *)
Definition dropped_columns : list string :=
  "SENTENCE_TYPE" :: "COMMITMENT_UNIT" :: nan_cols.

(** The columns [clean_data] reads on its way to a cleaned frame. *)
Definition required_columns (v : variant) (removeColumns : bool)
    : list string :=
  ["SENTENCE_TYPE"; "RACE"; "GENDER"; "COMMITMENT_TERM"; "COMMITMENT_UNIT";
   "AGE_AT_INCIDENT"]
  ++ (if removeColumns then nan_cols else [])
  ++ map fst (top_ns v).

(** The columns [clean_data] assigns to. *)
Definition assigned_columns (v : variant) : list string :=
  ["RACE"; "GENDER"; "COMMITMENT_TERM"] ++ map fst (top_ns v).

(** The race labels a cleaned row can carry. *)
Definition cleaned_races : list string :=
  ["Black"; "White"; "HISPANIC"; "Asian"; "American Indian"].

(** The messages [clean_data] can return. *)
Definition rejection_messages : list string :=
  ["INVALID: No Prison sentences found";
   "INVALID: No valid race values found";
   "INVALID: No valid commitment term units found";
   "INVALID: No null-free examples found"].

(** The index labels of a frame, in row order. *)
Definition index_labels (d : DataFrame) : list nat := map fst (rows d).

(** The float of opposite sign. *)
Definition fneg (x : float) : float :=
  match x with
  | NaN => NaN
  | Inf negative => Inf (negb negative)
  | Fin q => Fin (- q)
  end.

(** A request the schema refuses: a field of the schema is missing, a field
    is not of the schema, or a value fails the validator of its field. *)
Definition schema_invalid (schema : list (string * validator))
    (data : gmap string pyval) : Prop :=
  (exists k, In k (map fst schema) /\ data !! k = None)
  \/ (exists k x, data !! k = Some x /\ ~ In k (map fst schema))
  \/ (exists k s x, In (k, s) schema /\ data !! k = Some x
                    /\ validates s x = false).

(** A model whose prediction does not look at the [RACE] column. *)
Definition race_blind (model : Model) : Prop :=
  forall d d',
    columns d = columns d' ->
    Forall2 (fun r r' => r.1 = r'.1
                         /\ forall c, c <> "RACE" -> r.2 !! c = r'.2 !! c)
            (rows d) (rows d') ->
    model_predict model d = model_predict model d'.

(** A model that predicts ten years for every row. *)
Definition flat_model : Model :=
  {| model_predict := fun d => map (fun _ => 10%Q) (rows d);
     df_columns := ["UPDATED_OFFENSE_CATEGORY"; "RACE"; "COMMITMENT_TERM"] |}.

(** Two frames that differ at most in how [COMMITMENT_TERM] is written: the
    same columns and labels, the same cells elsewhere, and terms that
    [astype(float)] converts alike (the string "10" and the number 10). *)
Definition same_term_row (f : string -> option (option Q))
    (r r' : nat * gmap string cell) : Prop :=
  r'.1 = r.1
  /\ exists y,
       r'.2 = <["COMMITMENT_TERM" := y]> (r.2)
       /\ astype_float f y = astype_float f (at_col "COMMITMENT_TERM" r).

Definition same_but_term (f : string -> option (option Q))
    (d d' : DataFrame) : Prop :=
  columns d' = columns d /\ Forall2 (same_term_row f) (rows d) (rows d').

(** * Properties *)

(** ** Frames: columns, rows and cells *)

Lemma getcol_has (c : string) (data : DataFrame) :
  has_col c data = true -> getcol c data = Ret (map (at_col c) (rows data)).
Proof. intros H. unfold getcol. rewrite H. reflexivity. Qed.

Lemma filter_none {A : Type} (p : A -> bool) (l : list A) :
  (forall x, In x l -> p x = false) -> List.filter p l = [].
Proof.
  induction l as [|a l IH]; intros H; [reflexivity|].
  simpl. rewrite (H a (or_introl eq_refl)). apply IH.
  intros x Hx. apply H. right. exact Hx.
Qed.

Lemma cell_eqb_str (c : cell) (s : string) :
  cell_eqb c (Str s) = true <-> c = Str s.
Proof.
  destruct c as [|t|q|[]]; simpl; split; try discriminate; intros H.
  - apply String.eqb_eq in H. congruence.
  - inversion H. apply String.eqb_refl.
Qed.

Lemma cell_neqb_str (c : cell) (s : string) :
  c <> Str s -> cell_eqb c (Str s) = false.
Proof.
  intros H. destruct (cell_eqb c (Str s)) eqn:E; [|reflexivity].
  apply cell_eqb_str in E. contradiction.
Qed.

Lemma drop_has (c : string) (data : DataFrame) :
  has_col c data = true ->
  drop [c] data
  = Ret {| columns := List.filter (fun x => negb (bool_decide (x ∈ [c])))
                                  (columns data);
           rows := map (fun r => (r.1, delete c (r.2))) (rows data) |}.
Proof.
  intros H. unfold drop, first_missing. unfold has_col in H. rewrite H.
  reflexivity.
Qed.

Lemma at_col_insert (c : string) (v : cell) (i : nat) (m : gmap string cell) :
  at_col c (i, <[c := v]> m) = v.
Proof. unfold at_col. simpl. rewrite lookup_insert_eq. reflexivity. Qed.

Lemma at_col_insert_ne (c c' : string) (v : cell) (i : nat)
    (m : gmap string cell) :
  c' <> c -> at_col c (i, <[c' := v]> m) = at_col c (i, m).
Proof.
  intros H. unfold at_col. simpl. rewrite lookup_insert_ne by exact H.
  reflexivity.
Qed.

Lemma at_col_delete_ne (c c' : string) (i : nat) (m : gmap string cell) :
  c' <> c -> at_col c (i, delete c' m) = at_col c (i, m).
Proof.
  intros H. unfold at_col. simpl. rewrite lookup_delete_ne by exact H.
  reflexivity.
Qed.

Lemma has_col_filter (c : string) (labels cols : list string) :
  c ∈ cols -> c ∉ labels ->
  c ∈ List.filter (fun x => negb (bool_decide (x ∈ labels))) cols.
Proof.
  intros Hin Hout.
  apply list_elem_of_In, filter_In. split.
  - apply list_elem_of_In. exact Hin.
  - apply negb_true_iff, bool_decide_eq_false. exact Hout.
Qed.

Lemma add_label_has (c : string) (cols : list string) :
  bool_decide (c ∈ cols) = true -> add_label c cols = cols.
Proof. intros H. unfold add_label. rewrite H. reflexivity. Qed.

Lemma map_unmasked {A : Type} (mask : A -> bool) (f : A -> A) (l : list A) :
  (forall x, In x l -> mask x = false) ->
  map (fun x => if mask x then f x else x) l = l.
Proof.
  induction l as [|a l IH]; intros H; [reflexivity|].
  simpl. rewrite (H a (or_introl eq_refl)). f_equal.
  apply IH. intros x Hx. apply H. right. exact Hx.
Qed.

Lemma setcol_where_none (mask : nat * gmap string cell -> bool) (c : string)
    (v : cell) (data : DataFrame) :
  has_col c data = true ->
  (forall r, In r (rows data) -> mask r = false) ->
  setcol_where mask c v data = data.
Proof.
  intros Hcol Hmask. destruct data as [cols rs]. unfold setcol_where.
  cbn [columns rows] in *. rewrite add_label_has by exact Hcol. f_equal.
  apply (map_unmasked mask (fun r => (r.1, <[c := v]> (r.2)))). exact Hmask.
Qed.

(** ** Where the rows of a frame come from *)

Lemma rows_from_refl (P : string -> Prop) (d : DataFrame) : rows_from P d d.
Proof. intros i r' H. exists r'. split; [exact H | reflexivity]. Qed.

Lemma rows_from_trans (P : string -> Prop) (d1 d2 d3 : DataFrame) :
  rows_from P d1 d2 -> rows_from P d2 d3 -> rows_from P d1 d3.
Proof.
  intros H12 H23 i r3 H3.
  destruct (H23 i r3 H3) as (r2 & H2 & E23).
  destruct (H12 i r2 H2) as (r1 & H1 & E12).
  exists r1. split; [exact H1|]. intros c Hc.
  rewrite (E23 c Hc). apply E12. exact Hc.
Qed.

Lemma rows_from_loc_rows (P : string -> Prop)
    (mask : nat * gmap string cell -> bool) (d : DataFrame) :
  rows_from P d (loc_rows mask d).
Proof.
  intros i r' H. cbn [loc_rows rows] in H. apply filter_In in H.
  exists r'. split; [tauto | reflexivity].
Qed.

Lemma in_setcol (c : string) (f : nat * gmap string cell -> cell)
    (d : DataFrame) (i : nat) (r' : gmap string cell) :
  In (i, r') (rows (setcol c f d)) ->
  exists r, In (i, r) (rows d) /\ r' = <[c := f (i, r)]> r.
Proof.
  cbn [setcol rows]. intros H. apply in_map_iff in H.
  destruct H as ([j r] & E & H). cbn [fst snd] in E. inversion E; subst.
  exists r. split; [exact H | reflexivity].
Qed.

Lemma in_setcol_where (mask : nat * gmap string cell -> bool) (c : string)
    (v : cell) (d : DataFrame) (i : nat) (r' : gmap string cell) :
  In (i, r') (rows (setcol_where mask c v d)) ->
  exists r, In (i, r) (rows d)
            /\ r' = if mask (i, r) then <[c := v]> r else r.
Proof.
  cbn [setcol_where rows]. intros H. apply in_map_iff in H.
  destruct H as ([j r] & E & H).
  destruct (mask (j, r)) eqn:Hm; cbn [fst snd] in E; injection E as Hi Hr.
  - subst i r'. exists r. rewrite Hm. split; [exact H | reflexivity].
  - subst j r. exists r'. rewrite Hm. split; [exact H | reflexivity].
Qed.

Lemma rows_from_setcol (P : string -> Prop) (c : string)
    (f : nat * gmap string cell -> cell) (d : DataFrame) :
  ~ P c -> rows_from P d (setcol c f d).
Proof.
  intros Hc i r' H. apply in_setcol in H. destruct H as (r & H & ->).
  exists r. split; [exact H|]. intros c' Hc'.
  apply at_col_insert_ne. intros ->. contradiction.
Qed.

Lemma rows_from_setcol_where (P : string -> Prop)
    (mask : nat * gmap string cell -> bool) (c : string) (v : cell)
    (d : DataFrame) :
  ~ P c -> rows_from P d (setcol_where mask c v d).
Proof.
  intros Hc i r' H. apply in_setcol_where in H. destruct H as (r & H & ->).
  exists r. split; [exact H|]. intros c' Hc'.
  destruct (mask (i, r)); [|reflexivity].
  apply at_col_insert_ne. intros ->. contradiction.
Qed.

Lemma at_col_delete_labels (c : string) (labels : list string) (i : nat)
    (m : gmap string cell) :
  ~ In c labels -> at_col c (i, delete_labels labels m) = at_col c (i, m).
Proof.
  induction labels as [|l ls IH]; intros H; [reflexivity|].
  cbn [delete_labels fold_right]. rewrite at_col_delete_ne.
  - apply IH. intros Hin. apply H. right. exact Hin.
  - intros ->. apply H. left. reflexivity.
Qed.

Lemma drop_ret (labels : list string) (d d' : DataFrame) :
  drop labels d = Ret d' ->
  columns d'
  = List.filter (fun c => negb (bool_decide (c ∈ labels))) (columns d)
  /\ rows d' = map (fun r => (r.1, delete_labels labels (r.2))) (rows d).
Proof.
  unfold drop. destruct (first_missing labels (columns d)); [discriminate|].
  intros H. inversion H. split; reflexivity.
Qed.

Lemma rows_from_drop (P : string -> Prop) (labels : list string)
    (d d' : DataFrame) :
  (forall c, P c -> ~ In c labels) ->
  drop labels d = Ret d' -> rows_from P d d'.
Proof.
  intros HP Hdrop i r' H. apply drop_ret in Hdrop. destruct Hdrop as [_ Hr].
  rewrite Hr in H. apply in_map_iff in H. destruct H as ([j r] & E & H).
  cbn [fst snd] in E. inversion E; subst. exists r. split; [exact H|].
  intros c Hc. apply at_col_delete_labels. apply HP. exact Hc.
Qed.

Lemma has_col_drop (c : string) (labels : list string) (d d' : DataFrame) :
  drop labels d = Ret d' -> has_col c d = true -> ~ In c labels ->
  has_col c d' = true.
Proof.
  intros Hdrop Hc Hout. apply drop_ret in Hdrop. destruct Hdrop as [Hcols _].
  unfold has_col in *. rewrite Hcols. apply bool_decide_eq_true.
  apply has_col_filter.
  - apply bool_decide_eq_true in Hc. exact Hc.
  - intros Hin. apply Hout. apply list_elem_of_In. exact Hin.
Qed.

Lemma has_col_add_label (c c' : string) (cols : list string) :
  bool_decide (c ∈ cols) = true -> bool_decide (c ∈ add_label c' cols) = true.
Proof.
  intros H. unfold add_label. destruct (bool_decide (c' ∈ cols)); [exact H|].
  apply bool_decide_eq_true. apply bool_decide_eq_true in H.
  apply elem_of_app. left. exact H.
Qed.

Lemma getcol_ret (c : string) (d : DataFrame) (col : list cell) :
  getcol c d = Ret col -> has_col c d = true.
Proof. unfold getcol. destruct (has_col c d); [reflexivity | discriminate]. Qed.

Ltac bind_ret H :=
  match type of H with
  | (mbind _ ?m) = Ret _ =>
      let E := fresh "E" in
      destruct m eqn:E; cbn [mbind py_bind] in H; [|discriminate H]
  end.

Ltac bind_ret_as H x :=
  match type of H with
  | (mbind _ ?m) = Ret _ =>
      let E := fresh "E" in
      destruct m as [x|] eqn:E; cbn [mbind py_bind] in H; [|discriminate H]
  end.

(** ** The percentile scorer *)

Lemma fgt_flt (x y : float) : fgt x y = flt y x.
Proof.
  destruct x as [|[]|a], y as [|[]|b]; simpl; try reflexivity.
  destruct (Qle_bool a b) eqn:Hle; simpl.
  - apply Qle_bool_iff in Hle.
    destruct (b ?= a)%Q eqn:Hc; try reflexivity.
    apply Qlt_alt in Hc. exfalso. apply (Qlt_not_le _ _ Hc). exact Hle.
  - destruct (b ?= a)%Q eqn:Hc; try reflexivity; exfalso.
    + apply Qeq_alt in Hc.
      assert (Qle_bool a b = true) as Ht
        by (apply Qle_bool_iff; rewrite Hc; apply Qle_refl).
      congruence.
    + apply Qgt_alt in Hc.
      assert (Qle_bool a b = true) as Ht
        by (apply Qle_bool_iff; apply Qlt_le_weak; exact Hc).
      congruence.
Qed.

Lemma mask_sum (x : float) (reference : list Q) :
  length (List.filter id (map (fgt (fabs x))
                              (map (fun t => Fin (Qabs t)) reference)))
  = strictly_less_count x reference.
Proof.
  unfold strictly_less_count.
  induction reference as [|t l IH]; [reflexivity|].
  cbn [map List.filter]. rewrite fgt_flt. unfold id at 1.
  destruct (flt (Fin (Qabs t)) (fabs x)); cbn [length]; rewrite IH;
    reflexivity.
Qed.

(** C1: for a non-empty reference distribution stored at the path, the
    scorer returns, for each new value, a finite severity equal to
    100 × (number of reference values whose magnitude is strictly less than
    the magnitude of the new value) / (number of reference values); with
    reference [0.1, 0.2, 0.3, 0.4] and new magnitude 0.25 that is 50. *)
Theorem discrepancy_percentile_rank :
  (forall (w : World) (path : string) (reference : list Q)
          (new_discrepancy : list float),
      files w !! path = Some (JsonList reference) ->
      reference <> [] ->
      exists percentile,
        (discrepancy_percentile new_discrepancy path w).1 = Ret percentile
        /\ Forall2 (fun x p => exists q, p = Fin q
                                         /\ (q == spec_severity x reference)%Q)
                   new_discrepancy percentile)
  /\ exists q,
       (discrepancy_percentile [Fin 0.25]
          NotebookHandler.TEST_DISCREPANCIES_PATH sample_world).1
       = Ret [Fin q] /\ (q == 50)%Q.
Proof.
  split.
  - intros w path reference new Hfile Hne.
    unfold discrepancy_percentile, open. rewrite Hfile. simpl.
    eexists. split; [reflexivity|].
    induction new as [|x new IH]; simpl; constructor; [|exact IH].
    rewrite length_map.
    destruct reference as [|t l]; [congruence|].
    cbn [length]. eexists. split; [reflexivity|].
    rewrite mask_sum. unfold spec_severity. cbn [length].
    unfold Qdiv. ring.
  - eexists. split; [vm_compute; reflexivity | reflexivity].
Qed.

Lemma discrepancy_percentile_rank_witness :
  exists percentile,
    (discrepancy_percentile [Fin 0.25; NaN; Inf true]
       NotebookHandler.TEST_DISCREPANCIES_PATH sample_world).1
    = Ret percentile
    /\ Forall2 (fun x p => exists q,
                  p = Fin q
                  /\ (q == spec_severity x [0.1; 0.2; 0.3; 0.4])%Q)
               [Fin 0.25; NaN; Inf true] percentile.
Proof.
  apply (proj1 discrepancy_percentile_rank sample_world
           NotebookHandler.TEST_DISCREPANCIES_PATH [0.1; 0.2; 0.3; 0.4]%Q).
  - reflexivity.
  - discriminate.
Defined.

(** ** The reference distribution file *)

(** C9 (amended): the reference distribution is not held in memory.  Every
    percentile computation opens the file at the path it is given, once,
    and reads it; it changes no file; where the file is missing it raises
    [FileNotFoundError]; its result is determined by the content the file
    has at that moment.  Loading the model at process start opens at most
    the model file, not the reference file. *)
Theorem discrepancy_percentile_reads_file (w : World) (path : string)
    (new_discrepancy : list float) :
  files (discrepancy_percentile new_discrepancy path w).2 = files w
  /\ (forall f, files w !! path = Some f ->
        opened (discrepancy_percentile new_discrepancy path w).2
        = opened w ++ [path])
  /\ (files w !! path = None ->
        discrepancy_percentile new_discrepancy path w
        = (Raise (FileNotFoundError path), w))
  /\ (forall w', files w' !! path = files w !! path ->
        (discrepancy_percentile new_discrepancy path w').1
        = (discrepancy_percentile new_discrepancy path w).1)
  /\ (forall model_path,
        opened (load_model model_path w).2 = opened w
        \/ opened (load_model model_path w).2 = opened w ++ [model_path]).
Proof.
  unfold discrepancy_percentile, load_model, open.
  repeat split.
  - destruct (files w !! path) as [[]|]; reflexivity.
  - intros f ->. destruct f; reflexivity.
  - intros ->. reflexivity.
  - intros w' ->. destruct (files w !! path) as [[]|]; reflexivity.
  - intros mp. destruct (files w !! mp) as [[]|]; cbn; auto.
Qed.

Lemma discrepancy_percentile_reads_file_witness :
  opened (discrepancy_percentile [Fin 0.25]
            NotebookHandler.TEST_DISCREPANCIES_PATH
            (discrepancy_percentile [Fin 0.25]
               NotebookHandler.TEST_DISCREPANCIES_PATH sample_world).2).2
  = [NotebookHandler.TEST_DISCREPANCIES_PATH;
     NotebookHandler.TEST_DISCREPANCIES_PATH].
Proof.
  destruct (discrepancy_percentile_reads_file
              (discrepancy_percentile [Fin 0.25]
                 NotebookHandler.TEST_DISCREPANCIES_PATH sample_world).2
              NotebookHandler.TEST_DISCREPANCIES_PATH [Fin 0.25])
    as (_ & Hopen & _).
  rewrite (Hopen (JsonList [0.1; 0.2; 0.3; 0.4]%Q)); reflexivity.
Defined.

(** C9 as stated fails: a percentile computation does open the reference
    file again. *)
Lemma reference_file_reread :
  ~ never_reread NotebookHandler.TEST_DISCREPANCIES_PATH.
Proof.
  intros H. specialize (H sample_world [Fin 0.25]).
  vm_compute in H. discriminate.
Qed.

(** ** The counterfactual generator *)

Lemma race_counterfactual_cases (c : cell) :
  map_dict race_counterfactual_map c = spec_counterfactual_race c.
Proof.
  destruct c as [|s|q|b]; try reflexivity.
  unfold map_dict, spec_counterfactual_race.
  repeat match goal with
         | |- context [String.eqb s ?k] =>
             destruct (String.eqb_spec s k) as [-> | ?]; [reflexivity|]
         end.
  unfold race_counterfactual_map. cbn [list_to_map fold_right fst snd uncurry].
  rewrite !lookup_insert_ne by congruence. rewrite lookup_empty. reflexivity.
Qed.

(** The frame [make_counterfactual] builds in the new object. *)
Lemma make_counterfactual_run (h : list DataFrame) (data : nat)
    (d : DataFrame) :
  h !! data = Some d ->
  has_col "RACE" d = true ->
  make_counterfactual data h
  = Ret (length h,
         h ++ [setcol "RACE"
                 (fun r => map_dict race_counterfactual_map (at_col "RACE" r))
                 d]).
Proof.
  intros Hd Hcol. unfold make_counterfactual, copy, deref.
  rewrite Hd. cbn [mbind py_bind].
  rewrite (lookup_app_l h [d] data) by (eapply lookup_lt_Some; exact Hd).
  rewrite Hd. cbn [mbind py_bind]. rewrite getcol_has by exact Hcol.
  cbn [mbind py_bind].
  rewrite list_lookup_middle by reflexivity. cbn [mbind py_bind].
  rewrite insert_app_r_alt by reflexivity.
  rewrite Nat.sub_diag. reflexivity.
Qed.

(** C3: [make_counterfactual] returns a new object, a copy of the input
    frame in which every row keeps its label and every cell other than
    [RACE], and [RACE] is replaced through the fixed map (Black to White,
    White to Black, HISPANIC, Asian and American Indian to White, anything
    else to a missing value); the input object and every other object of
    the store are left as they were. *)
Theorem make_counterfactual_copy (h : list DataFrame) (data : nat)
    (d : DataFrame) :
  h !! data = Some d ->
  has_col "RACE" d = true ->
  exists d',
    make_counterfactual data h = Ret (length h, h ++ [d'])
    /\ (h ++ [d']) !! data = Some d
    /\ columns d' = columns d
    /\ Forall2 (fun r r' =>
                  r'.1 = r.1
                  /\ r'.2 !! "RACE"
                     = Some (spec_counterfactual_race (at_col "RACE" r))
                  /\ forall c, c <> "RACE" -> r'.2 !! c = r.2 !! c)
               (rows d) (rows d').
Proof.
  intros Hd Hcol. eexists. split; [apply make_counterfactual_run; eassumption|].
  split; [|split].
  - rewrite lookup_app_l by (eapply lookup_lt_Some; exact Hd). exact Hd.
  - cbn [setcol columns]. apply add_label_has. exact Hcol.
  - cbn [setcol rows]. induction (rows d) as [|r rs IH]; constructor.
    + cbn [fst snd]. split; [reflexivity|]. split.
      * rewrite lookup_insert_eq, race_counterfactual_cases. reflexivity.
      * intros c Hc. apply lookup_insert_ne. congruence.
    + exact IH.
Qed.

Lemma make_counterfactual_copy_witness :
  exists d',
    make_counterfactual 0
      [sample_frame "Prison" "HISPANIC" (PInt 10) "Year(s)"]
    = Ret (1%nat,
           [sample_frame "Prison" "HISPANIC" (PInt 10) "Year(s)"] ++ [d'])
    /\ ([sample_frame "Prison" "HISPANIC" (PInt 10) "Year(s)"] ++ [d']) !! 0%nat
       = Some (sample_frame "Prison" "HISPANIC" (PInt 10) "Year(s)")
    /\ columns d'
       = columns (sample_frame "Prison" "HISPANIC" (PInt 10) "Year(s)")
    /\ Forall2 (fun r r' =>
                  r'.1 = r.1
                  /\ r'.2 !! "RACE"
                     = Some (spec_counterfactual_race (at_col "RACE" r))
                  /\ forall c, c <> "RACE" -> r'.2 !! c = r.2 !! c)
               (rows (sample_frame "Prison" "HISPANIC" (PInt 10) "Year(s)"))
               (rows d').
Proof.
  apply (make_counterfactual_copy
           [sample_frame "Prison" "HISPANIC" (PInt 10) "Year(s)"] 0
           (sample_frame "Prison" "HISPANIC" (PInt 10) "Year(s)")).
  - reflexivity.
  - vm_compute. reflexivity.
Defined.

(** ** The discrepancy estimator *)

Lemma zip_with_minus_negations (a b : list Q) :
  length a = length b ->
  Forall2 (fun p q => (q == - p)%Q) (zip_with Qminus a b) (zip_with Qminus b a).
Proof.
  revert b. induction a as [|x a IH]; intros [|y b] Hlen; try discriminate;
    cbn [zip_with]; constructor.
  - ring.
  - apply IH. simpl in Hlen. congruence.
Qed.

Lemma map_minus_negations (x : Q) (b : list Q) :
  Forall2 (fun p q => (q == - p)%Q)
          (map (Qminus x) b) (map (fun y => y - x)%Q b).
Proof. induction b as [|y b IH]; constructor; [ring | exact IH]. Qed.

Lemma map_minus_negations' (x : Q) (b : list Q) :
  Forall2 (fun p q => (q == - p)%Q)
          (map (fun y => y - x)%Q b) (map (Qminus x) b).
Proof. induction b as [|y b IH]; constructor; [ring | exact IH]. Qed.

Lemma broadcast2_negations (a b : list Q) :
  negations (broadcast2 Qminus a b) (broadcast2 Qminus b a).
Proof.
  unfold broadcast2. rewrite (Nat.eqb_sym (length b) (length a)).
  destruct (length a =? length b)%nat eqn:Hlen.
  - apply Nat.eqb_eq in Hlen. apply zip_with_minus_negations. exact Hlen.
  - destruct a as [|x [|x' a]], b as [|y [|y' b]]; try discriminate;
      cbn [negations];
      first [ reflexivity | apply map_minus_negations
            | apply map_minus_negations' ].
Qed.

(** C2: on a frame with a [RACE] column, the extended estimator returns
    [predict(data) - predict(counterfactual)] (with the prediction when
    asked), the legacy estimator returns
    [predict(counterfactual) - predict(data)], and the two discrepancies are
    elementwise negations of each other. *)
Theorem estimate_discrepancy_sign (model : Model) (h : list DataFrame)
    (data : nat) (d : DataFrame) (return_pred : bool) :
  h !! data = Some d ->
  has_col "RACE" d = true ->
  exists dc,
    make_counterfactual data h = Ret (length h, h ++ [dc])
    /\ Notebook.estimate_discrepancy model data return_pred h
       = (diff ← broadcast2 Qminus (model_predict model d)
                                   (model_predict model dc);
          Ret (diff,
               if return_pred then Some (model_predict model d) else None,
               h ++ [dc]))
    /\ Server.estimate_discrepancy model data h
       = (diff ← broadcast2 Qminus (model_predict model dc)
                                   (model_predict model d);
          Ret (diff, h ++ [dc]))
    /\ negations
         ((fun x => x.1.1) <$> Notebook.estimate_discrepancy model data
                                 return_pred h)
         (fst <$> Server.estimate_discrepancy model data h).
Proof.
  intros Hd Hcol.
  pose proof (make_counterfactual_run h data d Hd Hcol) as Hrun.
  eexists. split; [exact Hrun|].
  assert (forall x, (h ++ [x]) !! data = Some d) as Hkeep
    by (intros x; rewrite lookup_app_l by (eapply lookup_lt_Some; exact Hd);
        exact Hd).
  assert (forall x, (h ++ [x]) !! length h = Some x) as Hnew
    by (intros x; apply list_lookup_middle; reflexivity).
  unfold Notebook.estimate_discrepancy, Server.estimate_discrepancy, deref.
  rewrite Hd, Hrun. cbn [mbind py_bind]. rewrite Hnew, Hkeep.
  cbn [mbind py_bind].
  split; [|split].
  - destruct (broadcast2 Qminus _ _); cbn [mbind py_bind];
      destruct return_pred; reflexivity.
  - reflexivity.
  - pose proof (broadcast2_negations
                  (model_predict model d)
                  (model_predict model
                     (setcol "RACE"
                        (fun r => map_dict race_counterfactual_map
                                           (at_col "RACE" r)) d))) as Hneg.
    destruct (broadcast2 Qminus (model_predict model d) _) as [x|e];
      destruct (broadcast2 Qminus _ (model_predict model d)) as [y|e'];
      cbn [mbind py_bind fmap py_fmap negations] in *;
      try destruct return_pred; cbn [fmap py_fmap fst snd negations];
      exact Hneg.
Qed.

Lemma estimate_discrepancy_sign_witness :
  negations
    ((fun x => x.1.1)
       <$> Notebook.estimate_discrepancy sample_model 0 true
             [sample_frame "Prison" "Black" (PInt 10) "Year(s)"])
    (fst <$> Server.estimate_discrepancy sample_model 0
               [sample_frame "Prison" "Black" (PInt 10) "Year(s)"]).
Proof.
  destruct (estimate_discrepancy_sign sample_model
              [sample_frame "Prison" "Black" (PInt 10) "Year(s)"] 0
              (sample_frame "Prison" "Black" (PInt 10) "Year(s)") true)
    as (dc & _ & _ & _ & Hneg).
  - reflexivity.
  - vm_compute. reflexivity.
  - exact Hneg.
Defined.

(** ** Rejections of the cleaning pipeline *)

(** C6 (amended): for every batch with a [SENTENCE_TYPE] column and no
    record whose sentence type is "Prison", [clean_data] returns the message
    "INVALID: No Prison sentences found", whatever the other columns hold
    and whatever a later step would have done with them. *)
Theorem clean_data_no_prison (float_of_str : string -> option (option Q))
    (v : variant) (removeColumns : bool) (data : DataFrame) :
  has_col "SENTENCE_TYPE" data = true ->
  (forall r, In r (rows data) -> at_col "SENTENCE_TYPE" r <> Str "Prison") ->
  clean_data float_of_str v removeColumns data
  = Ret (Invalid "INVALID: No Prison sentences found").
Proof.
  intros Hcol Hnone.
  unfold clean_data, exclude_non_prison.
  rewrite (getcol_has _ _ Hcol). cbn [mbind py_bind].
  unfold loc_rows. rewrite filter_none
    by (intros r Hr; apply cell_neqb_str, Hnone, Hr).
  destruct removeColumns.
  - rewrite drop_has by exact Hcol. reflexivity.
  - reflexivity.
Qed.

Lemma clean_data_no_prison_witness :
  clean_data decimal_literal Extended true
             (sample_frame "Probation" "Black" (PStr "ten") "Year(s)")
  = Ret (Invalid "INVALID: No Prison sentences found").
Proof.
  apply (clean_data_no_prison decimal_literal Extended true).
  - vm_compute. reflexivity.
  - intros r [<- | []]. vm_compute. discriminate.
Defined.

(** C6 as stated fails: the message returned for a batch without prison
    sentences is not the bare reason "No Prison sentences found". *)
Lemma no_prison_message_counterexample :
  (forall r,
      In r (rows (sample_frame "Probation" "Black" (PInt 10) "Year(s)")) ->
      at_col "SENTENCE_TYPE" r <> Str "Prison")
  /\ clean_data decimal_literal Extended true
                (sample_frame "Probation" "Black" (PInt 10) "Year(s)")
     <> Ret (Invalid "No Prison sentences found").
Proof.
  split.
  - intros r [<- | []]. vm_compute. discriminate.
  - vm_compute. discriminate.
Qed.

Lemma race_unmapped (c : cell) :
  c = Str "Unknown" \/ (forall s, c = Str s -> standard_race_map !! s = None) ->
  map_dict standard_race_map c = Str "Unknown"
  \/ map_dict standard_race_map c = Null.
Proof.
  intros [-> | H].
  - left. reflexivity.
  - right. destruct c as [|s|q|b]; try reflexivity.
    simpl. rewrite (H s eq_refl). reflexivity.
Qed.

Lemma standardize_race_rejects (cols : list string) (i : nat)
    (m : gmap string cell) :
  "RACE" ∈ cols ->
  (at_col "RACE" (i, m) = Str "Unknown"
   \/ forall s, at_col "RACE" (i, m) = Str s ->
                standard_race_map !! s = None) ->
  exists d, standardize_race {| columns := cols; rows := [(i, m)] |} = Ret d
            /\ rows d = [].
Proof.
  intros Hcol Hrace. unfold standardize_race, getcol, has_col.
  cbn [columns]. rewrite bool_decide_eq_true_2 by exact Hcol.
  cbn [mbind py_bind]. eexists. split; [reflexivity|].
  cbn [rows setcol loc_rows map List.filter fst snd].
  rewrite at_col_insert.
  destruct (race_unmapped _ Hrace) as [-> | ->];
    cbn [cell_eqb number_of negb List.filter String.eqb Ascii.eqb Bool.eqb];
    rewrite ?at_col_insert; reflexivity.
Qed.

(** C7 (amended): for every single-record batch that passes the prison
    filter and whose race is "Unknown" or no key of the race normalization
    table, [clean_data] returns the message
    "INVALID: No valid race values found". *)
Theorem clean_data_no_valid_race (float_of_str : string -> option (option Q))
    (v : variant) (removeColumns : bool) (data : DataFrame) (i : nat)
    (r : gmap string cell) :
  rows data = [(i, r)] ->
  has_col "SENTENCE_TYPE" data = true ->
  has_col "RACE" data = true ->
  at_col "SENTENCE_TYPE" (i, r) = Str "Prison" ->
  (at_col "RACE" (i, r) = Str "Unknown"
   \/ forall s, at_col "RACE" (i, r) = Str s ->
                standard_race_map !! s = None) ->
  clean_data float_of_str v removeColumns data
  = Ret (Invalid "INVALID: No valid race values found").
Proof.
  destruct data as [cols rs]. cbn [rows]. intros -> Hst Hrc Hprison Hrace.
  assert ("RACE" ∈ cols) as Hrc' by (apply bool_decide_eq_true in Hrc; exact Hrc).
  unfold clean_data, exclude_non_prison.
  rewrite getcol_has by exact Hst.
  cbn [mbind py_bind]. unfold loc_rows. cbn [rows columns List.filter].
  rewrite Hprison. cbn [cell_eqb String.eqb Ascii.eqb Bool.eqb].
  destruct removeColumns.
  - rewrite drop_has by exact Hst.
    cbn [mbind py_bind no_rows rows map fst snd columns].
    destruct (standardize_race_rejects
                (List.filter (fun x => negb (bool_decide (x ∈ ["SENTENCE_TYPE"])))
                             cols) i (delete "SENTENCE_TYPE" r))
      as (d & -> & Hd).
    + apply has_col_filter; [exact Hrc'|].
      intros H. apply list_elem_of_In in H. simpl in H.
      destruct H as [H|[]]. discriminate.
    + rewrite at_col_delete_ne by discriminate. exact Hrace.
    + cbn [mbind py_bind]. unfold no_rows. rewrite Hd. reflexivity.
  - cbn [mbind py_bind no_rows rows].
    destruct (standardize_race_rejects cols i r Hrc' Hrace) as (d & -> & Hd).
    cbn [mbind py_bind]. unfold no_rows. rewrite Hd. reflexivity.
Qed.

Lemma clean_data_no_valid_race_witness :
  clean_data decimal_literal Extended true
             (sample_frame "Prison" "Martian" (PInt 10) "Year(s)")
  = Ret (Invalid "INVALID: No valid race values found").
Proof.
  apply (clean_data_no_valid_race decimal_literal Extended true
           (sample_frame "Prison" "Martian" (PInt 10) "Year(s)") 0%nat
           (cell_of <$> sample_request Extended "Prison" "Martian" (PInt 10)
                                       "Year(s)")).
  - reflexivity.
  - vm_compute. reflexivity.
  - vm_compute. reflexivity.
  - vm_compute. reflexivity.
  - right. intros s Hs. vm_compute in Hs. inversion Hs. vm_compute. reflexivity.
Defined.

(** C7 as stated fails: the message returned for a record of unknown race
    is not the bare reason "No valid race values found". *)
Lemma no_valid_race_message_counterexample :
  at_col "RACE" (0%nat, cell_of <$> sample_request Extended "Prison" "Unknown"
                                                    (PInt 10) "Year(s)")
  = Str "Unknown"
  /\ clean_data decimal_literal Extended true
                (sample_frame "Prison" "Unknown" (PInt 10) "Year(s)")
     <> Ret (Invalid "No valid race values found").
Proof.
  split.
  - vm_compute. reflexivity.
  - vm_compute. discriminate.
Qed.

(** ** A term that is no number *)

Lemma normalize_commitment_term_raises
    (float_of_str : string -> option (option Q)) (removeColumns : bool)
    (data : DataFrame) (r : nat * gmap string cell)
    (rest : list (nat * gmap string cell)) (s : string) :
  has_col "COMMITMENT_TERM" data = true ->
  rows data = r :: rest ->
  at_col "COMMITMENT_TERM" r = Str s ->
  float_of_str s = None ->
  normalize_commitment_term float_of_str removeColumns data
  = Raise (ValueError s).
Proof.
  intros Hcol Hrows Hterm Hnone.
  unfold normalize_commitment_term, astype_float_col.
  rewrite getcol_has by exact Hcol. rewrite Hrows.
  cbn [mbind py_bind mapM]. rewrite Hterm. cbn [astype_float].
  rewrite Hnone. reflexivity.
Qed.

(** The first row reaches the commitment-term step holding the string [s]
    as its term: a check that evaluates. *)
Lemma clean_data_raises (float_of_str : string -> option (option Q))
    (v : variant) (removeColumns : bool) (data : DataFrame) (s : string) :
  match
    (d ← exclude_non_prison removeColumns data;
     if no_rows d then Raise TypeError else
     d ← standardize_race d;
     if no_rows d then Raise TypeError else
     d ← standardize_gender d;
     if no_rows d then Raise TypeError else Ret d)
  with
  | Ret d =>
      has_col "COMMITMENT_TERM" d
      && match rows d with
         | r :: _ => cell_eqb (at_col "COMMITMENT_TERM" r) (Str s)
         | [] => false
         end
  | Raise _ => false
  end = true ->
  float_of_str s = None ->
  clean_data float_of_str v removeColumns data = Raise (ValueError s).
Proof.
  intros Hreach Hnone. unfold clean_data.
  destruct (exclude_non_prison removeColumns data) as [d1|]; [|discriminate].
  cbn [mbind py_bind] in *.
  destruct (no_rows d1); [discriminate|].
  destruct (standardize_race d1) as [d2|]; [|discriminate].
  cbn [mbind py_bind] in *.
  destruct (no_rows d2); [discriminate|].
  destruct (standardize_gender d2) as [d3|]; [|discriminate].
  cbn [mbind py_bind] in *.
  destruct (no_rows d3); [discriminate|].
  apply andb_true_iff in Hreach. destruct Hreach as [Hcol Hrow].
  destruct (rows d3) as [|r rest] eqn:Hrows; [discriminate|].
  apply cell_eqb_str in Hrow.
  rewrite (normalize_commitment_term_raises _ _ _ _ _ _ Hcol Hrows Hrow Hnone).
  reflexivity.
Qed.

(** C8: the sample request with the term "ten" passes schema validation, and
    the handler then fails with an unhandled [ValueError], in the notebook
    and in the server route alike: neither a schema failure nor a rejection
    message. *)
Theorem predict_unhandled_value_error
    (float_of_str : string -> option (option Q)) (model : Model) (w : World) :
  float_of_str "ten" = None ->
  schema_validate (PREDICT_SCHEMA Extended)
    (sample_request Extended "Prison" "Black" (PStr "ten") "Year(s)")
  = Some (sample_request Extended "Prison" "Black" (PStr "ten") "Year(s)")
  /\ NotebookHandler.predict float_of_str model
       (sample_request Extended "Prison" "Black" (PStr "ten") "Year(s)") w
     = (Raise (ValueError "ten"), w)
  /\ ServerHandler.predict float_of_str model
       (sample_request Legacy "Prison" "Black" (PStr "ten") "Year(s)")
     = Raise (ValueError "ten").
Proof.
  intros Hten.
  assert (forall v, schema_validate (PREDICT_SCHEMA v)
    (sample_request v "Prison" "Black" (PStr "ten") "Year(s)")
  = Some (sample_request v "Prison" "Black" (PStr "ten") "Year(s)")) as Hval.
  { intros v. unfold schema_validate.
    match goal with
    | |- (if ?b then _ else _) = _ =>
        replace b with true by (destruct v; vm_compute; reflexivity)
    end.
    reflexivity. }
  split; [apply Hval|]. split.
  - unfold NotebookHandler.predict.
    rewrite Hval, (clean_data_raises _ _ _ _ "ten"); [reflexivity | vm_compute; reflexivity | exact Hten].
  - unfold ServerHandler.predict.
    rewrite Hval, (clean_data_raises _ _ _ _ "ten"); [reflexivity | vm_compute; reflexivity | exact Hten].
Qed.

Lemma predict_unhandled_value_error_witness :
  NotebookHandler.predict decimal_literal sample_model
    (sample_request Extended "Prison" "Black" (PStr "ten") "Year(s)")
    sample_world
  = (Raise (ValueError "ten"), sample_world).
Proof.
  apply (predict_unhandled_value_error decimal_literal sample_model
           sample_world).
  reflexivity.
Defined.

(** ** The steps of the pipeline, one by one *)

Lemma exclude_non_prison_rows (P : string -> Prop) (rc : bool)
    (d d' : DataFrame) :
  ~ P "SENTENCE_TYPE" ->
  exclude_non_prison rc d = Ret d' -> rows_from P d d'.
Proof.
  intros HP H. unfold exclude_non_prison in H. bind_ret H.
  destruct rc.
  - eapply rows_from_trans; [apply rows_from_loc_rows|].
    eapply rows_from_drop; [|exact H].
    intros c Hc [<- | []]. contradiction.
  - inversion H. apply rows_from_loc_rows.
Qed.

Lemma standardize_race_rows (P : string -> Prop) (d d' : DataFrame) :
  ~ P "RACE" -> standardize_race d = Ret d' -> rows_from P d d'.
Proof.
  intros HP H. unfold standardize_race in H. bind_ret H. inversion H.
  eapply rows_from_trans; [|apply rows_from_loc_rows].
  eapply rows_from_trans; [|apply rows_from_loc_rows].
  apply rows_from_setcol. exact HP.
Qed.

Lemma standardize_gender_rows (P : string -> Prop) (d d' : DataFrame) :
  ~ P "GENDER" -> standardize_gender d = Ret d' -> rows_from P d d'.
Proof.
  intros HP H. unfold standardize_gender in H. bind_ret H. inversion H.
  apply rows_from_setcol_where. exact HP.
Qed.

Lemma reduce_cardinality_rows (P : string -> Prop)
    (tops : list (string * nat)) (d d' : DataFrame) :
  (forall name n, In (name, n) tops -> ~ P name) ->
  reduce_cardinality tops d = Ret d' -> rows_from P d d'.
Proof.
  revert d. induction tops as [|[name n] rest IH]; intros d HP H.
  - inversion H. apply rows_from_refl.
  - cbn [reduce_cardinality] in H. bind_ret H.
    eapply rows_from_trans; [|eapply IH; [|exact H]].
    + apply rows_from_setcol_where. apply (HP name n). left. reflexivity.
    + intros name' n' Hin. apply (HP name' n'). right. exact Hin.
Qed.

Lemma mapM_ret {A B : Type} (g : A -> py B) (l : list A) (l' : list B) :
  mapM g l = Ret l' -> Forall2 (fun a b => g a = Ret b) l l'.
Proof.
  revert l'. induction l as [|a l IH]; intros l' H.
  - inversion H. constructor.
  - cbn [mapM] in H. destruct (g a) as [b|] eqn:Ea; [|discriminate].
    cbn [mbind py_bind] in H.
    destruct (mapM g l) as [k|] eqn:Ek; [|discriminate].
    inversion H. constructor; [exact Ea | apply IH; reflexivity].
Qed.

Lemma Forall2_in_r {A B : Type} (R : A -> B -> Prop) (l : list A)
    (l' : list B) (b : B) :
  Forall2 R l l' -> In b l' -> exists a, In a l /\ R a b.
Proof.
  induction 1 as [|a b' l l' Hab _ IH]; intros Hin; [contradiction|].
  destruct Hin as [<- | Hin].
  - exists a. split; [left; reflexivity | exact Hab].
  - destruct (IH Hin) as (a' & Ha' & Hr). exists a'. split; [right|]; assumption.
Qed.

Lemma astype_float_cell (f : string -> option (option Q)) (c x : cell) :
  astype_float f c = Ret x -> float_cell x.
Proof.
  destruct c as [|s|q|b]; cbn [astype_float]; intros H.
  - inversion H. left. reflexivity.
  - destruct (f s) as [[q|]|]; inversion H;
      [right; eexists; reflexivity | left; reflexivity].
  - inversion H. right. eexists. reflexivity.
  - inversion H. right. eexists. reflexivity.
Qed.

Lemma astype_float_col_ret (f : string -> option (option Q)) (c : string)
    (d d' : DataFrame) :
  astype_float_col f c d = Ret d' ->
  columns d' = columns d /\ has_col c d = true
  /\ forall i r', In (i, r') (rows d') ->
       exists r x, In (i, r) (rows d)
                   /\ astype_float f (at_col c (i, r)) = Ret x
                   /\ r' = <[c := x]> r.
Proof.
  intros H. unfold astype_float_col in H. bind_ret H. bind_ret H.
  inversion H. cbn [columns rows]. split; [reflexivity|].
  split; [eapply getcol_ret; exact E|].
  intros i r' Hin. apply mapM_ret in E0.
  destruct (Forall2_in_r _ _ _ _ E0 Hin) as ([j r] & Hr & Hg).
  destruct (astype_float f (at_col c (j, r))) as [x|] eqn:Ex; [|discriminate].
  cbn [mbind py_bind fst snd] in Hg. inversion Hg; subst.
  exists r, x. auto.
Qed.

Lemma float_cell_div (c : cell) (d : Q) : float_cell c -> float_cell (cell_div c d).
Proof.
  intros [-> | [q ->]]; [left; reflexivity | right; eexists; reflexivity].
Qed.

Lemma float_cell_rsub (k : Q) (c : cell) :
  float_cell c -> float_cell (cell_rsub k c).
Proof.
  intros [-> | [q ->]]; [left; reflexivity | right; eexists; reflexivity].
Qed.

Lemma series_median_cell (l : list cell) (m : cell) :
  series_median l = Ret m -> float_cell m.
Proof.
  unfold series_median. destruct (numeric_values l) as [qs|]; [|discriminate].
  cbn [mbind py_bind]. intros H. inversion H.
  destruct (median qs); [right; eexists; reflexivity | left; reflexivity].
Qed.

Lemma natural_life_insert (c : string) (v : cell) (i : nat)
    (m : gmap string cell) :
  c <> "COMMITMENT_UNIT" ->
  natural_life (i, <[c := v]> m) = natural_life (i, m).
Proof.
  intros H. unfold natural_life. rewrite at_col_insert_ne by exact H.
  reflexivity.
Qed.

Lemma overwrite_natural_life_ret (d d' : DataFrame) :
  overwrite_natural_life d = Ret d' ->
  exists shared,
    natural_life_years d = Ret shared
    /\ d' = setcol_where natural_life "COMMITMENT_TERM" shared d.
Proof.
  intros H. unfold overwrite_natural_life in H. bind_ret H. bind_ret H.
  bind_ret H. inversion H. eexists. split; [|reflexivity].
  unfold natural_life_years. cbn [loc_rows rows] in E1. rewrite E1.
  reflexivity.
Qed.

Lemma natural_life_years_cell (d : DataFrame) (shared : cell) :
  natural_life_years d = Ret shared -> float_cell shared.
Proof.
  unfold natural_life_years. intros H.
  destruct (series_median _) as [m|] eqn:E; [|discriminate].
  inversion H. apply float_cell_rsub. eapply series_median_cell. exact E.
Qed.

Lemma normalize_commitment_term_rows (f : string -> option (option Q))
    (rc : bool) (d d' : DataFrame) :
  normalize_commitment_term f rc d = Ret d' ->
  has_col "COMMITMENT_TERM" d' = true
  /\ forall i r', In (i, r') (rows d') ->
       exists r x,
         In (i, r) (rows d)
         /\ astype_float f (at_col "COMMITMENT_TERM" (i, r)) = Ret x
         /\ float_cell (at_col "COMMITMENT_TERM" (i, r'))
         /\ (natural_life (i, r) = false ->
             at_col "COMMITMENT_TERM" (i, r')
             = cell_div x (divisor_col (at_col "COMMITMENT_UNIT" (i, r)))).
Proof.
  intros H. unfold normalize_commitment_term in H. bind_ret H.
  apply astype_float_col_ret in E. destruct E as (Hcols & Hterm & Hrows).
  bind_ret H. bind_ret H.
  apply overwrite_natural_life_ret in E0. destruct E0 as (shared & Hsh & ->).
  apply natural_life_years_cell in Hsh.
  match type of H with
  | context [setcol_where _ _ _ ?x] => set (d3 := x) in *
  end.
  assert (has_col "COMMITMENT_TERM"
            (setcol_where natural_life "COMMITMENT_TERM" shared d3) = true)
    as Hcol4.
  { unfold has_col. cbn [setcol_where setcol loc_rows columns d3].
    rewrite Hcols. do 2 apply has_col_add_label. exact Hterm. }
  assert (forall i r4,
    In (i, r4) (rows (setcol_where natural_life "COMMITMENT_TERM" shared d3)) ->
    exists r x,
      In (i, r) (rows d)
      /\ astype_float f (at_col "COMMITMENT_TERM" (i, r)) = Ret x
      /\ float_cell (at_col "COMMITMENT_TERM" (i, r4))
      /\ (natural_life (i, r) = false ->
          at_col "COMMITMENT_TERM" (i, r4)
          = cell_div x (divisor_col (at_col "COMMITMENT_UNIT" (i, r))))) as H4.
  { intros i r4 Hin. apply in_setcol_where in Hin.
    destruct Hin as (r3 & Hin & ->). apply in_setcol in Hin.
    destruct Hin as (r2 & Hin & ->). cbn [loc_rows rows] in Hin.
    apply filter_In in Hin. destruct Hin as [Hin _].
    destruct (Hrows i r2 Hin) as (r & x & Hr & Hx & ->).
    exists r, x. split; [exact Hr|]. split; [exact Hx|].
    rewrite !natural_life_insert by discriminate.
    rewrite at_col_insert.
    rewrite (at_col_insert_ne "COMMITMENT_UNIT" "COMMITMENT_TERM")
      by discriminate.
    destruct (natural_life (i, r)).
    - rewrite at_col_insert. split; [exact Hsh | discriminate].
    - rewrite at_col_insert. split; [|reflexivity].
      apply float_cell_div. eapply astype_float_cell. exact Hx. }
  destruct rc.
  - split.
    + eapply has_col_drop; [exact H | exact Hcol4|].
      intros [E'|[]]. discriminate.
    + intros i r' Hin. apply drop_ret in H. destruct H as [_ Hr].
      rewrite Hr in Hin. apply in_map_iff in Hin.
      destruct Hin as ([j r4] & E' & Hin). cbn [fst snd] in E'.
      inversion E'; subst. destruct (H4 _ _ Hin) as (r & x & ? & ? & ? & ?).
      exists r, x. rewrite at_col_delete_ne by discriminate. auto.
  - inversion H; subst. split; [exact Hcol4 | exact H4].
Qed.

Lemma drop_nulls_rows (rc : bool) (d d' : DataFrame) :
  drop_nulls rc d = Ret d' ->
  has_col "COMMITMENT_TERM" d = true ->
  forall i r', In (i, r') (rows d') ->
    at_col "COMMITMENT_TERM" (i, r') <> Null
    /\ exists r, In (i, r) (rows d)
                 /\ at_col "COMMITMENT_TERM" (i, r')
                    = at_col "COMMITMENT_TERM" (i, r).
Proof.
  intros H Hcol i r' Hin. unfold drop_nulls in H. bind_ret_as H d0.
  inversion H; subst. unfold dropna in Hin. cbn [loc_rows rows] in Hin.
  apply filter_In in Hin. destruct Hin as [Hin Hall].
  assert (has_col "COMMITMENT_TERM" d0 = true
          /\ rows_from (fun c => c = "COMMITMENT_TERM") d d0) as [Hcol0 Hfrom].
  { destruct rc.
    - split.
      + eapply has_col_drop; [exact E | exact Hcol|].
        intros [E'|[E'|[E'|[]]]]; discriminate.
      + eapply rows_from_drop; [|exact E].
        intros c -> [E'|[E'|[E'|[]]]]; discriminate.
    - inversion E; subst. split; [exact Hcol | apply rows_from_refl]. }
  split.
  - rewrite forallb_forall in Hall.
    specialize (Hall "COMMITMENT_TERM").
    intros Hnull. rewrite Hnull in Hall. cbn in Hall.
    assert (false = true) by
      (apply Hall; apply list_elem_of_In;
       apply bool_decide_eq_true in Hcol0; exact Hcol0).
    discriminate.
  - destruct (Hfrom i r' Hin) as (r & Hr & Heq). exists r.
    split; [exact Hr | apply Heq; reflexivity].
Qed.

Lemma clip_commitment_term_rows (d d' : DataFrame) :
  clip_commitment_term d = Ret d' ->
  forall i r', In (i, r') (rows d') ->
    exists r, In (i, r) (rows d)
              /\ r' !! "COMMITMENT_TERM"
                 = Some (clip_upper 110 (at_col "COMMITMENT_TERM" (i, r))).
Proof.
  intros H i r' Hin. unfold clip_commitment_term in H. bind_ret H.
  inversion H; subst. apply in_setcol in Hin. destruct Hin as (r & Hr & ->).
  exists r. split; [exact Hr | apply lookup_insert_eq].
Qed.

Lemma clip_upper_clamp (u q : Q) :
  clip_upper u (Num q) = Num (clamp_max u q) /\ (clamp_max u q <= u)%Q.
Proof.
  unfold clip_upper, clamp_max. split.
  - f_equal. unfold Qmin, GenericMinMax.gmin.
    destruct (Qle_bool q u) eqn:Hle.
    + apply Qle_bool_iff in Hle. destruct (q ?= u)%Q eqn:Hc; try reflexivity.
      apply Qgt_alt in Hc. exfalso. apply (Qlt_not_le _ _ Hc). exact Hle.
    + destruct (q ?= u)%Q eqn:Hc; try reflexivity; exfalso.
      * apply Qeq_alt in Hc.
        assert (Qle_bool q u = true)
          by (apply Qle_bool_iff; rewrite Hc; apply Qle_refl).
        congruence.
      * apply Qlt_alt in Hc.
        assert (Qle_bool q u = true)
          by (apply Qle_bool_iff; apply Qlt_le_weak; exact Hc).
        congruence.
  - apply Q.le_min_r.
Qed.

Lemma unit_divisor_col (u : string) (d : Q) (i : nat) (m : gmap string cell) :
  at_col "COMMITMENT_UNIT" (i, m) = Str u -> unit_divisor u d ->
  natural_life (i, m) = false
  /\ divisor_col (at_col "COMMITMENT_UNIT" (i, m)) = d.
Proof.
  intros Hu Hd. unfold natural_life. rewrite Hu.
  destruct Hd as [[-> ->] | [[-> ->] | [-> ->]]]; split; reflexivity.
Qed.

(** C4: every row of the cleaned frame has a numeric [COMMITMENT_TERM] of
    at most 110, and comes from a row of the input, under the same label,
    such that: if the unit of that row is Year(s), Months or Days, the
    cleaned term is the raw term as a float, divided by 1, 12 or 365, and
    clamped to a maximum of 110 (nothing is clamped from below). *)
Theorem commitment_term_in_years (f : string -> option (option Q))
    (v : variant) (removeColumns : bool) (data out : DataFrame) :
  clean_data f v removeColumns data = Ret (Cleaned out) ->
  forall i r', In (i, r') (rows out) ->
    (exists q, r' !! "COMMITMENT_TERM" = Some (Num q) /\ (q <= 110)%Q)
    /\ exists r,
         In (i, r) (rows data)
         /\ forall u d,
              at_col "COMMITMENT_UNIT" (i, r) = Str u ->
              unit_divisor u d ->
              exists raw,
                astype_float f (at_col "COMMITMENT_TERM" (i, r))
                = Ret (Num raw)
                /\ r' !! "COMMITMENT_TERM"
                   = Some (Num (clamp_max 110 (raw / d))).
Proof.
  intros H i r' Hin. unfold clean_data in H.
  bind_ret_as H d1. destruct (no_rows d1); [discriminate|].
  bind_ret_as H d2. destruct (no_rows d2); [discriminate|].
  bind_ret_as H d3. destruct (no_rows d3); [discriminate|].
  bind_ret_as H d4. destruct (no_rows d4); [discriminate|].
  bind_ret_as H d5. destruct (no_rows d5); [discriminate|].
  bind_ret_as H d6. bind_ret_as H d7. inversion H; subst d7. clear H.
  set (P := fun c : string => c = "COMMITMENT_TERM" \/ c = "COMMITMENT_UNIT").
  assert (rows_from P data d3) as H03.
  { eapply rows_from_trans; [|eapply standardize_gender_rows; [|exact E1]].
    - eapply rows_from_trans; [|eapply standardize_race_rows; [|exact E0]].
      + eapply exclude_non_prison_rows; [|exact E].
        intros [Hc|Hc]; discriminate.
      + intros [Hc|Hc]; discriminate.
    - intros [Hc|Hc]; discriminate. }
  apply normalize_commitment_term_rows in E2. destruct E2 as [Hcol4 H34].
  pose proof (drop_nulls_rows _ _ _ E3 Hcol4) as H45.
  assert (rows_from (fun c => c = "COMMITMENT_TERM") d5 d6) as H56.
  { eapply reduce_cardinality_rows; [|exact E4].
    intros name n Hn ->. destruct v; cbn in Hn;
      destruct Hn as [Hn|[Hn|[Hn|[Hn|[]]]]]; discriminate. }
  destruct (clip_commitment_term_rows _ _ E5 i r' Hin) as (r6 & Hr6 & Hclip).
  destruct (H56 i r6 Hr6) as (r5 & Hr5 & E65).
  rewrite (E65 _ eq_refl) in Hclip.
  destruct (H45 i r5 Hr5) as (Hnn & r4 & Hr4 & E54). rewrite E54 in *.
  destruct (H34 i r4 Hr4) as (r3 & x & Hr3 & Hx & Hfl & Hdiv).
  destruct (H03 i r3 Hr3) as (r0 & Hr0 & E30).
  destruct Hfl as [Hnull | [q Hq]]; [contradiction|].
  split.
  - rewrite Hclip, Hq. destruct (clip_upper_clamp 110 q) as [-> Hle].
    eexists. split; [reflexivity | exact Hle].
  - exists r0. split; [exact Hr0|]. intros u d Hu Hd.
    rewrite <- (E30 "COMMITMENT_UNIT") in Hu by (right; reflexivity).
    rewrite <- (E30 "COMMITMENT_TERM") by (left; reflexivity).
    destruct (unit_divisor_col u d i r3 Hu Hd) as [Hnl Hdc].
    specialize (Hdiv Hnl). rewrite Hdc in Hdiv.
    pose proof (astype_float_cell _ _ _ Hx) as [-> | [raw ->]].
    + rewrite Hdiv in Hq. discriminate.
    + exists raw. split; [exact Hx|].
      rewrite Hclip, Hdiv. cbn [cell_div].
      destruct (clip_upper_clamp 110 (raw / d)) as [-> _]. reflexivity.
Qed.

Lemma commitment_term_in_years_witness :
  exists out,
    clean_data decimal_literal Extended true
               (sample_frame "Prison" "Black" (PStr "1500") "Months")
    = Ret (Cleaned out)
    /\ map (at_col "COMMITMENT_TERM") (rows out) = [Num 110]
    /\ forall i r', In (i, r') (rows out) ->
         (exists q, r' !! "COMMITMENT_TERM" = Some (Num q) /\ (q <= 110)%Q)
         /\ exists r,
              In (i, r)
                 (rows (sample_frame "Prison" "Black" (PStr "1500") "Months"))
              /\ forall u d,
                   at_col "COMMITMENT_UNIT" (i, r) = Str u ->
                   unit_divisor u d ->
                   exists raw,
                     astype_float decimal_literal
                                  (at_col "COMMITMENT_TERM" (i, r))
                     = Ret (Num raw)
                     /\ r' !! "COMMITMENT_TERM"
                        = Some (Num (clamp_max 110 (raw / d))).
Proof.
  assert ((fun c => match c with
                    | Cleaned d => map (at_col "COMMITMENT_TERM") (rows d)
                    | Invalid _ => []
                    end)
            <$> clean_data decimal_literal Extended true
                  (sample_frame "Prison" "Black" (PStr "1500") "Months")
          = Ret [Num 110]) as Hterm by (vm_compute; reflexivity).
  destruct (clean_data decimal_literal Extended true
              (sample_frame "Prison" "Black" (PStr "1500") "Months"))
    as [[out|message]|e] eqn:E; try discriminate Hterm.
  exists out. split; [reflexivity|]. split.
  - cbn [fmap py_fmap] in Hterm. inversion Hterm as [Hout]. reflexivity.
  - apply (commitment_term_in_years decimal_literal Extended true
             (sample_frame "Prison" "Black" (PStr "1500") "Months") out E).
Defined.

(** C5: the overwrite of the commitment-term step gives every natural-life
    row the one shared term 78 minus the median age at the incident of the
    natural-life rows, and leaves every other row and every other cell as
    it was; with no natural-life row it returns the frame unchanged; on the
    natural-life batch with ages 20, 22 and 24 every normalized term is 56. *)
Theorem natural_life_term :
  (forall data shared,
      has_col "COMMITMENT_UNIT" data = true ->
      has_col "AGE_AT_INCIDENT" data = true ->
      natural_life_years data = Ret shared ->
      exists out,
        overwrite_natural_life data = Ret out
        /\ Forall2
             (fun r r' =>
                (at_col "COMMITMENT_UNIT" r = Str "Natural Life" ->
                 r'.1 = r.1
                 /\ r'.2 !! "COMMITMENT_TERM" = Some shared
                 /\ forall c, c <> "COMMITMENT_TERM" -> r'.2 !! c = r.2 !! c)
                /\ (at_col "COMMITMENT_UNIT" r <> Str "Natural Life" ->
                    r' = r))
             (rows data) (rows out))
  /\ (forall data,
        has_col "COMMITMENT_UNIT" data = true ->
        has_col "AGE_AT_INCIDENT" data = true ->
        has_col "COMMITMENT_TERM" data = true ->
        (forall r, In r (rows data) ->
                   at_col "COMMITMENT_UNIT" r <> Str "Natural Life") ->
        overwrite_natural_life data = Ret data)
  /\ (fun d => map (at_col "COMMITMENT_TERM") (rows d))
       <$> normalize_commitment_term decimal_literal true life_batch
     = Ret [Num 56; Num 56; Num 56].
Proof.
  split; [|split].
  - intros data shared Hunit Hage Hshared.
    unfold overwrite_natural_life. rewrite !getcol_has by assumption.
    cbn [mbind py_bind]. unfold natural_life_years in Hshared.
    cbn [loc_rows rows].
    destruct (series_median _) as [m|]; [|discriminate].
    cbn [fmap py_fmap] in Hshared. inversion Hshared; subst shared.
    cbn [mbind py_bind]. eexists. split; [reflexivity|].
    cbn [setcol_where rows].
    induction (rows data) as [|r rs IH]; constructor; [|exact IH].
    cbn [map]. destruct (natural_life r) eqn:Hnl; unfold natural_life in Hnl.
    + split; [|intros Hne; apply cell_eqb_str in Hnl; contradiction].
      intros _. cbn [fst snd]. split; [reflexivity|].
      split; [apply lookup_insert_eq|].
      intros c Hc. apply lookup_insert_ne. congruence.
    + split; [|reflexivity].
      intros Heq. apply cell_eqb_str in Heq. congruence.
  - intros data Hunit Hage Hterm Hnone.
    assert (forall r, In r (rows data) -> natural_life r = false) as Hmask
      by (intros r Hr; apply cell_neqb_str, Hnone, Hr).
    unfold overwrite_natural_life. rewrite !getcol_has by assumption.
    cbn [mbind py_bind loc_rows rows]. rewrite filter_none by exact Hmask.
    cbn [map series_median numeric_values mbind py_bind].
    rewrite setcol_where_none by assumption. reflexivity.
  - vm_compute. reflexivity.
Qed.

Lemma natural_life_term_witness :
  exists out,
    overwrite_natural_life life_batch = Ret out
    /\ Forall2
         (fun r r' =>
            (at_col "COMMITMENT_UNIT" r = Str "Natural Life" ->
             r'.1 = r.1
             /\ r'.2 !! "COMMITMENT_TERM" = Some (Num (78 - 22))
             /\ forall c, c <> "COMMITMENT_TERM" -> r'.2 !! c = r.2 !! c)
            /\ (at_col "COMMITMENT_UNIT" r <> Str "Natural Life" -> r' = r))
         (rows life_batch) (rows out).
Proof.
  apply (proj1 natural_life_term life_batch (Num (78 - 22))).
  - reflexivity.
  - reflexivity.
  - vm_compute. reflexivity.
Defined.

(** ** Cardinality reduction *)

Lemma length_insert_count (x : cell * nat) (l : list (cell * nat)) :
  length (insert_count x l) = S (length l).
Proof.
  induction l as [|y l IH]; [reflexivity|].
  simpl. destruct (y.2 <=? x.2)%nat; simpl; [reflexivity|].
  rewrite IH. reflexivity.
Qed.

Lemma length_value_counts (l : list cell) :
  length (value_counts l)
  = length (uniques (List.filter (fun c => negb (isnull c)) l)).
Proof.
  unfold value_counts.
  induction (uniques (List.filter (fun c => negb (isnull c)) l)) as [|v u IH];
    [reflexivity|].
  simpl. rewrite length_insert_count, IH. reflexivity.
Qed.

(** *** The distinct values of a column *)

Lemma Qeq_bool_comm (x y : Q) : Qeq_bool x y = Qeq_bool y x.
Proof.
  destruct (Qeq_bool x y) eqn:E, (Qeq_bool y x) eqn:E'; try reflexivity.
  - apply Qeq_bool_iff in E. symmetry in E. apply Qeq_bool_iff in E.
    congruence.
  - apply Qeq_bool_iff in E'. symmetry in E'. apply Qeq_bool_iff in E'.
    congruence.
Qed.

Lemma cell_eqb_refl (c : cell) : isnull c = false -> cell_eqb c c = true.
Proof.
  destruct c as [|s|q|[]]; cbn; try discriminate; intros _;
    try reflexivity.
  - apply String.eqb_refl.
  - apply Qeq_bool_iff. reflexivity.
Qed.

Lemma cell_eqb_sym (a b : cell) : cell_eqb a b = cell_eqb b a.
Proof.
  destruct a as [|s|q|[]], b as [|t|p|[]]; cbn; try reflexivity;
    try apply String.eqb_sym; apply Qeq_bool_comm.
Qed.

Lemma cell_eqb_trans (a b c : cell) :
  cell_eqb a b = true -> cell_eqb b c = true -> cell_eqb a c = true.
Proof.
  unfold cell_eqb.
  destruct a as [|s|q|[]], b as [|t|p|[]]; cbn [number_of];
    try discriminate;
    destruct c as [|u|r|[]]; cbn [number_of]; try discriminate;
    intros H1 H2;
    try (apply String.eqb_eq in H1; apply String.eqb_eq in H2; subst;
         apply String.eqb_refl);
    try (apply Qeq_bool_iff in H1; apply Qeq_bool_iff in H2;
         apply Qeq_bool_iff; exact (Qeq_trans _ _ _ H1 H2)).
Qed.

Lemma uniques_in (v : cell) (l : list cell) : In v (uniques l) -> In v l.
Proof.
  induction l as [|a l IH]; cbn [uniques]; [tauto|].
  intros [<- | H]; [left; reflexivity|].
  apply filter_In in H. right. apply IH, H.
Qed.

Lemma uniques_rep (l : list cell) (c : cell) :
  In c l -> isnull c = false ->
  exists v, In v (uniques l) /\ cell_eqb v c = true.
Proof.
  induction l as [|a l IH]; [contradiction|]. intros [-> | Hc] Hn.
  - exists c. split; [left; reflexivity | apply cell_eqb_refl; exact Hn].
  - destruct (IH Hc Hn) as (u & Hu & Hequ). cbn [uniques].
    destruct (cell_eqb a u) eqn:Hau.
    + exists a. split; [left; reflexivity|].
      eapply cell_eqb_trans; eassumption.
    + exists u. split; [|exact Hequ]. right. apply filter_In.
      split; [exact Hu|]. rewrite Hau. reflexivity.
Qed.

Lemma distinct_filter (p : cell -> bool) (u : list cell) :
  ForallOrdPairs (fun x y => cell_eqb x y = false) u ->
  ForallOrdPairs (fun x y => cell_eqb x y = false) (List.filter p u).
Proof.
  induction 1 as [|a l Ha Hl IH]; cbn [List.filter]; [constructor|].
  destruct (p a); [|exact IH]. constructor; [|exact IH].
  apply List.Forall_forall. intros y Hy. apply filter_In in Hy.
  rewrite List.Forall_forall in Ha. apply Ha, Hy.
Qed.

Lemma uniques_distinct (l : list cell) :
  ForallOrdPairs (fun x y => cell_eqb x y = false) (uniques l).
Proof.
  induction l as [|a l IH]; cbn [uniques]; constructor.
  - apply List.Forall_forall. intros y Hy. apply filter_In in Hy.
    destruct Hy as [_ Hy]. apply negb_true_iff in Hy. exact Hy.
  - apply distinct_filter. exact IH.
Qed.

Lemma distinct_one_match (k : cell) (u : list cell) :
  ForallOrdPairs (fun x y => cell_eqb x y = false) u ->
  (length (List.filter (cell_eqb k) u) <= 1)%nat.
Proof.
  induction 1 as [|a l Ha Hl IH]; cbn [List.filter]; [cbn; lia|].
  destruct (cell_eqb k a) eqn:Hka; [|exact IH].
  rewrite filter_none; [cbn; lia|].
  intros y Hy. destruct (cell_eqb k y) eqn:Hky; [|reflexivity].
  rewrite List.Forall_forall in Ha. specialize (Ha y Hy).
  rewrite cell_eqb_sym in Hka.
  rewrite (cell_eqb_trans a k y Hka Hky) in Ha. discriminate.
Qed.

Lemma filter_split_length {A : Type} (p : A -> bool) (l : list A) :
  length l
  = (length (List.filter p l)
     + length (List.filter (fun x => negb (p x)) l))%nat.
Proof.
  induction l as [|a l IH]; [reflexivity|]. cbn [List.filter].
  destruct (p a); cbn [negb length]; lia.
Qed.

(** Pairwise distinct cells that are each equal to one of [K] are no more
    than [K]. *)
Lemma distinct_cells_bound (K u : list cell) :
  ForallOrdPairs (fun x y => cell_eqb x y = false) u ->
  (forall x, In x u -> exists k, In k K /\ cell_eqb k x = true) ->
  (length u <= length K)%nat.
Proof.
  revert u. induction K as [|k K IH]; intros u Hd Hrep.
  - destruct u as [|x u]; [cbn; lia|].
    destruct (Hrep x (or_introl eq_refl)) as (k & [] & _).
  - rewrite (filter_split_length (cell_eqb k) u).
    pose proof (distinct_one_match k u Hd) as Hone.
    assert (length (List.filter (fun x => negb (cell_eqb k x)) u)
            <= length K)%nat as Hrest.
    { apply IH; [apply distinct_filter; exact Hd|].
      intros x Hx. apply filter_In in Hx. destruct Hx as [Hx Hk].
      apply negb_true_iff in Hk.
      destruct (Hrep x Hx) as (k' & [<- | Hk'] & He).
      - congruence.
      - exists k'. split; assumption. }
    cbn [length]. lia.
Qed.

Lemma in_keys_insert_count (v : cell) (y : cell * nat)
    (l : list (cell * nat)) :
  In v (map fst (insert_count y l)) <-> v = y.1 \/ In v (map fst l).
Proof.
  induction l as [|z l IH]; cbn [insert_count map In].
  - intuition.
  - destruct (z.2 <=? y.2)%nat; cbn [map In]; [intuition|].
    rewrite IH. intuition.
Qed.

Lemma value_counts_keys (l : list cell) (v : cell) :
  In v (map fst (value_counts l))
  <-> In v (uniques (List.filter (fun c => negb (isnull c)) l)).
Proof.
  unfold value_counts.
  set (present := List.filter (fun c => negb (isnull c)) l).
  induction (uniques present) as [|a u IH]; cbn [map fold_right In];
    [tauto|].
  rewrite in_keys_insert_count, IH. cbn [fst]. intuition.
Qed.

(** A value [value_counts] lists is a non-null cell of the column. *)
Lemma value_counts_present (l : list cell) (v : cell) :
  In v (map fst (value_counts l)) -> In v l /\ isnull v = false.
Proof.
  intros H. apply value_counts_keys, uniques_in, filter_In in H.
  destruct H as [Hin Hn]. apply negb_true_iff in Hn. auto.
Qed.

(** Every non-null cell of the column equals a value [value_counts] lists. *)
Lemma value_counts_rep (l : list cell) (c : cell) :
  In c l -> isnull c = false ->
  exists v, In v (map fst (value_counts l)) /\ cell_eqb v c = true.
Proof.
  intros Hin Hn.
  destruct (uniques_rep (List.filter (fun c => negb (isnull c)) l) c)
    as (v & Hv & He); [|exact Hn|].
  - apply filter_In. split; [exact Hin|]. rewrite Hn. reflexivity.
  - exists v. split; [apply value_counts_keys; exact Hv | exact He].
Qed.

(** The distinct values of a column whose non-null cells are each equal to
    one of [K] are no more than [K]. *)
Lemma uniques_bound (K l : list cell) :
  (forall c, In c l -> isnull c = false ->
     exists k, In k K /\ cell_eqb k c = true) ->
  (length (uniques (List.filter (fun c => negb (isnull c)) l))
   <= length K)%nat.
Proof.
  intros Hrep. apply distinct_cells_bound; [apply uniques_distinct|].
  intros x Hx. apply uniques_in, filter_In in Hx. destruct Hx as [Hin Hn].
  apply negb_true_iff in Hn. apply Hrep; assumption.
Qed.

Lemma in_skipn {A : Type} (n : nat) (l : list A) (x : A) :
  In x (skipn n l) -> In x l.
Proof.
  intros H. rewrite <- (firstn_skipn n l). apply in_or_app. right. exact H.
Qed.

Lemma isin_true (values : list cell) (c : cell) :
  isin values c = true <-> exists v, In v values /\ cell_eqb c v = true.
Proof. unfold isin. apply existsb_exists. Qed.

Lemma isin_misc_only (values : list cell) (c : cell) :
  (forall v, In v values -> v = Str "misc_other") ->
  isin values c = true -> c = Str "misc_other".
Proof.
  intros Hall H. apply isin_true in H. destruct H as (v & Hv & He).
  rewrite (Hall v Hv) in He. apply cell_eqb_str in He. exact He.
Qed.

(** *** What the reduction does to one column *)

Lemma combine_rare_rep (n : nat) (col : list cell) (c : cell) :
  In c (combine_rare n col) -> isnull c = false ->
  c = Str "misc_other"
  \/ exists k, In k (map fst (firstn n (value_counts col)))
               /\ cell_eqb k c = true.
Proof.
  unfold combine_rare. intros Hin Hn. apply in_map_iff in Hin.
  destruct Hin as (c0 & Hc & Hin).
  destruct (isin _ c0) eqn:Hisin; [left; congruence|]. subst c0. right.
  destruct (value_counts_rep col c Hin Hn) as (v & Hv & He).
  rewrite <- (firstn_skipn n (value_counts col)), map_app in Hv.
  apply in_app_or in Hv. destruct Hv as [Hv | Hv].
  - exists v. split; assumption.
  - exfalso. assert (isin (map fst (skipn n (value_counts col))) c = true)
      as Ht.
    { apply isin_true. exists v. split; [exact Hv|].
      rewrite cell_eqb_sym. exact He. }
    congruence.
Qed.

Lemma length_kept (n : nat) (col : list cell) :
  (length (map fst (firstn n (value_counts col))) <= n)%nat.
Proof. rewrite length_map. apply firstn_le_length. Qed.

(** After the reduction a column holds at most [n + 1] distinct values: the
    kept ones and [misc_other]. *)
Lemma combine_rare_bound (n : nat) (col : list cell) :
  (length (value_counts (combine_rare n col)) <= S n)%nat.
Proof.
  rewrite length_value_counts.
  etransitivity;
    [apply (uniques_bound
              (Str "misc_other" :: map fst (firstn n (value_counts col))))|].
  - intros c Hin Hn.
    destruct (combine_rare_rep n col c Hin Hn) as [-> | (k & Hk & He)].
    + exists (Str "misc_other"). split; [left; reflexivity | reflexivity].
    + exists k. split; [right; exact Hk | exact He].
  - cbn [length]. pose proof (length_kept n col). lia.
Qed.

Lemma combine_rare_settled (n : nat) (col : list cell) :
  (forall v, In v (map fst (skipn n (value_counts col))) ->
     v = Str "misc_other") ->
  combine_rare n col = col.
Proof.
  intros Hall. unfold combine_rare.
  etransitivity; [|apply (List.map_id col)]. apply map_ext. intros c.
  destruct (isin _ c) eqn:Hisin; [|reflexivity].
  symmetry. eapply isin_misc_only; eassumption.
Qed.

Lemma few_counts_settled (n : nat) (col : list cell) :
  (length (value_counts col) <= n)%nat ->
  forall v, In v (map fst (skipn n (value_counts col))) ->
    v = Str "misc_other".
Proof. intros Hn v Hv. rewrite skipn_all2 in Hv by exact Hn. destruct Hv. Qed.

(** One more reduction of a reduced column leaves, after the [n] most
    frequent values, nothing but [misc_other]. *)
Lemma combine_rare_twice (n : nat) (col : list cell) :
  forall v,
    In v (map fst (skipn n (value_counts
                              (combine_rare n (combine_rare n col))))) ->
    v = Str "misc_other".
Proof.
  set (col1 := combine_rare n col).
  destruct (existsb (cell_eqb (Str "misc_other"))
                    (map fst (firstn n (value_counts col1)))) eqn:Hkept.
  - (* [misc_other] is one of the kept values: at most [n] values remain *)
    apply few_counts_settled. rewrite length_value_counts.
    etransitivity;
      [apply (uniques_bound (map fst (firstn n (value_counts col1))))
      |apply length_kept].
    intros c Hin Hn.
    destruct (combine_rare_rep n col1 c Hin Hn) as [-> | Hrep];
      [|exact Hrep].
    apply existsb_exists in Hkept. destruct Hkept as (k & Hk & He).
    exists k. split; [exact Hk|]. rewrite cell_eqb_sym. exact He.
  - (* otherwise the only value after the kept ones is [misc_other] *)
    assert (forall v, In v (map fst (skipn n (value_counts col1))) ->
                      v = Str "misc_other") as Hall.
    { pose proof (combine_rare_bound n col) as Hb. fold col1 in Hb.
      destruct (skipn n (value_counts col1)) as [|[w cnt] rest] eqn:Hs;
        [intros v []|].
      assert (length (skipn n (value_counts col1)) = S (length rest))
        as Hlen by (rewrite Hs; reflexivity).
      rewrite length_skipn in Hlen.
      destruct rest as [|x rest]; [|cbn [length] in Hlen; lia].
      cbn [length] in Hlen.
      intros v [<- | []]. cbn [fst].
      (* some distinct value of the column is [misc_other] *)
      destruct (existsb (cell_eqb (Str "misc_other"))
                  (uniques (List.filter (fun c => negb (isnull c)) col1)))
        eqn:Hany.
      - apply existsb_exists in Hany. destruct Hany as (x & Hx & He).
        rewrite cell_eqb_sym in He. apply cell_eqb_str in He. subst x.
        apply value_counts_keys in Hx.
        rewrite <- (firstn_skipn n (value_counts col1)), map_app in Hx.
        apply in_app_or in Hx. destruct Hx as [Hx | Hx].
        + exfalso.
          assert (existsb (cell_eqb (Str "misc_other"))
                          (map fst (firstn n (value_counts col1))) = true)
            as Ht by (apply existsb_exists; exists (Str "misc_other");
                      split; [exact Hx | reflexivity]).
          congruence.
        + rewrite Hs in Hx. destruct Hx as [Hx | []]. exact Hx.
      - exfalso.
        assert (length (uniques (List.filter (fun c => negb (isnull c))
                                             col1))
                <= n)%nat as Hfew.
        { etransitivity;
            [apply (distinct_cells_bound
                      (map fst (firstn n (value_counts col))))
            |apply length_kept].
          - apply uniques_distinct.
          - intros x Hx.
            assert (cell_eqb (Str "misc_other") x = false) as Hne.
            { destruct (cell_eqb (Str "misc_other") x) eqn:He;
                [|reflexivity].
              assert (existsb (cell_eqb (Str "misc_other"))
                        (uniques (List.filter (fun c => negb (isnull c))
                                              col1)) = true) as Ht
                by (apply existsb_exists; exists x; split; assumption).
              congruence. }
            pose proof Hx as Hx'.
            apply uniques_in, filter_In in Hx'. destruct Hx' as [Hin Hn].
            apply negb_true_iff in Hn.
            destruct (combine_rare_rep n col x Hin Hn) as [-> | Hrep];
              [discriminate Hne | exact Hrep]. }
        rewrite <- length_value_counts in Hfew. lia. }
    rewrite (combine_rare_settled n col1 Hall). exact Hall.
Qed.

(** *** The reduction, column by column *)

Lemma getcol_ret_eq (c : string) (d : DataFrame) (col : list cell) :
  getcol c d = Ret col ->
  has_col c d = true /\ col = map (at_col c) (rows d).
Proof.
  unfold getcol. destruct (has_col c d); [|discriminate].
  intros H. injection H as <-. split; reflexivity.
Qed.

Lemma column_setcol_where_same (p : cell -> bool) (name : string) (v : cell)
    (d : DataFrame) :
  map (at_col name)
      (rows (setcol_where (fun r => p (at_col name r)) name v d))
  = map (fun c => if p c then v else c) (map (at_col name) (rows d)).
Proof.
  cbn [setcol_where rows]. rewrite !map_map. apply map_ext. intros [i r].
  destruct (p _); [apply at_col_insert | reflexivity].
Qed.

Lemma column_setcol_where_other (mask : nat * gmap string cell -> bool)
    (name c : string) (v : cell) (d : DataFrame) :
  c <> name ->
  map (at_col c) (rows (setcol_where mask name v d))
  = map (at_col c) (rows d).
Proof.
  intros Hne. cbn [setcol_where rows]. rewrite map_map. apply map_ext.
  intros [i r]. destruct (mask _); [|reflexivity].
  apply at_col_insert_ne. congruence.
Qed.

Lemma setcol_where_same (mask : nat * gmap string cell -> bool) (c : string)
    (s : string) (d : DataFrame) :
  has_col c d = true ->
  (forall r, In r (rows d) -> mask r = true -> at_col c r = Str s) ->
  setcol_where mask c (Str s) d = d.
Proof.
  intros Hcol Hmask. destruct d as [cols rs]. unfold setcol_where.
  cbn [columns rows] in *. rewrite add_label_has by exact Hcol. f_equal.
  etransitivity; [|apply (List.map_id rs)]. apply map_ext_in.
  intros [i r] Hin. destruct (mask (i, r)) eqn:Hm; [|reflexivity].
  specialize (Hmask _ Hin Hm). unfold at_col in Hmask. cbn [fst snd] in *.
  destruct (r !! c) as [x|] eqn:Hx; [|discriminate]. cbn in Hmask.
  subst x. rewrite insert_id by exact Hx. reflexivity.
Qed.

(** The reduction works row by row: it keeps the labels, and a cell is left
    as it was or, in a listed column, becomes [misc_other]. *)
Lemma reduce_cardinality_rowwise (tops : list (string * nat))
    (d d' : DataFrame) :
  reduce_cardinality tops d = Ret d' ->
  exists f,
    rows d' = map f (rows d)
    /\ forall r,
         (f r).1 = r.1
         /\ forall c,
              at_col c (f r) = at_col c r
              \/ (In c (map fst tops)
                  /\ at_col c (f r) = Str "misc_other").
Proof.
  revert d. induction tops as [|[name n] rest IH]; intros d H.
  - inversion H; subst d'. exists (fun r => r).
    split; [symmetry; apply List.map_id|]. intros r.
    split; [reflexivity|]. intros c. left. reflexivity.
  - cbn [reduce_cardinality] in H. bind_ret H. apply IH in H.
    destruct H as (g & Hrows & Hg). cbn [setcol_where rows] in Hrows.
    rewrite map_map in Hrows. eexists. split; [exact Hrows|].
    intros [i r]. cbn beta.
    destruct (isin _ (at_col name (i, r))).
    + destruct (Hg (i, <[name := Str "misc_other"]> r)) as [Hl Hc].
      cbn [fst snd] in *. split; [exact Hl|]. intros c.
      destruct (Hc c) as [Hs | [Hin Hm]].
      * destruct (String.eqb_spec c name) as [-> | Hne].
        -- right. split; [left; reflexivity|].
           rewrite Hs. apply at_col_insert.
        -- left. rewrite Hs. apply at_col_insert_ne. congruence.
      * right. split; [right; exact Hin | exact Hm].
    + destruct (Hg (i, r)) as [Hl Hc]. split; [exact Hl|]. intros c.
      destruct (Hc c) as [Hs | [Hin Hm]]; [left; exact Hs|].
      right. split; [right; exact Hin | exact Hm].
Qed.

Lemma reduce_cardinality_untouched (tops : list (string * nat))
    (d d' : DataFrame) (c : string) :
  reduce_cardinality tops d = Ret d' ->
  ~ In c (map fst tops) ->
  map (at_col c) (rows d') = map (at_col c) (rows d).
Proof.
  intros H Hc. apply reduce_cardinality_rowwise in H.
  destruct H as (f & -> & Hf). rewrite map_map. apply map_ext. intros r.
  destruct (Hf r) as [_ Hcells].
  destruct (Hcells c) as [Hs | [Hin _]]; [exact Hs | contradiction].
Qed.

(** With each column listed once, every listed column is reduced on its
    own: the result holds [combine_rare] of the input's column. *)
Lemma reduce_cardinality_one_column (tops : list (string * nat))
    (d d' : DataFrame) :
  List.NoDup (map fst tops) ->
  reduce_cardinality tops d = Ret d' ->
  forall name n, In (name, n) tops ->
    map (at_col name) (rows d')
    = combine_rare n (map (at_col name) (rows d)).
Proof.
  revert d. induction tops as [|[name0 n0] rest IH]; intros d Hnd H name n Hin;
    [contradiction|].
  cbn [map fst] in Hnd. apply List.NoDup_cons_iff in Hnd.
  destruct Hnd as [Hfresh Hnd].
  cbn [reduce_cardinality] in H. bind_ret_as H col.
  apply getcol_ret_eq in E. destruct E as [_ ->].
  destruct Hin as [Heq | Hin].
  - injection Heq as -> ->.
    rewrite (reduce_cardinality_untouched _ _ _ _ H Hfresh).
    apply column_setcol_where_same.
  - rewrite (IH _ Hnd H name n Hin). f_equal.
    apply column_setcol_where_other. intros ->. apply Hfresh.
    apply in_map_iff. exists (name0, n). auto.
Qed.

Lemma map_fixed {A : Type} (h : A -> A) (l : list A) :
  map h l = l -> forall x, In x l -> h x = x.
Proof.
  induction l as [|a l IH]; intros H x Hx; [contradiction|].
  cbn [map] in H. injection H as Ha Hl.
  destruct Hx as [<- | Hx]; [exact Ha | apply IH; assumption].
Qed.

Lemma settled_spec (tops : list (string * nat)) (d : DataFrame) :
  settled tops d = true
  <-> forall name n, In (name, n) tops ->
        has_col name d = true
        /\ forall v, In v (combined_values name n d) ->
             v = Str "misc_other".
Proof.
  unfold settled. rewrite forallb_forall. split.
  - intros H name n Hin. specialize (H _ Hin). cbn [fst snd] in H.
    apply andb_true_iff in H. destruct H as [Hcol Hall].
    split; [exact Hcol|]. intros v Hv.
    rewrite forallb_forall in Hall. specialize (Hall v Hv).
    rewrite cell_eqb_sym in Hall. apply cell_eqb_str in Hall. exact Hall.
  - intros H [name n] Hin. destruct (H name n Hin) as [Hcol Hall].
    cbn [fst snd]. rewrite Hcol. cbn [andb]. apply forallb_forall.
    intros v Hv. rewrite (Hall v Hv). reflexivity.
Qed.

(** The reduction returns the batch it was given exactly when the batch is
    settled. *)
Lemma reduce_cardinality_fixed_point (tops : list (string * nat))
    (d : DataFrame) :
  reduce_cardinality tops d = Ret d <-> settled tops d = true.
Proof.
  rewrite settled_spec. split.
  - induction tops as [|[name n] rest IH]; intros H name' n' Hin;
      [contradiction|].
    cbn [reduce_cardinality] in H. bind_ret_as H col.
    apply getcol_ret_eq in E. destruct E as [Hcol ->].
    (* the first step cannot have changed a cell: no later step undoes it *)
    assert (forall r, In r (rows d) ->
              isin (map fst (skipn n (value_counts
                                        (map (at_col name) (rows d)))))
                   (at_col name r) = true ->
              at_col name r = Str "misc_other") as Hkept.
    { intros [i r] Hr Hmask.
      destruct (reduce_cardinality_rowwise _ _ _ H) as (g & Hrows & Hg).
      cbn [setcol_where rows] in Hrows. rewrite map_map in Hrows.
      symmetry in Hrows. pose proof (map_fixed _ _ Hrows (i, r) Hr) as Hfix.
      cbn beta in Hfix. rewrite Hmask in Hfix. cbn [fst snd] in Hfix.
      destruct (Hg (i, <[name := Str "misc_other"]> r)) as [_ Hc].
      rewrite Hfix in Hc.
      destruct (Hc name) as [Hs | [_ Hm]]; [|exact Hm].
      rewrite Hs. apply at_col_insert. }
    rewrite setcol_where_same in H by assumption.
    destruct Hin as [Heq | Hin]; [|apply IH; assumption].
    injection Heq as <- <-. split; [exact Hcol|].
    intros v Hv. unfold combined_values in Hv.
    pose proof Hv as Hv'. apply in_map_iff in Hv'.
    destruct Hv' as ([v0 cnt] & Hfst & Hv0). cbn [fst] in Hfst. subst v0.
    apply in_skipn in Hv0.
    assert (In v (map fst (value_counts (map (at_col name) (rows d)))))
      as Hkey by (apply in_map_iff; exists (v, cnt); auto).
    apply value_counts_present in Hkey. destruct Hkey as [Hcell Hn].
    apply in_map_iff in Hcell. destruct Hcell as (r & Hr & Hin).
    rewrite <- Hr. apply Hkept; [exact Hin|].
    apply isin_true. exists v. split; [exact Hv|].
    rewrite Hr. apply cell_eqb_refl. exact Hn.
  - revert d. induction tops as [|[name n] rest IH]; intros d H;
      [reflexivity|].
    destruct (H name n (or_introl eq_refl)) as [Hcol Hall].
    cbn [reduce_cardinality]. rewrite getcol_has by exact Hcol.
    cbn [mbind py_bind]. rewrite setcol_where_same.
    + apply IH. intros name' n' Hin. apply H. right. exact Hin.
    + exact Hcol.
    + intros r Hr Hmask. eapply isin_misc_only; eassumption.
Qed.

(** The reduction returns a frame, with the columns of its input, when
    every listed column is present. *)
Lemma reduce_cardinality_returns (tops : list (string * nat))
    (d : DataFrame) :
  (forall c, In c (map fst tops) -> has_col c d = true) ->
  exists d', reduce_cardinality tops d = Ret d' /\ columns d' = columns d.
Proof.
  revert d. induction tops as [|[name n] rest IH]; intros d H.
  - exists d. split; reflexivity.
  - pose proof (H name (or_introl eq_refl)) as Hcol.
    cbn [reduce_cardinality]. rewrite getcol_has by exact Hcol.
    cbn [mbind py_bind].
    match goal with
    | |- context [reduce_cardinality rest ?x] => set (d1 := x)
    end.
    assert (columns d1 = columns d) as Hsame
      by (apply add_label_has; exact Hcol).
    destruct (IH d1) as (d' & Hd & Hc).
    + intros c Hc. unfold has_col. rewrite Hsame. apply H. right. exact Hc.
    + exists d'. split; [exact Hd | congruence].
Qed.

Lemma reduce_cardinality_listed (tops : list (string * nat))
    (d d' : DataFrame) :
  reduce_cardinality tops d = Ret d' ->
  columns d' = columns d
  /\ forall c, In c (map fst tops) -> has_col c d = true.
Proof.
  revert d. induction tops as [|[name n] rest IH]; intros d H.
  - inversion H. split; [reflexivity | contradiction].
  - cbn [reduce_cardinality] in H. bind_ret_as H col.
    apply getcol_ret in E.
    apply IH in H. destruct H as [Hcols Hrest].
    assert (columns (setcol_where
                       (fun r => isin (map fst (skipn n (value_counts col)))
                                      (at_col name r))
                       name (Str "misc_other") d) = columns d) as Hsame
      by (apply add_label_has; exact E).
    split; [congruence|].
    intros c [<- | Hc]; [exact E|].
    specialize (Hrest c Hc). unfold has_col in Hrest |- *.
    rewrite Hsame in Hrest. exact Hrest.
Qed.

Lemma length_uniques_le (l : list cell) :
  (length (uniques l) <= length l)%nat.
Proof.
  induction l as [|a l IH]; [reflexivity|]. cbn [uniques length].
  pose proof (List.filter_length_le (fun w => negb (cell_eqb a w))
                                    (uniques l)).
  lia.
Qed.

(** A column has no more distinct values than the batch has records. *)
Lemma distinct_values_le_rows (name : string) (d : DataFrame) :
  (distinct_values name d <= length (rows d))%nat.
Proof.
  unfold distinct_values.
  etransitivity; [apply length_uniques_le|].
  etransitivity; [apply List.filter_length_le|].
  rewrite length_map. reflexivity.
Qed.

(** C10 (amended): cardinality reduction returns the batch it was given
    exactly when the batch is settled: every listed column is present and
    each of its values that [value_counts] ranks after the [n] most frequent
    ones is [misc_other] already.  This is so whenever every listed column
    has at most [n] distinct values, in particular whenever the batch has at
    most [n] records, as the single record of a request.  Hence a second
    reduction of a reduced batch yields that same batch exactly when the
    reduced batch is settled.  With every column listed once, as in the
    dictionary [top_ns], a reduced batch holds at most [n + 1] distinct
    values in each listed column, and the batch a second reduction returns
    is one a third reduction leaves unchanged. *)
Theorem reduce_cardinality_reapplied (tops : list (string * nat))
    (data : DataFrame) :
  (reduce_cardinality tops data = Ret data <-> settled tops data = true)
  /\ ((forall name n, In (name, n) tops ->
         has_col name data = true
         /\ (distinct_values name data <= n)%nat) ->
      reduce_cardinality tops data = Ret data
      /\ (reduce_cardinality tops data ≫= reduce_cardinality tops)
         = reduce_cardinality tops data)
  /\ ((forall name n, In (name, n) tops ->
         has_col name data = true /\ (length (rows data) <= n)%nat) ->
      reduce_cardinality tops data = Ret data)
  /\ (forall reduced,
        reduce_cardinality tops data = Ret reduced ->
        (reduce_cardinality tops reduced = Ret reduced
         <-> settled tops reduced = true)
        /\ (List.NoDup (map fst tops) ->
            (forall name n, In (name, n) tops ->
               (distinct_values name reduced <= S n)%nat)
            /\ exists again,
                 reduce_cardinality tops reduced = Ret again
                 /\ reduce_cardinality tops again = Ret again)).
Proof.
  assert (forall d,
            (forall name n, In (name, n) tops ->
               has_col name d = true /\ (distinct_values name d <= n)%nat) ->
            reduce_cardinality tops d = Ret d) as Hfew.
  { intros d H. apply reduce_cardinality_fixed_point, settled_spec.
    intros name n Hin. destruct (H name n Hin) as [Hcol Hn].
    split; [exact Hcol|]. apply few_counts_settled.
    rewrite length_value_counts. exact Hn. }
  split; [apply reduce_cardinality_fixed_point|]. split; [|split].
  - intros H. pose proof (Hfew data H) as Hid.
    split; [exact Hid|]. rewrite Hid. exact Hid.
  - intros H. apply Hfew. intros name n Hin.
    destruct (H name n Hin) as [Hcol Hn]. split; [exact Hcol|].
    pose proof (distinct_values_le_rows name data). lia.
  - intros reduced Hred.
    split; [apply reduce_cardinality_fixed_point|]. intros Hnd.
    pose proof (reduce_cardinality_listed _ _ _ Hred) as [Hcols Hlisted].
    split.
    + intros name n Hin. unfold distinct_values.
      rewrite (reduce_cardinality_one_column _ _ _ Hnd Hred name n Hin).
      rewrite <- length_value_counts. apply combine_rare_bound.
    + destruct (reduce_cardinality_returns tops reduced)
        as (again & Hagain & Hcols').
      { intros c Hc. unfold has_col. rewrite Hcols. apply Hlisted, Hc. }
      exists again. split; [exact Hagain|].
      apply reduce_cardinality_fixed_point, settled_spec.
      intros name n Hin. split.
      * unfold has_col. rewrite Hcols', Hcols. apply Hlisted.
        apply in_map_iff. exists (name, n). auto.
      * unfold combined_values.
        rewrite (reduce_cardinality_one_column _ _ _ Hnd Hagain name n Hin).
        rewrite (reduce_cardinality_one_column _ _ _ Hnd Hred name n Hin).
        apply combine_rare_twice.
Qed.

(** The single record of the sample request is returned as it is; the
    21-agency batch is changed by a first reduction and left unchanged by a
    second; the 23-agency batch has at most 21 agencies after a first
    reduction and is stable after a second. *)
Lemma reduce_cardinality_reapplied_witness :
  reduce_cardinality (top_ns Extended)
    (sample_frame "Prison" "Black" (PInt 10) "Year(s)")
  = Ret (sample_frame "Prison" "Black" (PInt 10) "Year(s)")
  /\ (reduce_cardinality (top_ns Extended) paired_agency_batch
      <> Ret paired_agency_batch
      /\ exists reduced,
           reduce_cardinality (top_ns Extended) paired_agency_batch
           = Ret reduced
           /\ reduce_cardinality (top_ns Extended) reduced = Ret reduced)
  /\ exists reduced again,
       reduce_cardinality (top_ns Extended) agency_batch = Ret reduced
       /\ (distinct_values "LAW_ENFORCEMENT_AGENCY" reduced <= 21)%nat
       /\ reduce_cardinality (top_ns Extended) reduced = Ret again
       /\ reduce_cardinality (top_ns Extended) again = Ret again.
Proof.
  split; [|split].
  - assert (forall name n, In (name, n) (top_ns Extended) ->
              has_col name (sample_frame "Prison" "Black" (PInt 10) "Year(s)")
              = true
              /\ (length
                    (rows (sample_frame "Prison" "Black" (PInt 10) "Year(s)"))
                  <= n)%nat) as Hfew.
    { intros name n Hin.
      assert (forallb (fun t =>
                has_col t.1
                        (sample_frame "Prison" "Black" (PInt 10) "Year(s)")
                && (1 <=? t.2)%nat) (top_ns Extended) = true) as Hall
        by (vm_compute; reflexivity).
      rewrite forallb_forall in Hall. specialize (Hall _ Hin).
      apply andb_true_iff in Hall. destruct Hall as [Hc Hn].
      split; [exact Hc|]. apply Nat.leb_le. exact Hn. }
    exact (proj1 (proj2 (proj2 (reduce_cardinality_reapplied
                                  (top_ns Extended)
                                  (sample_frame "Prison" "Black" (PInt 10)
                                                "Year(s)"))))
                 Hfew).
  - split.
    + intros Hsame.
      apply (proj1 (reduce_cardinality_reapplied
                      (top_ns Extended) paired_agency_batch)) in Hsame.
      assert (settled (top_ns Extended) paired_agency_batch = false) as Hno
        by (vm_compute; reflexivity).
      congruence.
    + assert (match reduce_cardinality (top_ns Extended) paired_agency_batch
              with
              | Ret d => settled (top_ns Extended) d
              | Raise _ => false
              end = true) as Hok by (vm_compute; reflexivity).
      destruct (reduce_cardinality (top_ns Extended) paired_agency_batch)
        as [reduced|e] eqn:E; try discriminate Hok.
      exists reduced. split; [reflexivity|].
      exact (proj2 (proj1 (proj2 (proj2 (proj2
                      (reduce_cardinality_reapplied
                         (top_ns Extended) paired_agency_batch)))
                    reduced E))
                   Hok).
  - assert (match reduce_cardinality (top_ns Extended) agency_batch with
            | Ret _ => true
            | Raise _ => false
            end = true) as Hok by (vm_compute; reflexivity).
    destruct (reduce_cardinality (top_ns Extended) agency_batch)
      as [reduced|e] eqn:E; try discriminate Hok.
    destruct (proj2 (proj2 (proj2 (reduce_cardinality_reapplied
                                     (top_ns Extended) agency_batch)))
                    reduced E)
      as [_ Hlisted].
    destruct Hlisted as [Hbound (again & Hagain & Hstable)].
    { cbn. repeat constructor; cbn; intuition discriminate. }
    exists reduced, again. split; [reflexivity|].
    split; [|split; assumption].
    apply (Hbound "LAW_ENFORCEMENT_AGENCY" 20%nat).
    right. right. left. reflexivity.
Defined.

(** C10 as stated fails: reducing the 23-agency batch leaves 21 distinct
    agencies (the twenty kept and [misc_other]), and a second reduction
    folds the least frequent of them into [misc_other]. *)
Lemma reduce_cardinality_not_idempotent :
  ~ (forall reduced,
       reduce_cardinality (top_ns Extended) agency_batch = Ret reduced ->
       reduce_cardinality (top_ns Extended) reduced = Ret reduced).
Proof.
  intros H.
  set (agencies := fun r : py DataFrame =>
         match r with
         | Ret d => Some (map (at_col "LAW_ENFORCEMENT_AGENCY") (rows d))
         | Raise _ => None
         end).
  assert (agencies (reduce_cardinality (top_ns Extended) agency_batch
                    ≫= reduce_cardinality (top_ns Extended))
          = agencies (reduce_cardinality (top_ns Extended) agency_batch))
    as Hsame.
  { destruct (reduce_cardinality (top_ns Extended) agency_batch)
      as [reduced|e] eqn:E; [|reflexivity].
    cbn [mbind py_bind]. rewrite (H reduced eq_refl). reflexivity. }
  vm_compute in Hsame. discriminate.
Qed.

(** * Further properties of the pipeline and the handlers *)

(** ** The columns of the cleaned frame *)

Lemma columns_setcol (c : string) (f : nat * gmap string cell -> cell)
    (d : DataFrame) :
  has_col c d = true -> columns (setcol c f d) = columns d.
Proof. intros H. cbn [setcol columns]. apply add_label_has. exact H. Qed.

Lemma columns_setcol_where (mask : nat * gmap string cell -> bool)
    (c : string) (v : cell) (d : DataFrame) :
  has_col c d = true -> columns (setcol_where mask c v d) = columns d.
Proof. intros H. cbn [setcol_where columns]. apply add_label_has. exact H. Qed.

Lemma filter_labels_in (c : string) (labels cols : list string) :
  In c (List.filter (fun x => negb (bool_decide (x ∈ labels))) cols) ->
  In c cols /\ ~ In c labels.
Proof.
  intros H. apply filter_In in H. destruct H as [Hin Hout]. split; [exact Hin|].
  apply negb_true_iff, bool_decide_eq_false in Hout.
  intros Hl. apply Hout, list_elem_of_In. exact Hl.
Qed.

Lemma filter_labels_app (l1 l2 cols : list string) :
  List.filter (fun x => negb (bool_decide (x ∈ l2)))
    (List.filter (fun x => negb (bool_decide (x ∈ l1))) cols)
  = List.filter (fun x => negb (bool_decide (x ∈ l1 ++ l2))) cols.
Proof.
  induction cols as [|c cols IH]; [reflexivity|].
  cbn [List.filter].
  destruct (decide (c ∈ l1)) as [H1|H1].
  - rewrite (bool_decide_eq_true_2 _ H1).
    rewrite (bool_decide_eq_true_2 (c ∈ l1 ++ l2))
      by (apply elem_of_app; left; exact H1).
    cbn [negb]. exact IH.
  - rewrite (bool_decide_eq_false_2 _ H1). cbn [negb List.filter].
    destruct (decide (c ∈ l2)) as [H2|H2].
    + rewrite (bool_decide_eq_true_2 _ H2).
      rewrite (bool_decide_eq_true_2 (c ∈ l1 ++ l2))
        by (apply elem_of_app; right; exact H2).
      cbn [negb]. exact IH.
    + rewrite (bool_decide_eq_false_2 _ H2).
      rewrite (bool_decide_eq_false_2 (c ∈ l1 ++ l2))
        by (intros H; apply elem_of_app in H; tauto).
      cbn [negb]. rewrite IH. reflexivity.
Qed.

Lemma first_missing_none (labels cols : list string) :
  first_missing labels cols = None -> forall c, In c labels -> In c cols.
Proof.
  induction labels as [|l ls IH]; intros H c Hc; [contradiction|].
  cbn [first_missing] in H.
  destruct (bool_decide (l ∈ cols)) eqn:Hl; [|discriminate].
  destruct Hc as [<- | Hc].
  - apply bool_decide_eq_true in Hl. apply list_elem_of_In. exact Hl.
  - apply IH; assumption.
Qed.

Lemma drop_labels_present (labels : list string) (d d' : DataFrame) :
  drop labels d = Ret d' -> forall c, In c labels -> has_col c d = true.
Proof.
  unfold drop. intros H c Hc.
  destruct (first_missing labels (columns d)) eqn:E; [discriminate|].
  apply bool_decide_eq_true, list_elem_of_In.
  eapply first_missing_none; eassumption.
Qed.

Lemma exclude_non_prison_columns (rc : bool) (d d' : DataFrame) :
  exclude_non_prison rc d = Ret d' ->
  has_col "SENTENCE_TYPE" d = true
  /\ columns d'
     = if rc
       then List.filter (fun x => negb (bool_decide (x ∈ ["SENTENCE_TYPE"])))
                        (columns d)
       else columns d.
Proof.
  intros H. unfold exclude_non_prison in H. bind_ret H.
  apply getcol_ret in E. split; [exact E|].
  destruct rc.
  - apply drop_ret in H. destruct H as [-> _]. reflexivity.
  - inversion H. reflexivity.
Qed.

Lemma standardize_race_columns (d d' : DataFrame) :
  standardize_race d = Ret d' ->
  has_col "RACE" d = true /\ columns d' = columns d.
Proof.
  intros H. unfold standardize_race in H. bind_ret H. apply getcol_ret in E.
  inversion H. split; [exact E|]. cbn [loc_rows columns].
  apply add_label_has. exact E.
Qed.

Lemma standardize_gender_columns (d d' : DataFrame) :
  standardize_gender d = Ret d' ->
  has_col "GENDER" d = true /\ columns d' = columns d.
Proof.
  intros H. unfold standardize_gender in H. bind_ret H. apply getcol_ret in E.
  inversion H. split; [exact E|]. apply columns_setcol_where. exact E.
Qed.

Lemma normalize_commitment_term_columns (f : string -> option (option Q))
    (rc : bool) (d d' : DataFrame) :
  normalize_commitment_term f rc d = Ret d' ->
  (has_col "COMMITMENT_TERM" d = true
   /\ has_col "COMMITMENT_UNIT" d = true
   /\ has_col "AGE_AT_INCIDENT" d = true)
  /\ columns d'
     = if rc
       then List.filter
              (fun x => negb (bool_decide (x ∈ ["COMMITMENT_UNIT"])))
              (columns d)
       else columns d.
Proof.
  intros H. unfold normalize_commitment_term in H. bind_ret_as H d1.
  apply astype_float_col_ret in E. destruct E as (Hcols & Hterm & _).
  bind_ret H. apply getcol_ret in E. unfold has_col in E. rewrite Hcols in E.
  match type of H with
  | context [overwrite_natural_life ?x] => set (d3 := x) in *
  end.
  assert (columns d3 = columns d) as Hsame.
  { unfold d3. cbn [setcol loc_rows columns]. rewrite Hcols.
    apply add_label_has. exact Hterm. }
  bind_ret_as H d4. unfold overwrite_natural_life in E0.
  bind_ret E0. bind_ret E0. apply getcol_ret in E2.
  bind_ret E0. inversion E0; subst d4. clear E0.
  assert (has_col "COMMITMENT_TERM" d3 = true) as Hterm3
    by (unfold has_col; rewrite Hsame; exact Hterm).
  split.
  - split; [exact Hterm|]. split; [exact E|].
    unfold has_col in E2 |- *. rewrite Hsame in E2. exact E2.
  - destruct rc.
    + apply drop_ret in H. destruct H as [-> _].
      rewrite columns_setcol_where by exact Hterm3.
      rewrite Hsame. reflexivity.
    + inversion H. rewrite columns_setcol_where by exact Hterm3.
      exact Hsame.
Qed.

Lemma drop_nulls_columns (rc : bool) (d d' : DataFrame) :
  drop_nulls rc d = Ret d' ->
  (rc = true -> forall c, In c nan_cols -> has_col c d = true)
  /\ columns d'
     = if rc
       then List.filter (fun x => negb (bool_decide (x ∈ nan_cols)))
                        (columns d)
       else columns d.
Proof.
  intros H. unfold drop_nulls in H. bind_ret_as H d0. inversion H.
  cbn [dropna loc_rows columns]. destruct rc.
  - split.
    + intros _. eapply drop_labels_present. exact E.
    + apply drop_ret in E. destruct E as [-> _]. reflexivity.
  - inversion E. split; [discriminate | reflexivity].
Qed.

Lemma reduce_cardinality_columns (tops : list (string * nat))
    (d d' : DataFrame) :
  reduce_cardinality tops d = Ret d' ->
  (forall c, In c (map fst tops) -> has_col c d = true)
  /\ columns d' = columns d.
Proof.
  revert d. induction tops as [|[name n] rest IH]; intros d H.
  - inversion H. split; [contradiction | reflexivity].
  - cbn [reduce_cardinality] in H. bind_ret H. apply getcol_ret in E.
    apply IH in H. destruct H as [Hrest Hcols].
    rewrite columns_setcol_where in Hcols by exact E.
    split; [|exact Hcols].
    intros c [<- | Hc]; [exact E|].
    specialize (Hrest c Hc). unfold has_col in Hrest |- *.
    rewrite columns_setcol_where in Hrest by exact E. exact Hrest.
Qed.

Lemma clip_commitment_term_columns (d d' : DataFrame) :
  clip_commitment_term d = Ret d' -> columns d' = columns d.
Proof.
  intros H. unfold clip_commitment_term in H. bind_ret H.
  apply getcol_ret in E. inversion H. apply columns_setcol. exact E.
Qed.

Lemma has_col_filtered (c : string) (labels : list string) (d d' : DataFrame)
    (rc : bool) :
  columns d'
  = (if rc
     then List.filter (fun x => negb (bool_decide (x ∈ labels))) (columns d)
     else columns d) ->
  has_col c d' = true -> has_col c d = true.
Proof.
  intros Hcols H. unfold has_col in *. rewrite Hcols in H.
  destruct rc; [|exact H].
  apply bool_decide_eq_true in H. apply list_elem_of_In in H.
  apply filter_labels_in in H. apply bool_decide_eq_true, list_elem_of_In.
  tauto.
Qed.

(** X1: a cleaned frame exists only if the input has every column the
    pipeline reads; its columns are the input's columns in their order,
    without the five dropped ones when [removeColumns] is set and all of
    them otherwise. *)
Theorem clean_data_columns (f : string -> option (option Q)) (v : variant)
    (removeColumns : bool) (data out : DataFrame) :
  clean_data f v removeColumns data = Ret (Cleaned out) ->
  (forall c, In c (required_columns v removeColumns) ->
             has_col c data = true)
  /\ columns out
     = if removeColumns
       then List.filter
              (fun c => negb (bool_decide (c ∈ dropped_columns)))
              (columns data)
       else columns data.
Proof.
  intros H. unfold clean_data in H.
  bind_ret_as H d1. destruct (no_rows d1); [discriminate|].
  bind_ret_as H d2. destruct (no_rows d2); [discriminate|].
  bind_ret_as H d3. destruct (no_rows d3); [discriminate|].
  bind_ret_as H d4. destruct (no_rows d4); [discriminate|].
  bind_ret_as H d5. destruct (no_rows d5); [discriminate|].
  bind_ret_as H d6. bind_ret_as H d7. inversion H; subst d7. clear H.
  apply exclude_non_prison_columns in E. destruct E as [Hst C1].
  apply standardize_race_columns in E0. destruct E0 as [Hrace C2].
  apply standardize_gender_columns in E1. destruct E1 as [Hgen C3].
  apply normalize_commitment_term_columns in E2.
  destruct E2 as [(Hterm & Hunit & Hage) C4].
  apply drop_nulls_columns in E3. destruct E3 as [Hnan C5].
  apply reduce_cardinality_columns in E4. destruct E4 as [Htops C6].
  apply clip_commitment_term_columns in E5.
  rewrite C2 in C3. rewrite C3 in C4.
  assert (forall c, has_col c d3 = true -> has_col c data = true) as L3.
  { intros c Hc. eapply has_col_filtered; [exact C1|].
    unfold has_col in Hc |- *. rewrite <- C3. exact Hc. }
  assert (forall c, has_col c d4 = true -> has_col c data = true) as L4.
  { intros c Hc. apply L3.
    eapply (has_col_filtered c ["COMMITMENT_UNIT"] d3 d4 removeColumns);
      [|exact Hc].
    rewrite C4. unfold has_col. rewrite C3. reflexivity. }
  assert (forall c, has_col c d5 = true -> has_col c data = true) as L5.
  { intros c Hc. apply L4. eapply has_col_filtered; [exact C5 | exact Hc]. }
  split.
  - intros c Hc. unfold required_columns in Hc.
    apply in_app_or in Hc. destruct Hc as [Hc | Hc].
    + destruct Hc as [<-|[<-|[<-|[<-|[<-|[<-|[]]]]]]].
      * exact Hst.
      * apply (has_col_filtered _ _ _ _ _ C1). exact Hrace.
      * apply (has_col_filtered _ _ _ _ _ C1).
        unfold has_col in Hgen |- *. rewrite <- C2. exact Hgen.
      * apply L3. exact Hterm.
      * apply L3. exact Hunit.
      * apply L3. exact Hage.
    + apply in_app_or in Hc. destruct Hc as [Hc | Hc].
      * destruct removeColumns; [|contradiction].
        apply L4. apply Hnan; [reflexivity | exact Hc].
      * apply L5. apply Htops. exact Hc.
  - rewrite E5, C6, C5, C4, C1. destruct removeColumns; [|reflexivity].
    rewrite !filter_labels_app. reflexivity.
Qed.

Lemma clean_data_columns_witness :
  exists out,
    clean_data decimal_literal Extended true
               (sample_frame "Prison" "Black" (PInt 10) "Year(s)")
    = Ret (Cleaned out)
    /\ (forall c, In c (required_columns Extended true) ->
                  has_col c (sample_frame "Prison" "Black" (PInt 10) "Year(s)")
                  = true)
    /\ columns out
       = List.filter (fun c => negb (bool_decide (c ∈ dropped_columns)))
           (columns (sample_frame "Prison" "Black" (PInt 10) "Year(s)")).
Proof.
  assert (match clean_data decimal_literal Extended true
              (sample_frame "Prison" "Black" (PInt 10) "Year(s)") with
          | Ret (Cleaned _) => true
          | _ => false
          end = true) as Hok by (vm_compute; reflexivity).
  destruct (clean_data decimal_literal Extended true
              (sample_frame "Prison" "Black" (PInt 10) "Year(s)"))
    as [[out|message]|e] eqn:E; try discriminate Hok.
  - exists out. split; [reflexivity|].
    apply (clean_data_columns decimal_literal Extended true
             (sample_frame "Prison" "Black" (PInt 10) "Year(s)") out E).
Defined.

(** ** The steps [clean_data] went through *)

Lemma clean_data_steps (f : string -> option (option Q)) (v : variant)
    (rc : bool) (data out : DataFrame) :
  clean_data f v rc data = Ret (Cleaned out) ->
  exists d1 d2 d3 d4 d5 d6,
    exclude_non_prison rc data = Ret d1
    /\ standardize_race d1 = Ret d2
    /\ standardize_gender d2 = Ret d3
    /\ normalize_commitment_term f rc d3 = Ret d4
    /\ drop_nulls rc d4 = Ret d5
    /\ no_rows d5 = false
    /\ reduce_cardinality (top_ns v) d5 = Ret d6
    /\ clip_commitment_term d6 = Ret out.
Proof.
  intros H. unfold clean_data in H.
  bind_ret_as H d1. destruct (no_rows d1); [discriminate|].
  bind_ret_as H d2. destruct (no_rows d2); [discriminate|].
  bind_ret_as H d3. destruct (no_rows d3); [discriminate|].
  bind_ret_as H d4. destruct (no_rows d4); [discriminate|].
  bind_ret_as H d5. destruct (no_rows d5) eqn:Hrows; [discriminate|].
  bind_ret_as H d6. bind_ret_as H d7. inversion H; subst d7.
  exists d1, d2, d3, d4, d5, d6. auto 10.
Qed.

Lemma normalize_commitment_term_rows_from (P : string -> Prop)
    (f : string -> option (option Q)) (rc : bool) (d d' : DataFrame) :
  ~ P "COMMITMENT_TERM" -> ~ P "COMMITMENT_UNIT" ->
  normalize_commitment_term f rc d = Ret d' -> rows_from P d d'.
Proof.
  intros Hterm Hunit H. unfold normalize_commitment_term in H.
  bind_ret_as H d1. apply astype_float_col_ret in E.
  destruct E as (_ & _ & Hrows).
  assert (rows_from P d d1) as H01.
  { intros i r' Hin. destruct (Hrows i r' Hin) as (r & x & Hr & _ & ->).
    exists r. split; [exact Hr|]. intros c Hc. apply at_col_insert_ne.
    intros <-. contradiction. }
  bind_ret H. bind_ret_as H d4.
  apply overwrite_natural_life_ret in E0. destruct E0 as (shared & _ & ->).
  assert (forall x,
            rows_from P d
              (setcol_where natural_life "COMMITMENT_TERM" x
                 (setcol "COMMITMENT_TERM"
                    (fun r => cell_div (at_col "COMMITMENT_TERM" r)
                                (divisor_col (at_col "COMMITMENT_UNIT" r)))
                    (loc_rows
                       (fun r => isin commitment_term_units
                                      (at_col "COMMITMENT_UNIT" r)) d1))))
    as H04.
  { intros x. eapply rows_from_trans; [exact H01|].
    eapply rows_from_trans;
      [|apply rows_from_setcol_where; exact Hterm].
    eapply rows_from_trans; [|apply rows_from_setcol; exact Hterm].
    apply rows_from_loc_rows. }
  destruct rc.
  - eapply rows_from_trans; [apply H04|].
    eapply rows_from_drop; [|exact H]. intros c Hc [<-|[]]. contradiction.
  - injection H as <-. apply H04.
Qed.

Lemma drop_nulls_rows_from (P : string -> Prop) (rc : bool)
    (d d' : DataFrame) :
  (forall c, P c -> ~ In c nan_cols) ->
  drop_nulls rc d = Ret d' -> rows_from P d d'.
Proof.
  intros HP H. unfold drop_nulls in H. bind_ret_as H d0. inversion H.
  eapply rows_from_trans; [|apply rows_from_loc_rows].
  destruct rc.
  - eapply rows_from_drop; [exact HP | exact E].
  - inversion E. apply rows_from_refl.
Qed.

Lemma clip_commitment_term_rows_from (P : string -> Prop) (d d' : DataFrame) :
  ~ P "COMMITMENT_TERM" ->
  clip_commitment_term d = Ret d' -> rows_from P d d'.
Proof.
  intros HP H. unfold clip_commitment_term in H. bind_ret H. inversion H.
  apply rows_from_setcol. exact HP.
Qed.

(** X2: every row of the cleaned frame comes from an input row of the same
    label, and every column that is neither dropped nor assigned by the
    pipeline holds the cell of that input row. *)
Theorem clean_data_passes_through (f : string -> option (option Q))
    (v : variant) (removeColumns : bool) (data out : DataFrame) :
  clean_data f v removeColumns data = Ret (Cleaned out) ->
  forall i r', In (i, r') (rows out) ->
    exists r,
      In (i, r) (rows data)
      /\ forall c, ~ In c dropped_columns -> ~ In c (assigned_columns v) ->
                   at_col c (i, r') = at_col c (i, r).
Proof.
  intros H.
  destruct (clean_data_steps _ _ _ _ _ H)
    as (d1 & d2 & d3 & d4 & d5 & d6 & S1 & S2 & S3 & S4 & S5 & _ & S6 & S7).
  set (P := fun c : string =>
              ~ In c dropped_columns /\ ~ In c (assigned_columns v)).
  assert (rows_from P data out) as Hfrom.
  { eapply rows_from_trans;
      [eapply (exclude_non_prison_rows P); [|exact S1]|].
    { intros [Hd _]. apply Hd. left. reflexivity. }
    eapply rows_from_trans; [eapply (standardize_race_rows P); [|exact S2]|].
    { intros [_ Ha]. apply Ha. left. reflexivity. }
    eapply rows_from_trans; [eapply (standardize_gender_rows P); [|exact S3]|].
    { intros [_ Ha]. apply Ha. right. left. reflexivity. }
    eapply rows_from_trans;
      [eapply (normalize_commitment_term_rows_from P); [| |exact S4]|].
    { intros [_ Ha]. apply Ha. right. right. left. reflexivity. }
    { intros [Hd _]. apply Hd. right. left. reflexivity. }
    eapply rows_from_trans; [eapply (drop_nulls_rows_from P); [|exact S5]|].
    { intros c [Hd _] Hc. apply Hd. right. right. exact Hc. }
    eapply rows_from_trans;
      [eapply (reduce_cardinality_rows P); [|exact S6]|].
    { intros name n Hn [_ Ha]. apply Ha. unfold assigned_columns.
      apply in_or_app. right. apply in_map_iff. exists (name, n). auto. }
    eapply (clip_commitment_term_rows_from P); [|exact S7].
    intros [_ Ha]. apply Ha. right. right. left. reflexivity. }
  intros i r' Hin. destruct (Hfrom i r' Hin) as (r & Hr & Heq).
  exists r. split; [exact Hr|]. intros c Hd Ha. apply Heq. split; assumption.
Qed.

Lemma clean_data_passes_through_witness :
  exists out,
    clean_data decimal_literal Extended true
               (sample_frame "Prison" "Black" (PInt 10) "Year(s)")
    = Ret (Cleaned out)
    /\ forall i r', In (i, r') (rows out) ->
         exists r,
           In (i, r)
              (rows (sample_frame "Prison" "Black" (PInt 10) "Year(s)"))
           /\ forall c, ~ In c dropped_columns ->
                        ~ In c (assigned_columns Extended) ->
                        at_col c (i, r') = at_col c (i, r).
Proof.
  assert (match clean_data decimal_literal Extended true
              (sample_frame "Prison" "Black" (PInt 10) "Year(s)") with
          | Ret (Cleaned _) => true
          | _ => false
          end = true) as Hok by (vm_compute; reflexivity).
  destruct (clean_data decimal_literal Extended true
              (sample_frame "Prison" "Black" (PInt 10) "Year(s)"))
    as [[out|message]|e] eqn:E; try discriminate Hok.
  - exists out. split; [reflexivity|].
    apply (clean_data_passes_through decimal_literal Extended true
             (sample_frame "Prison" "Black" (PInt 10) "Year(s)") out E).
Defined.

(** ** Race and gender of a cleaned row *)

Lemma standardize_race_values (d d' : DataFrame) :
  standardize_race d = Ret d' ->
  forall i r', In (i, r') (rows d') ->
    exists r,
      In (i, r) (rows d)
      /\ at_col "RACE" (i, r') = map_dict standard_race_map (at_col "RACE" (i, r))
      /\ at_col "RACE" (i, r') <> Str "Unknown"
      /\ at_col "RACE" (i, r') <> Null.
Proof.
  intros H i r' Hin. unfold standardize_race in H. bind_ret H. inversion H.
  subst d'. cbn [loc_rows rows] in Hin.
  apply filter_In in Hin. destruct Hin as [Hin Hnn].
  apply filter_In in Hin. destruct Hin as [Hin Hnu].
  apply in_map_iff in Hin. destruct Hin as ([j r] & Heq & Hin).
  cbn [fst snd] in Heq. inversion Heq; subst. exists r.
  rewrite at_col_insert in *. split; [exact Hin|]. split; [reflexivity|].
  split.
  - intros Hc. rewrite Hc in Hnu. discriminate.
  - intros Hc. rewrite Hc in Hnn. discriminate.
Qed.

Lemma standard_race_values (c : cell) :
  map_dict standard_race_map c <> Null ->
  map_dict standard_race_map c <> Str "Unknown" ->
  exists s t,
    c = Str s /\ standard_race_map !! s = Some t
    /\ map_dict standard_race_map c = Str t /\ In t cleaned_races.
Proof.
  destruct c as [|s|q|b]; cbn [map_dict]; try congruence.
  destruct (standard_race_map !! s) as [t|] eqn:Hs; [|congruence].
  intros _ Hu. exists s, t.
  split; [reflexivity|]. split; [exact Hs|]. split; [reflexivity|].
  unfold standard_race_map in Hs. apply elem_of_list_to_map_2 in Hs.
  apply list_elem_of_In in Hs. cbn [In] in Hs.
  repeat match goal with
         | H : _ \/ _ |- _ => destruct H as [H | H]
         end;
    try contradiction; inversion Hs; subst;
    first [ exfalso; apply Hu; reflexivity | cbn; auto 10 ].
Qed.

(** X3: the race of a cleaned row is the standard name of the race of its
    input row, one of Black, White, HISPANIC, Asian and American Indian, so
    the counterfactual map is defined on it: Black for White, White for the
    others. *)
Theorem clean_data_race (f : string -> option (option Q)) (v : variant)
    (removeColumns : bool) (data out : DataFrame) :
  clean_data f v removeColumns data = Ret (Cleaned out) ->
  forall i r', In (i, r') (rows out) ->
    exists r s t,
      In (i, r) (rows data)
      /\ at_col "RACE" (i, r) = Str s
      /\ standard_race_map !! s = Some t
      /\ at_col "RACE" (i, r') = Str t
      /\ In t cleaned_races
      /\ map_dict race_counterfactual_map (at_col "RACE" (i, r'))
         = Str (if String.eqb t "White" then "Black" else "White").
Proof.
  intros H i r7 Hin.
  destruct (clean_data_steps _ _ _ _ _ H)
    as (d1 & d2 & d3 & d4 & d5 & d6 & S1 & S2 & S3 & S4 & S5 & _ & S6 & S7).
  set (P := fun c : string => c = "RACE").
  assert (rows_from P d2 out) as Htail.
  { eapply rows_from_trans; [eapply (standardize_gender_rows P); [|exact S3]|].
    { discriminate. }
    eapply rows_from_trans;
      [eapply (normalize_commitment_term_rows_from P); [| |exact S4]|].
    { discriminate. } { discriminate. }
    eapply rows_from_trans; [eapply (drop_nulls_rows_from P); [|exact S5]|].
    { intros c -> [Hc|[Hc|[Hc|[]]]]; discriminate. }
    eapply rows_from_trans;
      [eapply (reduce_cardinality_rows P); [|exact S6]|].
    { intros name n Hn ->. destruct v; cbn in Hn;
        destruct Hn as [Hn|[Hn|[Hn|[Hn|[]]]]]; discriminate. }
    eapply (clip_commitment_term_rows_from P); [|exact S7]. discriminate. }
  destruct (Htail i r7 Hin) as (r2 & Hr2 & E72).
  rewrite (E72 "RACE" eq_refl).
  destruct (standardize_race_values _ _ S2 i r2 Hr2)
    as (r1 & Hr1 & Hmap & Hnu & Hnn).
  destruct (exclude_non_prison_rows P removeColumns data d1) with (i := i)
    (r' := r1) as (r0 & Hr0 & E10); [discriminate | exact S1 | exact Hr1 |].
  rewrite (E10 "RACE" eq_refl) in Hmap. rewrite Hmap in Hnu, Hnn.
  destruct (standard_race_values _ Hnn Hnu) as (s & t & Hs & Ht & Hval & Hin5).
  exists r0, s, t. rewrite Hmap, Hval.
  repeat split; try assumption.
  cbn [In cleaned_races] in Hin5.
  destruct Hin5 as [<-|[<-|[<-|[<-|[<-|[]]]]]]; reflexivity.
Qed.

Lemma clean_data_race_witness :
  exists out,
    clean_data decimal_literal Extended true
               (sample_frame "Prison" "Biracial" (PInt 10) "Year(s)")
    = Ret (Cleaned out)
    /\ forall i r', In (i, r') (rows out) ->
         exists r s t,
           In (i, r)
              (rows (sample_frame "Prison" "Biracial" (PInt 10) "Year(s)"))
           /\ at_col "RACE" (i, r) = Str s
           /\ standard_race_map !! s = Some t
           /\ at_col "RACE" (i, r') = Str t
           /\ In t cleaned_races
           /\ map_dict race_counterfactual_map (at_col "RACE" (i, r'))
              = Str (if String.eqb t "White" then "Black" else "White").
Proof.
  assert (match clean_data decimal_literal Extended true
              (sample_frame "Prison" "Biracial" (PInt 10) "Year(s)") with
          | Ret (Cleaned _) => true
          | _ => false
          end = true) as Hok by (vm_compute; reflexivity).
  destruct (clean_data decimal_literal Extended true
              (sample_frame "Prison" "Biracial" (PInt 10) "Year(s)"))
    as [[out|message]|e] eqn:E; try discriminate Hok.
  - exists out. split; [reflexivity|].
    apply (clean_data_race decimal_literal Extended true
             (sample_frame "Prison" "Biracial" (PInt 10) "Year(s)") out E).
Defined.

Lemma standardize_gender_values (d d' : DataFrame) :
  standardize_gender d = Ret d' ->
  forall i r', In (i, r') (rows d') ->
    exists r,
      In (i, r) (rows d)
      /\ ((at_col "GENDER" (i, r') = at_col "GENDER" (i, r)
           /\ (at_col "GENDER" (i, r) = Str "Male"
               \/ at_col "GENDER" (i, r) = Str "Female"))
          \/ (at_col "GENDER" (i, r') = Str "Unknown"
              /\ at_col "GENDER" (i, r) <> Str "Male"
              /\ at_col "GENDER" (i, r) <> Str "Female")).
Proof.
  intros H i r' Hin. unfold standardize_gender in H. bind_ret H. inversion H.
  subst d'. apply in_setcol_where in Hin. destruct Hin as (r & Hr & ->).
  exists r. split; [exact Hr|]. unfold isin. cbn [existsb].
  destruct (cell_eqb (at_col "GENDER" (i, r)) (Str "Male")) eqn:Hm.
  - left. cbn. apply cell_eqb_str in Hm. auto.
  - destruct (cell_eqb (at_col "GENDER" (i, r)) (Str "Female")) eqn:Hf.
    + left. cbn. apply cell_eqb_str in Hf. auto.
    + right. cbn. rewrite at_col_insert. split; [reflexivity|].
      split; intros Hc; rewrite Hc in *; discriminate.
Qed.

Lemma standardize_gender_positional (d : DataFrame) :
  has_col "GENDER" d = true ->
  exists d',
    standardize_gender d = Ret d'
    /\ columns d' = columns d
    /\ Forall2
         (fun r r' =>
            r'.1 = r.1
            /\ ((at_col "GENDER" r' = at_col "GENDER" r
                 /\ (at_col "GENDER" r = Str "Male"
                     \/ at_col "GENDER" r = Str "Female"))
                \/ (at_col "GENDER" r' = Str "Unknown"
                    /\ at_col "GENDER" r <> Str "Male"
                    /\ at_col "GENDER" r <> Str "Female"))
            /\ forall c, c <> "GENDER" -> at_col c r' = at_col c r)
         (rows d) (rows d').
Proof.
  intros Hcol. unfold standardize_gender. rewrite getcol_has by exact Hcol.
  cbn [mbind py_bind]. eexists. split; [reflexivity|].
  split; [apply columns_setcol_where; exact Hcol|].
  cbn [setcol_where rows].
  induction (rows d) as [|[i r] rs IH]; cbn [map]; constructor; [|exact IH].
  unfold isin. cbn [existsb].
  destruct (cell_eqb (at_col "GENDER" (i, r)) (Str "Male")) eqn:Hm.
  - cbn [orb negb]. apply cell_eqb_str in Hm. auto 6.
  - destruct (cell_eqb (at_col "GENDER" (i, r)) (Str "Female")) eqn:Hf.
    + cbn [orb negb]. apply cell_eqb_str in Hf. auto 6.
    + cbn [orb negb fst]. split; [reflexivity|]. split.
      * right. rewrite at_col_insert. split; [reflexivity|].
        split; intros Hc; rewrite Hc in *; discriminate.
      * intros c Hc. apply at_col_insert_ne. congruence.
Qed.

(** X4: the gender of a cleaned row is that of its input row when that is
    "Male" or "Female", and "Unknown" otherwise; and the gender step drops
    no row: on any frame with a [GENDER] column it returns a frame with the
    same columns and the same rows in the same order, with the same labels,
    the gender rewritten as above and every other cell unchanged. *)
Theorem clean_data_gender (f : string -> option (option Q)) (v : variant)
    (removeColumns : bool) (data out : DataFrame) :
  (clean_data f v removeColumns data = Ret (Cleaned out) ->
   forall i r', In (i, r') (rows out) ->
     exists r,
       In (i, r) (rows data)
       /\ ((at_col "GENDER" (i, r') = at_col "GENDER" (i, r)
            /\ (at_col "GENDER" (i, r) = Str "Male"
                \/ at_col "GENDER" (i, r) = Str "Female"))
           \/ (at_col "GENDER" (i, r') = Str "Unknown"
               /\ at_col "GENDER" (i, r) <> Str "Male"
               /\ at_col "GENDER" (i, r) <> Str "Female")))
  /\ (forall d,
        has_col "GENDER" d = true ->
        exists d',
          standardize_gender d = Ret d'
          /\ columns d' = columns d
          /\ length (rows d') = length (rows d)
          /\ Forall2
               (fun r r' =>
                  r'.1 = r.1
                  /\ ((at_col "GENDER" r' = at_col "GENDER" r
                       /\ (at_col "GENDER" r = Str "Male"
                           \/ at_col "GENDER" r = Str "Female"))
                      \/ (at_col "GENDER" r' = Str "Unknown"
                          /\ at_col "GENDER" r <> Str "Male"
                          /\ at_col "GENDER" r <> Str "Female"))
                  /\ forall c, c <> "GENDER" -> at_col c r' = at_col c r)
               (rows d) (rows d')).
Proof.
  split.
  - intros H i r7 Hin.
    destruct (clean_data_steps _ _ _ _ _ H)
      as (d1 & d2 & d3 & d4 & d5 & d6 & S1 & S2 & S3 & S4 & S5 & _ & S6 & S7).
    set (P := fun c : string => c = "GENDER").
    assert (rows_from P d3 out) as Htail.
    { eapply rows_from_trans;
        [eapply (normalize_commitment_term_rows_from P); [| |exact S4]|].
      { discriminate. } { discriminate. }
      eapply rows_from_trans; [eapply (drop_nulls_rows_from P); [|exact S5]|].
      { intros c -> [Hc|[Hc|[Hc|[]]]]; discriminate. }
      eapply rows_from_trans;
        [eapply (reduce_cardinality_rows P); [|exact S6]|].
      { intros name n Hn ->. destruct v; cbn in Hn;
          destruct Hn as [Hn|[Hn|[Hn|[Hn|[]]]]]; discriminate. }
      eapply (clip_commitment_term_rows_from P); [|exact S7]. discriminate. }
    assert (rows_from P data d2) as Hhead.
    { eapply rows_from_trans;
        [eapply (exclude_non_prison_rows P); [|exact S1]|].
      { discriminate. }
      eapply (standardize_race_rows P); [|exact S2]. discriminate. }
    destruct (Htail i r7 Hin) as (r3 & Hr3 & E73).
    destruct (standardize_gender_values _ _ S3 i r3 Hr3) as (r2 & Hr2 & Hg).
    destruct (Hhead i r2 Hr2) as (r0 & Hr0 & E20).
    exists r0. split; [exact Hr0|].
    rewrite (E73 "GENDER" eq_refl), <- (E20 "GENDER" eq_refl). exact Hg.
  - intros d Hcol.
    destruct (standardize_gender_positional d Hcol) as (d' & Hd & Hc & Hrows).
    exists d'. split; [exact Hd|]. split; [exact Hc|].
    split; [symmetry; eapply Forall2_length; exact Hrows | exact Hrows].
Qed.

(** The sample record is cleaned with its gender kept, and the gender step
    keeps a record whose gender is neither "Male" nor "Female". *)
Lemma clean_data_gender_witness :
  (exists out,
     clean_data decimal_literal Legacy true
                (frame_of_record
                   (sample_request Legacy "Prison" "White" (PInt 10) "Days"))
     = Ret (Cleaned out)
     /\ forall i r', In (i, r') (rows out) ->
          exists r,
            In (i, r)
               (rows (frame_of_record
                        (sample_request Legacy "Prison" "White" (PInt 10)
                                        "Days")))
            /\ ((at_col "GENDER" (i, r') = at_col "GENDER" (i, r)
                 /\ (at_col "GENDER" (i, r) = Str "Male"
                     \/ at_col "GENDER" (i, r) = Str "Female"))
                \/ (at_col "GENDER" (i, r') = Str "Unknown"
                    /\ at_col "GENDER" (i, r) <> Str "Male"
                    /\ at_col "GENDER" (i, r) <> Str "Female")))
  /\ (exists d',
        standardize_gender
          (frame_of_record
             (<["GENDER" := PStr "Male name unknown"]>
                (sample_request Legacy "Prison" "White" (PInt 10) "Days")))
        = Ret d'
        /\ length (rows d') = 1%nat).
Proof.
  split.
  - assert (match clean_data decimal_literal Legacy true
                (frame_of_record
                   (sample_request Legacy "Prison" "White" (PInt 10) "Days"))
            with
            | Ret (Cleaned _) => true
            | _ => false
            end = true) as Hok by (vm_compute; reflexivity).
    destruct (clean_data decimal_literal Legacy true
                (frame_of_record
                   (sample_request Legacy "Prison" "White" (PInt 10) "Days")))
      as [[out|message]|e] eqn:E; try discriminate Hok.
    exists out. split; [reflexivity|].
    apply (proj1 (clean_data_gender decimal_literal Legacy true
                    (frame_of_record
                       (sample_request Legacy "Prison" "White" (PInt 10)
                                       "Days"))
                    out) E).
  - destruct (proj2 (clean_data_gender decimal_literal Legacy true
                       (frame_of_record
                          (sample_request Legacy "Prison" "White" (PInt 10)
                                          "Days"))
                       (frame_of_record
                          (sample_request Legacy "Prison" "White" (PInt 10)
                                          "Days")))
                    (frame_of_record
                       (<["GENDER" := PStr "Male name unknown"]>
                          (sample_request Legacy "Prison" "White" (PInt 10)
                                          "Days"))))
      as (d' & Hd & _ & Hlen & _).
    + vm_compute. reflexivity.
    + exists d'. split; [exact Hd | exact Hlen].
Defined.

(** ** No missing value survives *)

Lemma Forall2_map_l {A B C : Type} (R : B -> C -> Prop) (h : A -> B)
    (l : list A) (l' : list C) :
  Forall2 R (map h l) l' -> Forall2 (fun a c => R (h a) c) l l'.
Proof.
  revert l'. induction l as [|a l IH]; intros l' H; inversion H; subst;
    constructor; auto.
Qed.

Lemma Forall2_impl_rel {A B : Type} (R R' : A -> B -> Prop) (l : list A)
    (l' : list B) :
  (forall a b, R a b -> R' a b) -> Forall2 R l l' -> Forall2 R' l l'.
Proof. intros HR H. induction H; constructor; auto. Qed.

(** X5: cardinality reduction keeps the rows, their order and their labels;
    every cell is left as it was or, in a listed column only, replaced by
    [misc_other]. *)
Theorem reduce_cardinality_cells (tops : list (string * nat))
    (d d' : DataFrame) :
  reduce_cardinality tops d = Ret d' ->
  Forall2
    (fun r r' =>
       r'.1 = r.1
       /\ forall c,
            at_col c r' = at_col c r
            \/ (In c (map fst tops) /\ at_col c r' = Str "misc_other"))
    (rows d) (rows d').
Proof.
  revert d. induction tops as [|[name n] rest IH]; intros d H.
  - inversion H; subst d'. clear H.
    induction (rows d) as [|r rs IHr]; constructor; [|exact IHr].
    split; [reflexivity|]. intros c. left. reflexivity.
  - cbn [reduce_cardinality] in H. bind_ret H. apply IH in H.
    cbn [setcol_where rows] in H. apply Forall2_map_l in H.
    eapply Forall2_impl_rel; [|exact H].
    intros [i r] [i' r'] [Hl Hc]. cbn [fst snd map] in *.
    destruct (isin _ (at_col name (i, r))).
    + cbn [fst] in Hl. split; [exact Hl|]. intros c.
      destruct (Hc c) as [Hs | [Hin Hm]].
      * destruct (String.eqb_spec c name) as [-> | Hne].
        -- right. split; [left; reflexivity|].
           rewrite Hs. apply at_col_insert.
        -- left. rewrite Hs. apply at_col_insert_ne. congruence.
      * right. split; [right; exact Hin | exact Hm].
    + split; [exact Hl|]. intros c.
      destruct (Hc c) as [Hs | [Hin Hm]]; [left; exact Hs|].
      right. split; [right; exact Hin | exact Hm].
Qed.

Lemma reduce_cardinality_cells_witness :
  exists reduced,
    reduce_cardinality (top_ns Extended) agency_batch = Ret reduced
    /\ Forall2
         (fun r r' =>
            r'.1 = r.1
            /\ forall c,
                 at_col c r' = at_col c r
                 \/ (In c (map fst (top_ns Extended))
                     /\ at_col c r' = Str "misc_other"))
         (rows agency_batch) (rows reduced).
Proof.
  assert (match reduce_cardinality (top_ns Extended) agency_batch with
          | Ret _ => true
          | Raise _ => false
          end = true) as Hok by (vm_compute; reflexivity).
  destruct (reduce_cardinality (top_ns Extended) agency_batch)
    as [reduced|e] eqn:E; try discriminate Hok.
  exists reduced. split; [reflexivity|].
  apply (reduce_cardinality_cells (top_ns Extended) agency_batch reduced E).
Defined.

Lemma reduce_cardinality_in_cells (tops : list (string * nat))
    (d d' : DataFrame) :
  reduce_cardinality tops d = Ret d' ->
  forall i r', In (i, r') (rows d') ->
    exists r,
      In (i, r) (rows d)
      /\ forall c, at_col c (i, r') = at_col c (i, r)
                   \/ at_col c (i, r') = Str "misc_other".
Proof.
  revert d. induction tops as [|[name n] rest IH]; intros d H i r' Hin.
  - inversion H; subst d'. exists r'. split; [exact Hin|]. intros c. left.
    reflexivity.
  - cbn [reduce_cardinality] in H. bind_ret H.
    destruct (IH _ H i r' Hin) as (r1 & Hr1 & Hc).
    apply in_setcol_where in Hr1. destruct Hr1 as (r & Hr & ->).
    exists r. split; [exact Hr|]. intros c.
    destruct (Hc c) as [Hs | Hm]; [|right; exact Hm].
    destruct (isin _ (at_col name (i, r))); [|left; exact Hs].
    destruct (String.eqb_spec c name) as [-> | Hne].
    + right. rewrite Hs. apply at_col_insert.
    + left. rewrite Hs. apply at_col_insert_ne. congruence.
Qed.

Lemma drop_nulls_no_null (rc : bool) (d d' : DataFrame) :
  drop_nulls rc d = Ret d' ->
  forall r c, In r (rows d') -> In c (columns d') -> at_col c r <> Null.
Proof.
  intros H r c Hr Hc. unfold drop_nulls in H. bind_ret_as H d0.
  inversion H; subst d'. cbn [dropna loc_rows rows columns] in *.
  apply filter_In in Hr. destruct Hr as [_ Hall].
  rewrite forallb_forall in Hall. specialize (Hall c Hc).
  intros Hnull. rewrite Hnull in Hall. discriminate.
Qed.

Lemma clip_upper_null (u : Q) (c : cell) : clip_upper u c = Null -> c = Null.
Proof. destruct c; cbn; congruence. Qed.

(** X6: no cell of a cleaned frame is null, in any of its columns. *)
Theorem clean_data_no_null (f : string -> option (option Q)) (v : variant)
    (removeColumns : bool) (data out : DataFrame) :
  clean_data f v removeColumns data = Ret (Cleaned out) ->
  forall r c, In r (rows out) -> In c (columns out) -> at_col c r <> Null.
Proof.
  intros H [i r7] c Hr Hc.
  destruct (clean_data_steps _ _ _ _ _ H)
    as (d1 & d2 & d3 & d4 & d5 & d6 & S1 & S2 & S3 & S4 & S5 & _ & S6 & S7).
  pose proof (clip_commitment_term_columns _ _ S7) as C7.
  pose proof (reduce_cardinality_columns _ _ _ S6) as [_ C6].
  rewrite C7, C6 in Hc.
  unfold clip_commitment_term in S7. bind_ret S7. inversion S7; subst out.
  apply in_setcol in Hr. destruct Hr as (r6 & Hr6 & ->).
  destruct (reduce_cardinality_in_cells _ _ _ S6 i r6 Hr6)
    as (r5 & Hr5 & Hcells).
  pose proof (drop_nulls_no_null _ _ _ S5 (i, r5)) as Hnn.
  assert (forall c', In c' (columns d5) -> at_col c' (i, r6) <> Null) as H6.
  { intros c' Hc'. destruct (Hcells c') as [-> | ->]; [|discriminate].
    apply Hnn; assumption. }
  destruct (String.eqb_spec c "COMMITMENT_TERM") as [-> | Hne].
  - rewrite at_col_insert. intros Hnull. apply clip_upper_null in Hnull.
    revert Hnull. apply H6. exact Hc.
  - rewrite at_col_insert_ne by congruence. apply H6. exact Hc.
Qed.

Lemma clean_data_no_null_witness :
  exists out,
    clean_data decimal_literal Extended true
               (sample_frame "Prison" "Black" (PInt 10) "Year(s)")
    = Ret (Cleaned out)
    /\ forall r c, In r (rows out) -> In c (columns out) ->
                   at_col c r <> Null.
Proof.
  assert (match clean_data decimal_literal Extended true
              (sample_frame "Prison" "Black" (PInt 10) "Year(s)") with
          | Ret (Cleaned _) => true
          | _ => false
          end = true) as Hok by (vm_compute; reflexivity).
  destruct (clean_data decimal_literal Extended true
              (sample_frame "Prison" "Black" (PInt 10) "Year(s)"))
    as [[out|message]|e] eqn:E; try discriminate Hok.
  - exists out. split; [reflexivity|].
    apply (clean_data_no_null decimal_literal Extended true
             (sample_frame "Prison" "Black" (PInt 10) "Year(s)") out E).
Defined.

(** ** Which rows survive *)

Lemma sublist_labels_filter (p : nat * gmap string cell -> bool)
    (l : list (nat * gmap string cell)) :
  map fst (List.filter p l) `sublist_of` map fst l.
Proof.
  induction l as [|a l IH]; [constructor|].
  cbn [List.filter map]. destruct (p a); cbn [map].
  - apply sublist_skip. exact IH.
  - apply sublist_cons. exact IH.
Qed.

Lemma labels_setcol (c : string) (g : nat * gmap string cell -> cell)
    (d : DataFrame) :
  index_labels (setcol c g d) = index_labels d.
Proof.
  unfold index_labels. cbn [setcol rows]. rewrite map_map. reflexivity.
Qed.

Lemma labels_setcol_where (mask : nat * gmap string cell -> bool)
    (c : string) (x : cell) (d : DataFrame) :
  index_labels (setcol_where mask c x d) = index_labels d.
Proof.
  unfold index_labels. cbn [setcol_where rows]. rewrite map_map.
  apply map_ext. intros r. destruct (mask r); reflexivity.
Qed.

Lemma labels_drop (labels : list string) (d d' : DataFrame) :
  drop labels d = Ret d' -> index_labels d' = index_labels d.
Proof.
  intros H. apply drop_ret in H. destruct H as [_ Hr]. unfold index_labels.
  rewrite Hr, map_map. reflexivity.
Qed.

Lemma labels_loc_rows (mask : nat * gmap string cell -> bool)
    (d : DataFrame) :
  index_labels (loc_rows mask d) `sublist_of` index_labels d.
Proof. apply sublist_labels_filter. Qed.

Lemma labels_astype (f : string -> option (option Q)) (c : string)
    (d d' : DataFrame) :
  astype_float_col f c d = Ret d' -> index_labels d' = index_labels d.
Proof.
  intros H. unfold astype_float_col in H. bind_ret H. bind_ret_as H rs.
  inversion H. unfold index_labels. cbn [rows]. apply mapM_ret in E0.
  clear H H1 E. induction E0 as [|r r' l l' Hr _ IH]; [reflexivity|].
  cbn [map]. rewrite IH. f_equal.
  destruct (astype_float f (at_col c r)); [|discriminate].
  cbn [mbind py_bind] in Hr. inversion Hr. reflexivity.
Qed.

Lemma exclude_non_prison_labels (rc : bool) (d d' : DataFrame) :
  exclude_non_prison rc d = Ret d' ->
  index_labels d' `sublist_of` index_labels d.
Proof.
  intros H. unfold exclude_non_prison in H. bind_ret H. destruct rc.
  - rewrite (labels_drop _ _ _ H). apply labels_loc_rows.
  - injection H as <-. apply labels_loc_rows.
Qed.

Lemma standardize_race_labels (d d' : DataFrame) :
  standardize_race d = Ret d' ->
  index_labels d' `sublist_of` index_labels d.
Proof.
  intros H. unfold standardize_race in H. bind_ret H. injection H as <-.
  etransitivity; [apply labels_loc_rows|].
  etransitivity; [apply labels_loc_rows|].
  rewrite labels_setcol. reflexivity.
Qed.

Lemma standardize_gender_labels (d d' : DataFrame) :
  standardize_gender d = Ret d' -> index_labels d' = index_labels d.
Proof.
  intros H. unfold standardize_gender in H. bind_ret H. injection H as <-.
  apply labels_setcol_where.
Qed.

Lemma normalize_commitment_term_labels (f : string -> option (option Q))
    (rc : bool) (d d' : DataFrame) :
  normalize_commitment_term f rc d = Ret d' ->
  index_labels d' `sublist_of` index_labels d.
Proof.
  intros H. unfold normalize_commitment_term in H. bind_ret_as H d1.
  apply labels_astype in E. bind_ret H. bind_ret_as H d4.
  apply overwrite_natural_life_ret in E1. destruct E1 as (shared & _ & ->).
  assert (index_labels d' = index_labels
            (setcol_where natural_life "COMMITMENT_TERM" shared
               (setcol "COMMITMENT_TERM"
                  (fun r => cell_div (at_col "COMMITMENT_TERM" r)
                              (divisor_col (at_col "COMMITMENT_UNIT" r)))
                  (loc_rows
                     (fun r => isin commitment_term_units
                                    (at_col "COMMITMENT_UNIT" r)) d1))))
    as ->.
  { destruct rc; [apply (labels_drop _ _ _ H) | injection H as <-; reflexivity]. }
  rewrite labels_setcol_where, labels_setcol, <- E. apply labels_loc_rows.
Qed.

Lemma drop_nulls_labels (rc : bool) (d d' : DataFrame) :
  drop_nulls rc d = Ret d' -> index_labels d' `sublist_of` index_labels d.
Proof.
  intros H. unfold drop_nulls in H. bind_ret_as H d0. injection H as <-.
  etransitivity; [apply labels_loc_rows|].
  destruct rc; [rewrite (labels_drop _ _ _ E) | injection E as <-];
    reflexivity.
Qed.

Lemma reduce_cardinality_labels (tops : list (string * nat))
    (d d' : DataFrame) :
  reduce_cardinality tops d = Ret d' -> index_labels d' = index_labels d.
Proof.
  revert d. induction tops as [|[name n] rest IH]; intros d H.
  - inversion H. reflexivity.
  - cbn [reduce_cardinality] in H. bind_ret H. apply IH in H.
    rewrite H. apply labels_setcol_where.
Qed.

Lemma clip_commitment_term_labels (d d' : DataFrame) :
  clip_commitment_term d = Ret d' -> index_labels d' = index_labels d.
Proof.
  intros H. unfold clip_commitment_term in H. bind_ret H. injection H as <-.
  apply labels_setcol.
Qed.

(** X7: a cleaned frame is never empty; its labels are a subsequence of the
    input's labels; a single-record input cleans to a single record of the
    same label. *)
Theorem clean_data_survivors (f : string -> option (option Q)) (v : variant)
    (removeColumns : bool) (data out : DataFrame) :
  clean_data f v removeColumns data = Ret (Cleaned out) ->
  rows out <> []
  /\ index_labels out `sublist_of` index_labels data
  /\ (forall i r, rows data = [(i, r)] -> exists r', rows out = [(i, r')]).
Proof.
  intros H.
  destruct (clean_data_steps _ _ _ _ _ H)
    as (d1 & d2 & d3 & d4 & d5 & d6 & S1 & S2 & S3 & S4 & S5 & Hne & S6 & S7).
  assert (index_labels out = index_labels d5) as H75
    by (rewrite (clip_commitment_term_labels _ _ S7);
        apply (reduce_cardinality_labels _ _ _ S6)).
  assert (rows out <> []) as Hout.
  { intros Hnil. unfold index_labels in H75. rewrite Hnil in H75.
    unfold no_rows in Hne. destruct (rows d5); discriminate. }
  assert (index_labels out `sublist_of` index_labels data) as Hsub.
  { rewrite H75.
    etransitivity; [apply (drop_nulls_labels _ _ _ S5)|].
    etransitivity; [apply (normalize_commitment_term_labels _ _ _ _ S4)|].
    rewrite (standardize_gender_labels _ _ S3).
    etransitivity; [apply (standardize_race_labels _ _ S2)|].
    apply (exclude_non_prison_labels _ _ _ S1). }
  split; [exact Hout|]. split; [exact Hsub|].
  intros i r Hrows. unfold index_labels in Hsub. rewrite Hrows in Hsub.
  cbn [map fst] in Hsub.
  destruct (rows out) as [|[j r'] rest]; [contradiction|].
  pose proof (sublist_length _ _ Hsub) as Hlen. cbn [map length] in Hlen.
  destruct rest; [|cbn in Hlen; lia].
  exists r'. cbn [map fst] in Hsub.
  apply sublist_cons_l in Hsub. destruct Hsub as (k1 & k2 & Hk & _).
  destruct k1 as [|x [|]]; inversion Hk; subst. reflexivity.
Qed.

Lemma clean_data_survivors_witness :
  exists out r',
    clean_data decimal_literal Extended true
               (sample_frame "Prison" "Black" (PInt 10) "Year(s)")
    = Ret (Cleaned out)
    /\ rows out = [(0%nat, r')].
Proof.
  assert (match clean_data decimal_literal Extended true
              (sample_frame "Prison" "Black" (PInt 10) "Year(s)") with
          | Ret (Cleaned _) => true
          | _ => false
          end = true) as Hok by (vm_compute; reflexivity).
  destruct (clean_data decimal_literal Extended true
              (sample_frame "Prison" "Black" (PInt 10) "Year(s)"))
    as [[out|message]|e] eqn:E; try discriminate Hok.
  - destruct (clean_data_survivors decimal_literal Extended true
                (sample_frame "Prison" "Black" (PInt 10) "Year(s)") out E)
      as (_ & _ & Hone).
    destruct (Hone 0%nat
                (cell_of <$> sample_request Extended "Prison" "Black"
                                            (PInt 10) "Year(s)") eq_refl)
      as [r' Hr'].
    exists out, r'. split; [reflexivity | exact Hr'].
Defined.

(** ** Where a cleaned row comes from *)

Lemma exclude_non_prison_sources (rc : bool) (d d' : DataFrame) :
  exclude_non_prison rc d = Ret d' ->
  forall i r', In (i, r') (rows d') ->
    exists r,
      In (i, r) (rows d)
      /\ at_col "SENTENCE_TYPE" (i, r) = Str "Prison"
      /\ forall c, c <> "SENTENCE_TYPE" -> at_col c (i, r') = at_col c (i, r).
Proof.
  intros H i r' Hin. unfold exclude_non_prison in H. bind_ret H.
  destruct rc.
  - apply drop_ret in H. destruct H as [_ Hr]. rewrite Hr in Hin.
    apply in_map_iff in Hin. destruct Hin as ([j r] & Heq & Hin).
    cbn [fst snd] in Heq. inversion Heq; subst.
    cbn [loc_rows rows] in Hin. apply filter_In in Hin.
    destruct Hin as [Hin Hp]. apply cell_eqb_str in Hp.
    exists r. split; [exact Hin|]. split; [exact Hp|].
    intros c Hc. apply at_col_delete_ne. congruence.
  - injection H as <-. cbn [loc_rows rows] in Hin. apply filter_In in Hin.
    destruct Hin as [Hin Hp]. apply cell_eqb_str in Hp.
    exists r'. auto.
Qed.

Lemma normalize_commitment_term_units (f : string -> option (option Q))
    (rc : bool) (d d' : DataFrame) :
  normalize_commitment_term f rc d = Ret d' ->
  forall i r', In (i, r') (rows d') ->
    exists r,
      In (i, r) (rows d)
      /\ isin commitment_term_units (at_col "COMMITMENT_UNIT" (i, r)) = true.
Proof.
  intros H i r' Hin. unfold normalize_commitment_term in H.
  bind_ret_as H d1. apply astype_float_col_ret in E.
  destruct E as (_ & _ & Hrows). bind_ret H. bind_ret_as H d4.
  apply overwrite_natural_life_ret in E0. destruct E0 as (shared & _ & ->).
  assert (exists r4,
            In (i, r4)
               (rows (setcol_where natural_life "COMMITMENT_TERM" shared
                  (setcol "COMMITMENT_TERM"
                     (fun r => cell_div (at_col "COMMITMENT_TERM" r)
                                 (divisor_col (at_col "COMMITMENT_UNIT" r)))
                     (loc_rows
                        (fun r => isin commitment_term_units
                                       (at_col "COMMITMENT_UNIT" r)) d1)))))
    as (r4 & Hr4).
  { destruct rc.
    - apply drop_ret in H. destruct H as [_ Hr]. rewrite Hr in Hin.
      apply in_map_iff in Hin. destruct Hin as ([j r4] & Heq & Hin).
      cbn [fst snd] in Heq. inversion Heq; subst. exists r4. exact Hin.
    - injection H as <-. exists r'. exact Hin. }
  apply in_setcol_where in Hr4. destruct Hr4 as (r3 & Hr3 & _).
  apply in_setcol in Hr3. destruct Hr3 as (r2 & Hr2 & _).
  cbn [loc_rows rows] in Hr2. apply filter_In in Hr2.
  destruct Hr2 as [Hr2 Hunit].
  destruct (Hrows i r2 Hr2) as (r & x & Hr & _ & ->).
  exists r. split; [exact Hr|].
  rewrite at_col_insert_ne in Hunit by discriminate. exact Hunit.
Qed.

Lemma isin_cells (values : list cell) (c : cell) :
  (forall x, In x values -> exists s, x = Str s) ->
  isin values c = true -> In c values.
Proof.
  intros Hstr H. unfold isin in H. apply existsb_exists in H.
  destruct H as (x & Hx & Heq). destruct (Hstr x Hx) as [s ->].
  apply cell_eqb_str in Heq. subst c. exact Hx.
Qed.

(** X8: every row of the cleaned frame comes from an input row that is a
    prison sentence and whose commitment unit is one of Year(s), Months,
    Natural Life and Days. *)
Theorem clean_data_sources (f : string -> option (option Q)) (v : variant)
    (removeColumns : bool) (data out : DataFrame) :
  clean_data f v removeColumns data = Ret (Cleaned out) ->
  forall i r', In (i, r') (rows out) ->
    exists r,
      In (i, r) (rows data)
      /\ at_col "SENTENCE_TYPE" (i, r) = Str "Prison"
      /\ In (at_col "COMMITMENT_UNIT" (i, r)) commitment_term_units.
Proof.
  intros H i r7 Hin.
  destruct (clean_data_steps _ _ _ _ _ H)
    as (d1 & d2 & d3 & d4 & d5 & d6 & S1 & S2 & S3 & S4 & S5 & _ & S6 & S7).
  set (P := fun c : string => c = "COMMITMENT_UNIT").
  assert (rows_from (fun _ => False) d4 out) as Htail.
  { eapply rows_from_trans;
      [eapply (drop_nulls_rows_from (fun _ => False)); [|exact S5]|].
    { intros c []. }
    eapply rows_from_trans;
      [eapply (reduce_cardinality_rows (fun _ => False)); [|exact S6]|].
    { intros name n _ []. }
    eapply (clip_commitment_term_rows_from (fun _ => False)); [|exact S7].
    intros []. }
  destruct (Htail i r7 Hin) as (r4 & Hr4 & _).
  destruct (normalize_commitment_term_units _ _ _ _ S4 i r4 Hr4)
    as (r3 & Hr3 & Hunit).
  assert (rows_from P d1 d3) as Hmid.
  { eapply rows_from_trans; [eapply (standardize_race_rows P); [|exact S2]|].
    { discriminate. }
    eapply (standardize_gender_rows P); [|exact S3]. discriminate. }
  destruct (Hmid i r3 Hr3) as (r1 & Hr1 & E31).
  destruct (exclude_non_prison_sources _ _ _ S1 i r1 Hr1)
    as (r0 & Hr0 & Hprison & E10).
  exists r0. split; [exact Hr0|]. split; [exact Hprison|].
  rewrite (E31 "COMMITMENT_UNIT" eq_refl) in Hunit.
  rewrite (E10 "COMMITMENT_UNIT") in Hunit by discriminate.
  apply isin_cells; [|exact Hunit].
  intros x Hx. cbn in Hx.
  destruct Hx as [<-|[<-|[<-|[<-|[]]]]]; eexists; reflexivity.
Qed.

Lemma clean_data_sources_witness :
  exists out,
    clean_data decimal_literal Extended true
               (sample_frame "Prison" "Black" (PStr "36") "Months")
    = Ret (Cleaned out)
    /\ forall i r', In (i, r') (rows out) ->
         exists r,
           In (i, r)
              (rows (sample_frame "Prison" "Black" (PStr "36") "Months"))
           /\ at_col "SENTENCE_TYPE" (i, r) = Str "Prison"
           /\ In (at_col "COMMITMENT_UNIT" (i, r)) commitment_term_units.
Proof.
  assert (match clean_data decimal_literal Extended true
              (sample_frame "Prison" "Black" (PStr "36") "Months") with
          | Ret (Cleaned _) => true
          | _ => false
          end = true) as Hok by (vm_compute; reflexivity).
  destruct (clean_data decimal_literal Extended true
              (sample_frame "Prison" "Black" (PStr "36") "Months"))
    as [[out|message]|e] eqn:E; try discriminate Hok.
  - exists out. split; [reflexivity|].
    apply (clean_data_sources decimal_literal Extended true
             (sample_frame "Prison" "Black" (PStr "36") "Months") out E).
Defined.

(** ** The messages of a rejection *)

Lemma standardize_gender_no_rows (d d' : DataFrame) :
  standardize_gender d = Ret d' -> no_rows d' = no_rows d.
Proof.
  intros H. apply standardize_gender_labels in H.
  unfold index_labels, no_rows in *.
  destruct (rows d), (rows d'); try discriminate; reflexivity.
Qed.

Lemma clean_data_invalid_message (f : string -> option (option Q))
    (v : variant) (rc : bool) (data : DataFrame) (message : string) :
  clean_data f v rc data = Ret (Invalid message) ->
  In message rejection_messages.
Proof.
  intros H. unfold clean_data in H.
  bind_ret_as H d1.
  destruct (no_rows d1); [inversion H; cbn; auto|].
  bind_ret_as H d2.
  destruct (no_rows d2) eqn:H2; [inversion H; cbn; auto|].
  bind_ret_as H d3. rewrite (standardize_gender_no_rows _ _ E1), H2 in H.
  bind_ret_as H d4.
  destruct (no_rows d4); [inversion H; cbn; auto|].
  bind_ret_as H d5.
  destruct (no_rows d5); [inversion H; cbn; auto 10|].
  bind_ret_as H d6. bind_ret_as H d7. discriminate.
Qed.

(** ** The request handler *)

Lemma forallb_false {A : Type} (p : A -> bool) (l : list A) :
  forallb p l = false -> exists x, In x l /\ p x = false.
Proof.
  induction l as [|a l IH]; [discriminate|].
  cbn [forallb]. destruct (p a) eqn:Ha.
  - intros H. destruct (IH H) as (x & Hx & Hp). exists x. split; [right|]; auto.
  - intros _. exists a. split; [left; reflexivity | exact Ha].
Qed.

Lemma schema_validate_none (schema : list (string * validator))
    (data : gmap string pyval) :
  schema_validate schema data = None <-> schema_invalid schema data.
Proof.
  unfold schema_validate, schema_invalid. split.
  - destruct (forallb _ schema) eqn:H1.
    + destruct (forallb _ (map_to_list data)) eqn:H2; [discriminate|].
      intros _. apply forallb_false in H2. destruct H2 as ([k x] & Hin & Hk).
      right. left. exists k, x. split.
      * apply elem_of_map_to_list. apply list_elem_of_In. exact Hin.
      * cbn [fst] in Hk. apply bool_decide_eq_false in Hk.
        intros Hc. apply Hk, list_elem_of_In. exact Hc.
    + intros _. apply forallb_false in H1. destruct H1 as ([k s] & Hin & Hk).
      cbn [fst snd] in Hk. destruct (data !! k) as [x|] eqn:Hx.
      * right. right. exists k, s, x. auto.
      * left. exists k. split; [|exact Hx]. apply in_map_iff.
        exists (k, s). auto.
  - intros Hinv.
    destruct (forallb _ schema) eqn:H1; [|reflexivity].
    destruct (forallb _ (map_to_list data)) eqn:H2; [|reflexivity].
    exfalso. rewrite forallb_forall in H1, H2.
    destruct Hinv as [(k & Hk & Hnone) | [(k & x & Hx & Hk) | (k & s & x & Hin & Hx & Hv)]].
    + apply in_map_iff in Hk. destruct Hk as ([k' s] & Heq & Hin).
      cbn [fst] in Heq. subst k'. specialize (H1 _ Hin). cbn [fst snd] in H1. rewrite Hnone in H1.
      discriminate.
    + assert (In (k, x) (map_to_list data)) as Hin
        by (apply list_elem_of_In, elem_of_map_to_list; exact Hx).
      specialize (H2 _ Hin). cbn [fst] in H2.
      apply bool_decide_eq_true in H2. apply Hk, list_elem_of_In. exact H2.
    + specialize (H1 _ Hin). cbn [fst snd] in H1. rewrite Hx, Hv in H1.
      discriminate.
Qed.

Lemma schema_validate_some (schema : list (string * validator))
    (data x : gmap string pyval) :
  schema_validate schema data = Some x -> x = data.
Proof.
  unfold schema_validate. destruct (_ && _); [|discriminate]. congruence.
Qed.

Ltac case_scrutinee :=
  match goal with
  | |- context [match ?x with Ret _ => _ | Raise _ => _ end] =>
      let E := fresh "E" in destruct x eqn:E
  | |- context [match ?x with Cleaned _ => _ | Invalid _ => _ end] =>
      destruct x
  | |- context [match ?x with (_, _) => _ end] =>
      let E := fresh "E" in destruct x eqn:E
  | |- context [match ?x with [] => _ | _ :: _ => _ end] => destruct x
  end.

(** X9: both handlers answer with the schema failure exactly for the
    requests the schema refuses (a missing field, a field that is not of the
    schema, a value of the wrong type, such as a boolean charge count); the
    notebook handler then leaves the world as it was. *)
Theorem predict_schema_failure (f : string -> option (option Q))
    (model : Model) (request : gmap string pyval) (w : World) :
  (schema_invalid (PREDICT_SCHEMA Extended) request ->
   NotebookHandler.predict f model request w = (Ret SchemaFailure, w))
  /\ (~ schema_invalid (PREDICT_SCHEMA Extended) request ->
      (NotebookHandler.predict f model request w).1 <> Ret SchemaFailure)
  /\ (schema_invalid (PREDICT_SCHEMA Legacy) request ->
      ServerHandler.predict f model request = Ret SchemaFailure)
  /\ (~ schema_invalid (PREDICT_SCHEMA Legacy) request ->
      ServerHandler.predict f model request <> Ret SchemaFailure).
Proof.
  repeat split.
  - intros H. apply schema_validate_none in H.
    unfold NotebookHandler.predict. rewrite H. reflexivity.
  - intros H. unfold NotebookHandler.predict.
    destruct (schema_validate _ request) as [x|] eqn:Hv;
      [|exfalso; apply H, schema_validate_none; exact Hv].
    repeat case_scrutinee; cbn [fst]; discriminate.
  - intros H. apply schema_validate_none in H.
    unfold ServerHandler.predict. rewrite H. reflexivity.
  - intros H. unfold ServerHandler.predict.
    destruct (schema_validate _ request) as [x|] eqn:Hv;
      [|exfalso; apply H, schema_validate_none; exact Hv].
    destruct (clean_data _ _ _ _) as [[d|m]|e]; cbn [mbind py_bind];
      try discriminate.
    destruct (select _ d) as [d'|e]; cbn [mbind py_bind]; try discriminate.
    destruct (Server.estimate_discrepancy _ _ _) as [[disc h]|e];
      cbn [mbind py_bind]; try discriminate.
    destruct disc; discriminate.
Qed.

Lemma predict_schema_failure_witness :
  NotebookHandler.predict decimal_literal sample_model
    (<["CHARGE_COUNT" := PBool true]>
       (sample_request Extended "Prison" "Black" (PInt 10) "Year(s)"))
    sample_world
  = (Ret SchemaFailure, sample_world).
Proof.
  apply (proj1 (predict_schema_failure decimal_literal sample_model
                  (<["CHARGE_COUNT" := PBool true]>
                     (sample_request Extended "Prison" "Black" (PInt 10)
                                     "Year(s)"))
                  sample_world)).
  right. right. exists "CHARGE_COUNT", V_int, (PBool true).
  split; [left; reflexivity|]. split; [apply lookup_insert_eq | reflexivity].
Defined.

Lemma discrepancy_percentile_world (new_discrepancy : list float)
    (path : string) (w : World) :
  files (discrepancy_percentile new_discrepancy path w).2 = files w
  /\ (opened (discrepancy_percentile new_discrepancy path w).2 = opened w
      \/ opened (discrepancy_percentile new_discrepancy path w).2
         = opened w ++ [path]).
Proof.
  unfold discrepancy_percentile, open.
  destruct (files w !! path) as [[]|]; cbn; auto.
Qed.

(** X10: the notebook handler never changes a file; it opens at most one
    file, the reference distribution, at most once; and when it answers
    with a failure message it has opened nothing. *)
Theorem predict_file_access (f : string -> option (option Q))
    (model : Model) (request : gmap string pyval) (w : World) :
  files (NotebookHandler.predict f model request w).2 = files w
  /\ (opened (NotebookHandler.predict f model request w).2 = opened w
      \/ opened (NotebookHandler.predict f model request w).2
         = opened w ++ [NotebookHandler.TEST_DISCREPANCIES_PATH])
  /\ (forall message,
        (NotebookHandler.predict f model request w).1 = Ret SchemaFailure
        \/ (NotebookHandler.predict f model request w).1
           = Ret (DataFailure message) ->
        (NotebookHandler.predict f model request w).2 = w).
Proof.
  unfold NotebookHandler.predict.
  destruct (schema_validate _ request) as [x|]; [|cbn; intuition].
  destruct (clean_data _ _ _ _) as [[d|m]|e]; [|cbn; intuition..].
  match goal with
  | |- context [match ?x with Ret _ => _ | Raise _ => _ end] =>
      destruct x as [[disc pd]|e]
  end; [|cbn; intuition].
  pose proof (discrepancy_percentile_world
                pd NotebookHandler.TEST_DISCREPANCIES_PATH w) as [Hf Ho].
  destruct (discrepancy_percentile pd _ w) as [[ps|e] w'];
    cbn [fst snd] in *.
  - destruct disc, ps; cbn [fst snd]; (split; [exact Hf|]);
      (split; [exact Ho|]); intros m [Hc|Hc]; discriminate.
  - split; [exact Hf|]. split; [exact Ho|]. intros m [Hc|Hc]; discriminate.
Qed.

Lemma predict_file_access_witness :
  (NotebookHandler.predict decimal_literal sample_model
     (sample_request Extended "Probation" "Black" (PInt 10) "Year(s)")
     sample_world).2
  = sample_world.
Proof.
  apply (proj2 (proj2 (predict_file_access decimal_literal sample_model
                         (sample_request Extended "Probation" "Black"
                                         (PInt 10) "Year(s)")
                         sample_world))
           "DATA ERROR: INVALID: No Prison sentences found").
  right. vm_compute. reflexivity.
Defined.

Lemma discrepancy_percentile_finite (new_discrepancy : list float)
    (path : string) (w : World) (ps : list float) :
  (discrepancy_percentile new_discrepancy path w).1 = Ret ps ->
  Forall (fun p => p = NaN \/ exists q, p = Fin q) ps.
Proof.
  unfold discrepancy_percentile, open.
  destruct (files w !! path) as [[values| |]|]; cbn [fst]; try discriminate.
  intros H. inversion H. clear H H1. apply Forall_forall. intros p Hp.
  apply list_elem_of_In, in_map_iff in Hp. destruct Hp as (x & <- & _).
  destruct (length _); [left; reflexivity | right; eexists; reflexivity].
Qed.

(** X11: a data failure of either handler carries "DATA ERROR: " followed by
    one of the four rejection messages (the gender message never occurs);
    a success of the notebook handler carries exactly the three fields
    [sentencing_discrepancy], [severity] and [model_name], the severity
    being NaN or finite; a success of the server handler carries the one
    field [years_of_racial_bias_sentencing_discrepency]. *)
Theorem predict_responses (f : string -> option (option Q))
    (model : Model) (request : gmap string pyval) (w : World) :
  (forall message,
      (NotebookHandler.predict f model request w).1
      = Ret (DataFailure message) ->
      exists reason,
        In reason rejection_messages
        /\ message = String.append "DATA ERROR: " reason)
  /\ (forall body,
        (NotebookHandler.predict f model request w).1 = Ret (Success body) ->
        exists discrepancy severity,
          body = [("sentencing_discrepancy", VFloat (Fin discrepancy));
                  ("severity", VFloat severity);
                  ("model_name", VStr NotebookHandler.model_name)]
          /\ (severity = NaN \/ exists q, severity = Fin q))
  /\ (forall message,
        ServerHandler.predict f model request = Ret (DataFailure message) ->
        exists reason,
          In reason rejection_messages
          /\ message = String.append "DATA ERROR: " reason)
  /\ (forall body,
        ServerHandler.predict f model request = Ret (Success body) ->
        exists discrepancy,
          body = [("years_of_racial_bias_sentencing_discrepency",
                   VFloat (Fin discrepancy))]).
Proof.
  split; [|split; [|split]].
  - intros message. unfold NotebookHandler.predict.
    destruct (schema_validate _ request) as [x|]; [|discriminate].
    destruct (clean_data _ _ _ _) as [[d|m]|e] eqn:Hc; try discriminate.
    + repeat case_scrutinee; cbn [fst]; discriminate.
    + cbn [fst]. intros H. inversion H. exists m.
      split; [eapply clean_data_invalid_message; exact Hc | reflexivity].
  - intros body. unfold NotebookHandler.predict.
    destruct (schema_validate _ request) as [x|]; [|discriminate].
    destruct (clean_data _ _ _ _) as [[d|m]|e]; try discriminate.
    match goal with
    | |- context [match ?x with Ret _ => _ | Raise _ => _ end] =>
        destruct x as [[disc pd]|e]
    end; [|discriminate].
    destruct (discrepancy_percentile pd _ w) as [[ps|e] w'] eqn:Hp;
      [|discriminate].
    pose proof (discrepancy_percentile_finite
                  pd NotebookHandler.TEST_DISCREPANCIES_PATH w ps) as Hfin.
    rewrite Hp in Hfin. specialize (Hfin eq_refl).
    destruct disc as [|d0 ?], ps as [|p0 ?]; try discriminate.
    cbn [fst]. intros H. inversion H. exists (round3 d0), (fround3 p0).
    split; [reflexivity|]. inversion Hfin as [|? ? Hp0 _]; subst.
    destruct Hp0 as [-> | [q ->]];
      [left; reflexivity | right; eexists; reflexivity].
  - intros message. unfold ServerHandler.predict.
    destruct (schema_validate _ request) as [x|]; [|discriminate].
    destruct (clean_data _ _ _ _) as [[d|m]|e] eqn:Hc; cbn [mbind py_bind];
      try discriminate.
    + destruct (select _ d) as [d'|e]; cbn [mbind py_bind]; try discriminate.
      destruct (Server.estimate_discrepancy _ _ _) as [[disc h]|e];
        cbn [mbind py_bind]; try discriminate.
      destruct disc; discriminate.
    + intros H. inversion H. exists m.
      split; [eapply clean_data_invalid_message; exact Hc | reflexivity].
  - intros body. unfold ServerHandler.predict.
    destruct (schema_validate _ request) as [x|]; [|discriminate].
    destruct (clean_data _ _ _ _) as [[d|m]|e]; cbn [mbind py_bind];
      try discriminate.
    destruct (select _ d) as [d'|e]; cbn [mbind py_bind]; try discriminate.
    destruct (Server.estimate_discrepancy _ _ _) as [[disc h]|e];
      cbn [mbind py_bind]; try discriminate.
    destruct disc as [|d0 ?]; try discriminate.
    intros H. inversion H. eexists. reflexivity.
Qed.

Lemma predict_responses_witness :
  exists reason,
    In reason rejection_messages
    /\ "DATA ERROR: INVALID: No Prison sentences found"
       = String.append "DATA ERROR: " reason.
Proof.
  apply (proj1 (predict_responses decimal_literal sample_model
                  (sample_request Extended "Probation" "Black" (PInt 10)
                                  "Year(s)")
                  sample_world)).
  vm_compute. reflexivity.
Defined.

(** ** The range of a severity *)

Lemma filter_length_le {A : Type} (p : A -> bool) (l : list A) :
  (length (List.filter p l) <= length l)%nat.
Proof.
  induction l as [|a l IH]; [reflexivity|].
  cbn [List.filter]. destruct (p a); cbn [length]; lia.
Qed.

Lemma mask_count_mono {A : Type} (p q : A -> bool) (l : list A) :
  (forall x, p x = true -> q x = true) ->
  (length (List.filter id (map p l))
   <= length (List.filter id (map q l)))%nat.
Proof.
  intros H. induction l as [|a l IH]; [reflexivity|].
  cbn [map List.filter].
  change (id (p a)) with (p a). change (id (q a)) with (q a).
  destruct (p a) eqn:Hp; [rewrite (H a Hp) | destruct (q a)];
    cbn [length]; lia.
Qed.

Lemma ratio_bounds (k n : nat) :
  (k <= S n)%nat ->
  (0 <= inject_Z (Z.of_nat k) / inject_Z (Z.of_nat (S n)) * 100 <= 100)%Q.
Proof.
  intros Hk.
  assert (0 < inject_Z (Z.of_nat (S n)))%Q as Hpos.
  { change 0%Q with (inject_Z 0). rewrite <- Zlt_Qlt. lia. }
  assert (0 <= inject_Z (Z.of_nat k))%Q as Hk0.
  { change 0%Q with (inject_Z 0). rewrite <- Zle_Qle. lia. }
  assert (inject_Z (Z.of_nat k) <= inject_Z (Z.of_nat (S n)))%Q as Hkn.
  { rewrite <- Zle_Qle. lia. }
  split.
  - apply Qmult_le_0_compat; [|discriminate].
    apply Qle_shift_div_l; [exact Hpos|]. rewrite Qmult_0_l. exact Hk0.
  - apply Qle_trans with (1 * 100)%Q; [|discriminate].
    apply Qmult_le_compat_r; [|discriminate].
    apply Qle_shift_div_r; [exact Hpos|]. rewrite Qmult_1_l. exact Hkn.
Qed.

Lemma ratio_mono (j k n : nat) :
  (j <= k)%nat ->
  (inject_Z (Z.of_nat j) / inject_Z (Z.of_nat (S n)) * 100
   <= inject_Z (Z.of_nat k) / inject_Z (Z.of_nat (S n)) * 100)%Q.
Proof.
  intros Hjk.
  assert (0 < inject_Z (Z.of_nat (S n)))%Q as Hpos.
  { change 0%Q with (inject_Z 0). rewrite <- Zlt_Qlt. lia. }
  apply Qmult_le_compat_r; [|discriminate].
  unfold Qdiv. apply Qmult_le_compat_r.
  - rewrite <- Zle_Qle. lia.
  - apply Qlt_le_weak, Qinv_lt_0_compat. exact Hpos.
Qed.

(** X12: the scorer returns one severity per new value; against a non-empty
    reference every severity lies between 0 and 100; against an empty
    reference every severity is NaN. *)
Theorem discrepancy_percentile_bounds (w : World) (path : string)
    (reference : list Q) (new_discrepancy : list float) :
  files w !! path = Some (JsonList reference) ->
  exists percentile,
    (discrepancy_percentile new_discrepancy path w).1 = Ret percentile
    /\ length percentile = length new_discrepancy
    /\ (reference = [] -> Forall (fun p => p = NaN) percentile)
    /\ (reference <> [] ->
        Forall (fun p => exists q, p = Fin q /\ (0 <= q <= 100)%Q)
               percentile).
Proof.
  intros Hfile. unfold discrepancy_percentile, open. rewrite Hfile.
  cbn [fst]. eexists. split; [reflexivity|].
  split; [rewrite !length_map; reflexivity|].
  split.
  - intros ->. cbn [map length]. apply Forall_forall. intros p Hp.
    apply list_elem_of_In, in_map_iff in Hp. destruct Hp as (x & <- & _).
    reflexivity.
  - intros Hne. apply Forall_forall. intros p Hp.
    apply list_elem_of_In, in_map_iff in Hp. destruct Hp as (x & <- & _).
    destruct reference as [|t l]; [congruence|].
    cbn [map length]. eexists. split; [reflexivity|].
    apply ratio_bounds.
    etransitivity; [apply filter_length_le|].
    cbn [length]. rewrite !length_map. reflexivity.
Qed.

Lemma discrepancy_percentile_bounds_witness :
  exists percentile,
    (discrepancy_percentile [Fin 0.25; NaN; Inf false]
       NotebookHandler.TEST_DISCREPANCIES_PATH sample_world).1
    = Ret percentile
    /\ length percentile = 3%nat
    /\ ([0.1; 0.2; 0.3; 0.4]%Q = [] -> Forall (fun p => p = NaN) percentile)
    /\ ([0.1; 0.2; 0.3; 0.4]%Q <> [] ->
        Forall (fun p => exists q, p = Fin q /\ (0 <= q <= 100)%Q)
               percentile).
Proof.
  apply (discrepancy_percentile_bounds sample_world
           NotebookHandler.TEST_DISCREPANCIES_PATH [0.1; 0.2; 0.3; 0.4]%Q
           [Fin 0.25; NaN; Inf false]).
  reflexivity.
Defined.

Lemma fabs_fneg (x : float) : fabs (fneg x) = fabs x.
Proof.
  destruct x as [|b|[n d]]; try reflexivity.
  cbn [fneg fabs]. f_equal. unfold Qabs, Qopp. cbn [Qnum Qden].
  rewrite Z.abs_opp. reflexivity.
Qed.

Lemma map_fabs_fneg (l : list float) : map fabs (map fneg l) = map fabs l.
Proof.
  induction l as [|x l IH]; [reflexivity|].
  cbn [map]. rewrite fabs_fneg, IH. reflexivity.
Qed.

(** X13: the severities do not depend on the sign of the new discrepancies,
    so they are the same under either sign convention of the estimator. *)
Theorem discrepancy_percentile_sign (w : World) (path : string)
    (new_discrepancy : list float) :
  discrepancy_percentile (map fneg new_discrepancy) path w
  = discrepancy_percentile new_discrepancy path w.
Proof.
  unfold discrepancy_percentile. rewrite map_fabs_fneg. reflexivity.
Qed.

(** X14: a discrepancy of larger magnitude never gets a smaller severity. *)
Theorem discrepancy_percentile_monotone (w : World) (path : string)
    (reference : list Q) (a b : Q) :
  files w !! path = Some (JsonList reference) ->
  reference <> [] ->
  (Qabs a <= Qabs b)%Q ->
  exists p q,
    (discrepancy_percentile [Fin a; Fin b] path w).1 = Ret [Fin p; Fin q]
    /\ (p <= q)%Q.
Proof.
  intros Hfile Hne Hab. unfold discrepancy_percentile, open. rewrite Hfile.
  cbn [fst map fabs]. destruct reference as [|t l]; [congruence|].
  cbn [length map]. do 2 eexists. split; [reflexivity|].
  apply ratio_mono.
  apply (mask_count_mono (fgt (Fin (Qabs a))) (fgt (Fin (Qabs b)))
           (Fin (Qabs t) :: map (fun t => Fin (Qabs t)) l)).
  intros [|[]|c]; cbn [fgt]; try discriminate; try reflexivity.
  intros Hac. apply negb_true_iff in Hac. apply negb_true_iff.
  destruct (Qle_bool (Qabs b) c) eqn:Hbc; [|reflexivity].
  apply Qle_bool_iff in Hbc.
  assert (Qle_bool (Qabs a) c = true) as Hc
    by (apply Qle_bool_iff; eapply Qle_trans; eassumption).
  congruence.
Qed.

Lemma discrepancy_percentile_monotone_witness :
  exists p q,
    (discrepancy_percentile [Fin 0.15; Fin (-0.35)]
       NotebookHandler.TEST_DISCREPANCIES_PATH sample_world).1
    = Ret [Fin p; Fin q]
    /\ (p <= q)%Q.
Proof.
  apply (discrepancy_percentile_monotone sample_world
           NotebookHandler.TEST_DISCREPANCIES_PATH [0.1; 0.2; 0.3; 0.4]%Q
           0.15 (-0.35))%Q.
  - reflexivity.
  - discriminate.
  - vm_compute. discriminate.
Defined.

(** ** Counterfactual of a counterfactual, and a model blind to race *)

Lemma has_col_setcol (c c' : string) (g : nat * gmap string cell -> cell)
    (d : DataFrame) :
  has_col c d = true -> has_col c (setcol c' g d) = true.
Proof. intros H. unfold has_col. cbn [setcol columns]. apply has_col_add_label. exact H. Qed.

(** X15: the counterfactual of the counterfactual restores the race of a
    Black or White row and turns every other cleaned race into Black; all
    other cells and the labels are those of the input, and each call
    allocates one new object. *)
Theorem make_counterfactual_twice (h : list DataFrame) (data : nat)
    (d : DataFrame) :
  h !! data = Some d ->
  has_col "RACE" d = true ->
  exists d1 d2,
    make_counterfactual data h = Ret (length h, h ++ [d1])
    /\ make_counterfactual (length h) (h ++ [d1])
       = Ret (S (length h), (h ++ [d1]) ++ [d2])
    /\ Forall2
         (fun r r2 =>
            r2.1 = r.1
            /\ (forall c, c <> "RACE" -> r2.2 !! c = r.2 !! c)
            /\ (at_col "RACE" r = Str "Black" \/ at_col "RACE" r = Str "White" ->
                at_col "RACE" r2 = at_col "RACE" r)
            /\ (at_col "RACE" r = Str "HISPANIC"
                \/ at_col "RACE" r = Str "Asian"
                \/ at_col "RACE" r = Str "American Indian" ->
                at_col "RACE" r2 = Str "Black"))
         (rows d) (rows d2).
Proof.
  intros Hd Hcol.
  pose proof (make_counterfactual_run h data d Hd Hcol) as Hrun1.
  set (cf := fun r => map_dict race_counterfactual_map (at_col "RACE" r))
    in *.
  pose proof (make_counterfactual_run (h ++ [setcol "RACE" cf d]) (length h)
                (setcol "RACE" cf d)) as Hrun2.
  rewrite length_app in Hrun2. cbn [length] in Hrun2.
  rewrite Nat.add_1_r in Hrun2.
  do 2 eexists. split; [exact Hrun1|]. split.
  - apply Hrun2.
    + apply list_lookup_middle. reflexivity.
    + apply has_col_setcol. exact Hcol.
  - cbn [setcol rows]. rewrite map_map.
    induction (rows d) as [|[i m] rs IH]; constructor; [|exact IH].
    cbn [fst snd]. split; [reflexivity|]. split.
    + intros c Hc. rewrite !lookup_insert_ne by congruence. reflexivity.
    + unfold cf. rewrite !at_col_insert.
      split.
      * intros [-> | ->]; reflexivity.
      * intros [-> | [-> | ->]]; reflexivity.
Qed.

Lemma make_counterfactual_twice_witness :
  exists d1 d2,
    make_counterfactual 0
      [sample_frame "Prison" "HISPANIC" (PInt 10) "Year(s)"]
    = Ret (1%nat,
           [sample_frame "Prison" "HISPANIC" (PInt 10) "Year(s)"] ++ [d1])
    /\ make_counterfactual 1
         ([sample_frame "Prison" "HISPANIC" (PInt 10) "Year(s)"] ++ [d1])
       = Ret (2%nat,
              ([sample_frame "Prison" "HISPANIC" (PInt 10) "Year(s)"]
               ++ [d1]) ++ [d2])
    /\ Forall2
         (fun r r2 =>
            r2.1 = r.1
            /\ (forall c, c <> "RACE" -> r2.2 !! c = r.2 !! c)
            /\ (at_col "RACE" r = Str "Black" \/ at_col "RACE" r = Str "White" ->
                at_col "RACE" r2 = at_col "RACE" r)
            /\ (at_col "RACE" r = Str "HISPANIC"
                \/ at_col "RACE" r = Str "Asian"
                \/ at_col "RACE" r = Str "American Indian" ->
                at_col "RACE" r2 = Str "Black"))
         (rows (sample_frame "Prison" "HISPANIC" (PInt 10) "Year(s)"))
         (rows d2).
Proof.
  apply (make_counterfactual_twice
           [sample_frame "Prison" "HISPANIC" (PInt 10) "Year(s)"] 0
           (sample_frame "Prison" "HISPANIC" (PInt 10) "Year(s)")).
  - reflexivity.
  - vm_compute. reflexivity.
Defined.

Lemma zip_with_minus_self (p : list Q) :
  Forall (fun x => (x == 0)%Q) (zip_with Qminus p p).
Proof.
  induction p as [|x p IH]; constructor; [|exact IH].
  unfold Qminus. apply Qplus_opp_r.
Qed.

(** X16: for a model whose prediction does not read the [RACE] column, both
    estimators return a discrepancy of zero for every row. *)
Theorem race_blind_no_discrepancy (model : Model) (h : list DataFrame)
    (data : nat) (d : DataFrame) (return_pred : bool) :
  race_blind model ->
  h !! data = Some d ->
  has_col "RACE" d = true ->
  (exists diff pred h',
      Notebook.estimate_discrepancy model data return_pred h
      = Ret (diff, pred, h')
      /\ length diff = length (model_predict model d)
      /\ Forall (fun x => (x == 0)%Q) diff)
  /\ (exists diff h',
        Server.estimate_discrepancy model data h = Ret (diff, h')
        /\ length diff = length (model_predict model d)
        /\ Forall (fun x => (x == 0)%Q) diff).
Proof.
  intros Hblind Hd Hcol.
  pose proof (make_counterfactual_run h data d Hd Hcol) as Hrun.
  set (dc := setcol "RACE"
               (fun r => map_dict race_counterfactual_map (at_col "RACE" r))
               d) in *.
  assert (model_predict model dc = model_predict model d) as Hsame.
  { symmetry. apply Hblind.
    - unfold dc. cbn [setcol columns]. symmetry. apply add_label_has.
      exact Hcol.
    - unfold dc. cbn [setcol rows].
      induction (rows d) as [|r rs IH]; constructor; [|exact IH].
      cbn [fst snd]. split; [reflexivity|].
      intros c Hc. symmetry. apply lookup_insert_ne. congruence. }
  assert ((h ++ [dc]) !! data = Some d) as Hkeep
    by (rewrite lookup_app_l by (eapply lookup_lt_Some; exact Hd); exact Hd).
  assert ((h ++ [dc]) !! length h = Some dc) as Hnew
    by (apply list_lookup_middle; reflexivity).
  assert (broadcast2 Qminus (model_predict model d) (model_predict model d)
          = Ret (zip_with Qminus (model_predict model d)
                          (model_predict model d))) as Hb
    by (unfold broadcast2; rewrite Nat.eqb_refl; reflexivity).
  assert (length (zip_with Qminus (model_predict model d)
                           (model_predict model d))
          = length (model_predict model d)) as Hlen
    by (rewrite length_zip_with; lia).
  split.
  - unfold Notebook.estimate_discrepancy, deref.
    rewrite Hd, Hrun. cbn [mbind py_bind]. rewrite Hnew.
    cbn [mbind py_bind]. rewrite Hsame, Hb. cbn [mbind py_bind].
    destruct return_pred; do 3 eexists;
      (split; [reflexivity|]); (split; [exact Hlen|]);
      apply zip_with_minus_self.
  - unfold Server.estimate_discrepancy, deref.
    rewrite Hrun. cbn [mbind py_bind]. rewrite Hnew, Hkeep.
    cbn [mbind py_bind]. rewrite Hsame, Hb. cbn [mbind py_bind].
    do 2 eexists. split; [reflexivity|]. split; [exact Hlen|].
    apply zip_with_minus_self.
Qed.

Lemma flat_model_blind : race_blind flat_model.
Proof.
  intros d d' _ Hrows. cbn [flat_model model_predict].
  induction Hrows as [|r r' l l' _ _ IH]; [reflexivity|].
  cbn [map]. rewrite IH. reflexivity.
Qed.

Lemma race_blind_no_discrepancy_witness :
  exists diff pred h',
    Notebook.estimate_discrepancy flat_model 0 true
      [sample_frame "Prison" "Black" (PInt 10) "Year(s)"]
    = Ret (diff, pred, h')
    /\ length diff
       = length (model_predict flat_model
                   (sample_frame "Prison" "Black" (PInt 10) "Year(s)"))
    /\ Forall (fun x => (x == 0)%Q) diff.
Proof.
  apply (proj1 (race_blind_no_discrepancy flat_model
                  [sample_frame "Prison" "Black" (PInt 10) "Year(s)"] 0
                  (sample_frame "Prison" "Black" (PInt 10) "Year(s)") true
                  flat_model_blind eq_refl eq_refl)).
Defined.

(** ** A term written as a string *)

Lemma same_term_row_at_col (f : string -> option (option Q))
    (r r' : nat * gmap string cell) (c : string) :
  same_term_row f r r' -> c <> "COMMITMENT_TERM" -> at_col c r' = at_col c r.
Proof.
  destruct r as [i m], r' as [i' m']. intros (Hl & y & Hm & _) Hc.
  cbn [fst snd] in *. subst. apply at_col_insert_ne. congruence.
Qed.

Lemma Forall2_filter_rel {A : Type} (R : A -> A -> Prop) (p : A -> bool)
    (l l' : list A) :
  (forall a b, R a b -> p b = p a) ->
  Forall2 R l l' -> Forall2 R (List.filter p l) (List.filter p l').
Proof.
  intros Hp H. induction H as [|a b l l' Hab _ IH]; [constructor|].
  cbn [List.filter]. rewrite (Hp a b Hab).
  destruct (p a); [constructor; assumption | exact IH].
Qed.

Lemma Forall2_map_rel {A : Type} (R : A -> A -> Prop) (g : A -> A)
    (l l' : list A) :
  (forall a b, R a b -> R (g a) (g b)) ->
  Forall2 R l l' -> Forall2 R (map g l) (map g l').
Proof.
  intros Hg H. induction H; cbn [map]; constructor; auto.
Qed.

Lemma same_but_term_loc_rows (f : string -> option (option Q))
    (mask : nat * gmap string cell -> bool) (d d' : DataFrame) :
  (forall r r', same_term_row f r r' -> mask r' = mask r) ->
  same_but_term f d d' ->
  same_but_term f (loc_rows mask d) (loc_rows mask d').
Proof.
  intros Hm [Hc Hr]. split; [exact Hc|]. cbn [loc_rows rows].
  apply Forall2_filter_rel; assumption.
Qed.

Lemma same_term_row_insert (f : string -> option (option Q))
    (r r' : nat * gmap string cell) (c : string) (x : cell) :
  c <> "COMMITMENT_TERM" ->
  same_term_row f r r' ->
  same_term_row f (r.1, <[c := x]> (r.2)) (r'.1, <[c := x]> (r'.2)).
Proof.
  destruct r as [i m], r' as [i' m']. intros Hc (Hl & y & Hm & Hy).
  cbn [fst snd] in *. subst. split; [reflexivity|]. exists y. cbn [fst snd].
  split.
  - apply insert_insert_ne. congruence.
  - rewrite Hy. rewrite at_col_insert_ne by exact Hc. reflexivity.
Qed.

Lemma same_but_term_setcol (f : string -> option (option Q)) (c : string)
    (g : nat * gmap string cell -> cell) (d d' : DataFrame) :
  c <> "COMMITMENT_TERM" ->
  (forall r r', same_term_row f r r' -> g r' = g r) ->
  same_but_term f d d' ->
  same_but_term f (setcol c g d) (setcol c g d').
Proof.
  intros Hc Hg [Hcols Hr]. split; [cbn [setcol columns]; rewrite Hcols; reflexivity|].
  cbn [setcol rows]. induction Hr as [|r r' l l' Hrr _ IH]; cbn [map];
    constructor; [|exact IH].
  rewrite (Hg r r' Hrr). apply same_term_row_insert; assumption.
Qed.

Lemma same_but_term_setcol_where (f : string -> option (option Q))
    (mask : nat * gmap string cell -> bool) (c : string) (x : cell)
    (d d' : DataFrame) :
  c <> "COMMITMENT_TERM" ->
  (forall r r', same_term_row f r r' -> mask r' = mask r) ->
  same_but_term f d d' ->
  same_but_term f (setcol_where mask c x d) (setcol_where mask c x d').
Proof.
  intros Hc Hm [Hcols Hr].
  split; [cbn [setcol_where columns]; rewrite Hcols; reflexivity|].
  cbn [setcol_where rows]. induction Hr as [|r r' l l' Hrr _ IH]; cbn [map];
    constructor; [|exact IH].
  rewrite (Hm r r' Hrr). destruct (mask r); [|exact Hrr].
  apply same_term_row_insert; assumption.
Qed.

Lemma same_but_term_drop (f : string -> option (option Q)) (c : string)
    (d d' : DataFrame) :
  c <> "COMMITMENT_TERM" ->
  same_but_term f d d' ->
  match drop [c] d, drop [c] d' with
  | Ret x, Ret x' => same_but_term f x x'
  | Raise e, Raise e' => e = e'
  | _, _ => False
  end.
Proof.
  intros Hc [Hcols Hr]. unfold drop. rewrite Hcols.
  destruct (first_missing [c] (columns d)); [reflexivity|].
  split; [reflexivity|]. cbn [rows].
  induction Hr as [|[i m] [i' m'] l l' Hrr _ IH]; cbn [map];
    constructor; [|exact IH].
  destruct Hrr as (Hl & y & Hm & Hy). cbn [fst snd] in *. subst.
  split; [reflexivity|]. exists y. cbn [fst snd delete_labels fold_right].
  split.
  - apply delete_insert_ne. congruence.
  - rewrite Hy. rewrite at_col_delete_ne by exact Hc. reflexivity.
Qed.

Lemma same_but_term_getcol (f : string -> option (option Q)) (c : string)
    (d d' : DataFrame) :
  same_but_term f d d' -> has_col c d' = has_col c d.
Proof. intros [Hcols _]. unfold has_col. rewrite Hcols. reflexivity. Qed.

Lemma same_but_term_no_rows (f : string -> option (option Q))
    (d d' : DataFrame) :
  same_but_term f d d' -> no_rows d' = no_rows d.
Proof. intros [_ Hr]. unfold no_rows. destruct Hr; reflexivity. Qed.

Lemma mapM_rel {A B : Type} (R : A -> A -> Prop) (g : A -> py B)
    (l l' : list A) :
  (forall a b, R a b -> g b = g a) ->
  Forall2 R l l' -> mapM g l' = mapM g l.
Proof.
  intros Hg H. induction H as [|a b l l' Hab _ IH]; [reflexivity|].
  cbn [mapM]. rewrite (Hg a b Hab), IH. reflexivity.
Qed.

Lemma same_but_term_astype (f : string -> option (option Q))
    (d d' : DataFrame) :
  same_but_term f d d' ->
  astype_float_col f "COMMITMENT_TERM" d'
  = astype_float_col f "COMMITMENT_TERM" d.
Proof.
  intros Hs. pose proof Hs as [Hcols Hr]. unfold astype_float_col, getcol.
  rewrite (same_but_term_getcol _ _ _ _ Hs).
  destruct (has_col "COMMITMENT_TERM" d); [|reflexivity].
  cbn [mbind py_bind]. rewrite Hcols.
  rewrite (mapM_rel (same_term_row f) _ (rows d) (rows d')); [reflexivity| |exact Hr].
  intros [i m] [i' m'] (Hl & y & Hm & Hy). cbn [fst snd] in *. subst.
  rewrite at_col_insert, Hy.
  destruct (astype_float f (at_col "COMMITMENT_TERM" (i, m))); [|reflexivity].
  cbn [mbind py_bind]. rewrite insert_insert_eq. reflexivity.
Qed.

(** X17: two frames that differ only in how the commitment terms are
    written, by values that [astype(float)] converts alike, are cleaned to
    the same result: the same frame, the same message or the same
    exception. *)
Theorem clean_data_term_spelling (f : string -> option (option Q))
    (v : variant) (removeColumns : bool) (d d' : DataFrame) :
  same_but_term f d d' ->
  clean_data f v removeColumns d' = clean_data f v removeColumns d.
Proof.
  intros Hs. unfold clean_data.
  assert (match exclude_non_prison removeColumns d,
                exclude_non_prison removeColumns d' with
          | Ret x, Ret x' => same_but_term f x x'
          | Raise e, Raise e' => e = e'
          | _, _ => False
          end) as H1.
  { unfold exclude_non_prison, getcol.
    rewrite (same_but_term_getcol _ _ _ _ Hs).
    destruct (has_col "SENTENCE_TYPE" d); [|reflexivity].
    cbn [mbind py_bind].
    assert (same_but_term f
              (loc_rows (fun r => cell_eqb (at_col "SENTENCE_TYPE" r)
                                           (Str "Prison")) d)
              (loc_rows (fun r => cell_eqb (at_col "SENTENCE_TYPE" r)
                                           (Str "Prison")) d')) as Hl.
    { apply same_but_term_loc_rows; [|exact Hs]. intros r r' Hrr.
      rewrite (same_term_row_at_col _ _ _ _ Hrr) by discriminate.
      reflexivity. }
    destruct removeColumns; [|exact Hl].
    apply same_but_term_drop; [discriminate | exact Hl]. }
  destruct (exclude_non_prison removeColumns d) as [d1|e1],
           (exclude_non_prison removeColumns d') as [d1'|e1'];
    try contradiction; [|congruence].
  cbn [mbind py_bind]. rewrite (same_but_term_no_rows _ _ _ H1).
  destruct (no_rows d1); [reflexivity|].
  assert (match standardize_race d1, standardize_race d1' with
          | Ret x, Ret x' => same_but_term f x x'
          | Raise e, Raise e' => e = e'
          | _, _ => False
          end) as H2.
  { unfold standardize_race, getcol.
    rewrite (same_but_term_getcol _ _ _ _ H1).
    destruct (has_col "RACE" d1); [|reflexivity].
    cbn [mbind py_bind].
    apply same_but_term_loc_rows.
    { intros r r' Hrr.
      rewrite (same_term_row_at_col _ _ _ _ Hrr) by discriminate.
      reflexivity. }
    apply same_but_term_loc_rows.
    { intros r r' Hrr.
      rewrite (same_term_row_at_col _ _ _ _ Hrr) by discriminate.
      reflexivity. }
    apply same_but_term_setcol; [discriminate| |exact H1].
    intros r r' Hrr.
    rewrite (same_term_row_at_col _ _ _ _ Hrr) by discriminate.
    reflexivity. }
  destruct (standardize_race d1) as [d2|e2],
           (standardize_race d1') as [d2'|e2'];
    try contradiction; [|congruence].
  cbn [mbind py_bind]. rewrite (same_but_term_no_rows _ _ _ H2).
  destruct (no_rows d2); [reflexivity|].
  assert (match standardize_gender d2, standardize_gender d2' with
          | Ret x, Ret x' => same_but_term f x x'
          | Raise e, Raise e' => e = e'
          | _, _ => False
          end) as H3.
  { unfold standardize_gender, getcol.
    rewrite (same_but_term_getcol _ _ _ _ H2).
    destruct (has_col "GENDER" d2); [|reflexivity].
    cbn [mbind py_bind].
    apply same_but_term_setcol_where; [discriminate| |exact H2].
    intros r r' Hrr.
    rewrite (same_term_row_at_col _ _ _ _ Hrr) by discriminate.
    reflexivity. }
  destruct (standardize_gender d2) as [d3|e3],
           (standardize_gender d2') as [d3'|e3'];
    try contradiction; [|congruence].
  cbn [mbind py_bind]. rewrite (same_but_term_no_rows _ _ _ H3).
  destruct (no_rows d3); [reflexivity|].
  unfold normalize_commitment_term.
  rewrite (same_but_term_astype _ _ _ H3). reflexivity.
Qed.

Lemma clean_data_term_spelling_witness :
  clean_data decimal_literal Extended true
    (setcol "COMMITMENT_TERM" (fun _ => Str "10")
            (sample_frame "Prison" "Black" (PInt 10) "Year(s)"))
  = clean_data decimal_literal Extended true
      (sample_frame "Prison" "Black" (PInt 10) "Year(s)").
Proof.
  apply (clean_data_term_spelling decimal_literal Extended true
           (sample_frame "Prison" "Black" (PInt 10) "Year(s)")).
  split.
  - apply add_label_has. vm_compute. reflexivity.
  - cbn [setcol sample_frame frame_of_record rows map fst snd].
    constructor; [|constructor]. split; [reflexivity|].
    exists (Str "10"). split; [reflexivity|]. vm_compute. reflexivity.
Defined.
